(** * EEG score check-list: form collection and report composition

    A shallow embedding of the original logic of [document_generator.py]
    and [dynamic_form.py]: the classification of form keys into report
    sections, the display form of field names, placeholder substitution in
    Word templates, the truncation of PDF cells, the error policy of the two
    export paths, and the construction, collection and clearing of the form.

    Python strings are modelled by [string]; a character stands for the code
    point of the same number.  The character classes below are those of
    Python for code points under 256; the case mappings are those of ASCII
    (Python maps a few Latin-1 letters outside of Latin-1, which [ascii]
    cannot hold), so statements about [title] are made for ASCII text. *)

From Stdlib Require Import String Ascii List ZArith Lia Bool Arith DecimalString.
From Stdlib Require Import Permutation.
Import ListNotations.
Open Scope list_scope.
Open Scope string_scope.
Open Scope nat_scope.

(* ================================================================= *)
(** ** Python strings *)

Module PyStr.

Definition code (c : ascii) : nat := nat_of_ascii c.

Definition in_range (lo hi : nat) (c : ascii) : bool :=
  (lo <=? code c) && (code c <=? hi).

Definition ch_isupper (c : ascii) : bool := in_range 65 90 c.
Definition ch_islower (c : ascii) : bool := in_range 97 122 c.
Definition ch_iscased (c : ascii) : bool := ch_isupper c || ch_islower c.

Definition ch_upper (c : ascii) : ascii :=
  if ch_islower c then ascii_of_nat (code c - 32) else c.
Definition ch_lower (c : ascii) : ascii :=
  if ch_isupper c then ascii_of_nat (code c + 32) else c.

(** [str.isspace] on one character: TAB..CR, FS..US, space, NEL, NBSP. *)
Definition ch_isspace (c : ascii) : bool :=
  in_range 9 13 c || in_range 28 32 c || (code c =? 133) || (code c =? 160).

(** The decimal digits, which [int] reads. *)
Definition ch_isdecimal (c : ascii) : bool := in_range 48 57 c.

(** [str.isdigit] on one character: the decimal digits and the superscripts
    two, three and one, which [int] refuses. *)
Definition ch_isdigit (c : ascii) : bool :=
  ch_isdecimal c || (code c =? 178) || (code c =? 179) || (code c =? 185).

Definition len (s : string) : nat := String.length s.

(** [s.startswith(p)] *)
Definition startswith (s p : string) : bool := String.prefix p s.

(** [p in s] *)
Fixpoint contains (p s : string) : bool :=
  String.prefix p s ||
  match s with
  | EmptyString => false
  | String _ r => contains p r
  end.

(** [s.replace(old, new)] for an empty [old]: [new] goes before every
    character and at the end. *)
Fixpoint interleave (new s : string) : string :=
  match s with
  | EmptyString => new
  | String c r => new ++ String c (interleave new r)
  end.

(** The scan of [s.replace(old, new)] for a non-empty [old]: the leftmost
    occurrence is replaced and the scan goes on after it; [skip] counts the
    characters of the occurrence that are still to be passed over. *)
Fixpoint replace_from (old new : string) (skip : nat) (s : string) : string :=
  match s with
  | EmptyString => EmptyString
  | String c r =>
      match skip with
      | S k => replace_from old new k r
      | O =>
          if String.prefix old s
          then new ++ replace_from old new (String.length old - 1) r
          else String c (replace_from old new 0 r)
      end
  end.

(** [s.replace(old, new)] *)
Definition replace (s old new : string) : string :=
  if (old =? "")%string then interleave new s else replace_from old new 0 s.

(** [s.title()]: a cased character is put in upper case when the character
    before it is not cased, and in lower case when it is. *)
Fixpoint title_from (previous_is_cased : bool) (s : string) : string :=
  match s with
  | EmptyString => EmptyString
  | String c r =>
      String (if previous_is_cased then ch_lower c else ch_upper c)
             (title_from (ch_iscased c) r)
  end.

Definition title (s : string) : string := title_from false s.

Fixpoint lstrip (s : string) : string :=
  match s with
  | EmptyString => EmptyString
  | String c r => if ch_isspace c then lstrip r else s
  end.

Fixpoint rstrip (s : string) : string :=
  match s with
  | EmptyString => EmptyString
  | String c r =>
      match rstrip r with
      | EmptyString => if ch_isspace c then EmptyString else String c EmptyString
      | r' => String c r'
      end
  end.

(** [s.strip()] *)
Definition strip (s : string) : string := rstrip (lstrip s).

Fixpoint all_chars (p : ascii -> bool) (s : string) : bool :=
  match s with
  | EmptyString => true
  | String c r => p c && all_chars p r
  end.

(** [s.isdigit()]: at least one character, and only digits. *)
Definition isdigit (s : string) : bool :=
  negb (s =? "")%string && all_chars ch_isdigit s.

(** [s[:n]] for a non-negative [n]. *)
Definition slice_to (n : nat) (s : string) : string := String.substring 0 n s.

(** [s[n:]] for a non-negative [n]. *)
Fixpoint slice_from (n : nat) (s : string) : string :=
  match n, s with
  | S k, String _ r => slice_from k r
  | _, _ => s
  end.

(** [str(n)] of an integer. *)
Definition str_of_int (n : Z) : string := NilZero.string_of_int (Z.to_int n).

Definition digit_val (c : ascii) : Z := Z.of_nat (code c - 48).

(** The digits of an integer literal, as [int] reads them: decimal digits,
    with single underscores allowed between two digits.  [None] stands
    for [ValueError]. *)
Fixpoint int_digits (acc : Z) (after_digit : bool) (s : string) : option Z :=
  match s with
  | EmptyString => if after_digit then Some acc else None
  | String c r =>
      if ch_isdecimal c then int_digits (10 * acc + digit_val c) true r
      else if (c =? "_")%char && after_digit then int_digits acc false r
      else None
  end.

Fixpoint count_chars (p : ascii -> bool) (s : string) : nat :=
  match s with
  | EmptyString => 0
  | String c r => (if p c then 1 else 0) + count_chars p r
  end.

(** [int(s)]: surrounding whitespace is dropped, a sign may come first, and
    a literal with more digits than [max_str_digits] (when that limit is not
    0) is refused, as [sys.set_int_max_str_digits] has it. *)
Definition int_of_str (max_str_digits : nat) (s : string) : option Z :=
  let t := strip s in
  let '(negative, body) :=
    match t with
    | String c r =>
        if (c =? "-")%char then (true, r)
        else if (c =? "+")%char then (false, r)
        else (false, t)
    | EmptyString => (false, t)
    end in
  if negb (max_str_digits =? 0) && (max_str_digits <? count_chars ch_isdecimal body)
  then None
  else option_map (fun n => if negative then (- n)%Z else n) (int_digits 0 false body).

(** Keys written in snake case: lower-case letters, digits and underscores. *)
Definition snake_case (s : string) : bool :=
  all_chars (fun c => ch_islower c || ch_isdecimal c || (c =? "_")%char) s.

(** The words of [s] between the occurrences of the character [sep]. *)
Fixpoint split_on (sep : ascii) (s : string) : list string :=
  match s with
  | EmptyString => [EmptyString]
  | String c r =>
      if (c =? sep)%char then EmptyString :: split_on sep r
      else match split_on sep r with
           | w :: ws => String c w :: ws
           | [] => [String c EmptyString]
           end
  end.

(** A word with its first letter in upper case. *)
Definition capitalized (w : string) : string :=
  match w with
  | EmptyString => EmptyString
  | String c r => String (ch_upper c) r
  end.

End PyStr.

(* ================================================================= *)
(** ** The Python and Tk runtime

    What the program takes from its runtime and cannot be computed here:
    floating-point numbers with their parser and printer, the limit that
    [int] puts on the length of a literal, and Tcl's reading of a string as
    a boolean. *)

Class PyEnv : Type := {
  pyfloat : Type;
  (** [float(s)]; [None] stands for [ValueError]. *)
  float_of_str : string -> option pyfloat;
  (** [str(f)] *)
  float_str : pyfloat -> string;
  (** [bool(f)] *)
  float_bool : pyfloat -> bool;
  (** [sys.get_int_max_str_digits()]; 0 when there is no limit, and never
      set under 640. *)
  int_max_str_digits : nat;
  int_max_str_digits_range : int_max_str_digits = 0 \/ 640 <= int_max_str_digits;
  (** [Tcl_GetBoolean]; [None] stands for [TclError]. *)
  tcl_getboolean : string -> option bool
}.

(** A small runtime to run the model on concrete inputs.  Its floats are
    kept as the text of their literal, and it reads as a float an optional
    sign followed by decimal digits with at most one point among them. *)
Module SampleEnv.

Fixpoint plain_decimal (seen_digit seen_point : bool) (s : string) : bool :=
  match s with
  | EmptyString => seen_digit
  | String c r =>
      if PyStr.ch_isdecimal c then plain_decimal true seen_point r
      else if (c =? ".")%char && negb seen_point then plain_decimal seen_digit true r
      else false
  end.

Definition read_float (s : string) : option string :=
  let body :=
    match s with
    | String "-"%char r => r
    | String "+"%char r => r
    | _ => s
    end in
  if plain_decimal false false body then Some s else None.

Definition read_boolean (s : string) : option bool :=
  if (s =? "1")%string || (s =? "true")%string then Some true
  else if (s =? "0")%string || (s =? "false")%string then Some false
  else None.

Lemma default_limit : 4300 = 0 \/ 640 <= 4300.
Proof. right. lia. Qed.

Definition env : PyEnv := {|
  pyfloat := string;
  float_of_str := read_float;
  float_str := fun f => f;
  float_bool := fun f => negb (f =? "0.0")%string;
  int_max_str_digits := 4300;
  int_max_str_digits_range := default_limit;
  tcl_getboolean := read_boolean
|}.

End SampleEnv.

(* ================================================================= *)
(** ** Values, exceptions and dictionaries *)

Module Py.

Section Values.
Context {E : PyEnv}.

(** The values of form data and of template defaults: JSON scalars. *)
Inductive value : Type :=
| VNone
| VBool (b : bool)
| VInt (n : Z)
| VFloat (f : pyfloat)
| VStr (s : string).

(** [str(v)] *)
Definition str (v : value) : string :=
  match v with
  | VNone => "None"
  | VBool true => "True"
  | VBool false => "False"
  | VInt n => PyStr.str_of_int n
  | VFloat f => float_str f
  | VStr s => s
  end.

(** [bool(v)] *)
Definition truthy (v : value) : bool :=
  match v with
  | VNone => false
  | VBool b => b
  | VInt n => negb (n =? 0)%Z
  | VFloat f => float_bool f
  | VStr s => negb (s =? "")%string
  end.

(** [v == s] for a string [s]. *)
Definition eq_str (v : value) (s : string) : bool :=
  match v with
  | VStr t => (t =? s)%string
  | _ => false
  end.

End Values.

(** Exception classes, as far as [except Exception] tells them apart. *)
Inductive exn_class : Type :=
| Exception
| ExceptionSubclass (name : string)
| KeyboardInterrupt
| SystemExit
| GeneratorExit.

Definition isinstance_Exception (c : exn_class) : bool :=
  match c with
  | Exception | ExceptionSubclass _ => true
  | KeyboardInterrupt | SystemExit | GeneratorExit => false
  end.

(** A raised exception: its class and [str(e)]. *)
Record exn : Type := mk_exn { exn_cls : exn_class; exn_str : string }.

Inductive result (A : Type) : Type :=
| Ok (a : A)
| Raise (e : exn).
Arguments Ok {A} a.
Arguments Raise {A} e.

Definition bind {A B : Type} (m : result A) (k : A -> result B) : result B :=
  match m with
  | Ok a => k a
  | Raise e => Raise e
  end.

(** [try: body  except Exception as e: handler(e)] *)
Definition try_except_Exception {A : Type} (body : result A)
    (handler : exn -> result A) : result A :=
  match body with
  | Ok a => Ok a
  | Raise e => if isinstance_Exception (exn_cls e) then handler e else Raise e
  end.

(** A [dict] with string keys: the entries in insertion order. *)
Definition dict (V : Type) : Type := list (string * V).

Section Dict.
Context {V : Type}.

Definition keys (d : dict V) : list string := map fst d.

(** [d.get(k)] *)
Fixpoint get (k : string) (d : dict V) : option V :=
  match d with
  | [] => None
  | (k', v) :: r => if (k' =? k)%string then Some v else get k r
  end.

(** [k in d] *)
Definition mem (k : string) (d : dict V) : bool :=
  match get k d with Some _ => true | None => false end.

(** [d[k] = v]: a key that is present keeps its place, a new key goes last. *)
Fixpoint set (k : string) (v : V) (d : dict V) : dict V :=
  match d with
  | [] => [(k, v)]
  | (k', v') :: r =>
      if (k' =? k)%string then (k', v) :: r else (k', v') :: set k v r
  end.

(** [bool(d)] *)
Definition nonempty (d : dict V) : bool :=
  match d with [] => false | _ :: _ => true end.

End Dict.

End Py.

Notation "x <- m ;; k" := (Py.bind m (fun x => k))
  (at level 61, m at next level, right associativity).

(* ================================================================= *)
(** ** document_generator.py *)

Module DocumentGenerator.
Import Py.

Section Generator.
Context {E : PyEnv}.

(** *** Word paragraphs

    A paragraph of python-docx is a sequence of runs; [paragraph.text] is
    the text of the runs put together.  [run_format] stands for the
    character formatting of a run, which [add_run] leaves at its default. *)

Record run : Type := mk_run { run_text : string; run_format : option string }.

Definition paragraph : Type := list run.

Definition paragraph_text (p : paragraph) : string :=
  String.concat "" (map run_text p).

Definition add_run (text : string) : run := mk_run text None.

(** [f"{{{{{key}}}}}"] *)
Definition placeholder (key : string) : string := "{{" ++ key ++ "}}".

(** One turn of the loop of [_replace_placeholders_in_paragraph]. *)
Definition replace_item (full_text : string) (item : string * value) : string :=
  let '(key, v) := item in
  if PyStr.contains (placeholder key) full_text
  then PyStr.replace full_text (placeholder key) (str v)
  else full_text.

(** The loop over [data.items()], from the text of the paragraph. *)
Definition fill_text (text : string) (data : dict value) : string :=
  fold_left replace_item data text.

Definition _replace_placeholders_in_paragraph (p : paragraph)
    (data : dict value) : paragraph :=
  let full_text := fill_text (paragraph_text p) data in
  if negb (full_text =? paragraph_text p)%string
  then [add_run full_text]
  else p.

(** A document, as [_fill_word_template] walks it.  Its paragraphs are
    objects that the walk changes in place: [doc_store] holds them, and the
    body and the cells of the rows of the tables list them by their places
    in it.  [row.cells] of python-docx lists a merged cell once for every
    column that the cell spans, so the paragraphs of such a cell are listed
    more than once. *)
Record document : Type := mk_document {
  doc_store : list paragraph;
  doc_paragraphs : list nat;
  doc_tables : list (list (list (list nat)))
}.

(** The paragraphs in the order in which the loops reach them: those of the
    body, then table by table, row by row, cell by cell. *)
Definition visits (doc : document) : list nat :=
  (doc_paragraphs doc ++ concat (concat (concat (doc_tables doc))))%list.

Fixpoint update_at {A : Type} (l : list A) (i : nat) (x : A) : list A :=
  match l, i with
  | [], _ => []
  | _ :: r, O => x :: r
  | y :: r, S k => y :: update_at r k x
  end.

(** [self._replace_placeholders_in_paragraph(paragraph, data)] on the
    paragraph at a place of the store; a place outside the store names no
    paragraph. *)
Definition fill_at (data : dict value) (store : list paragraph) (i : nat)
    : list paragraph :=
  match nth_error store i with
  | Some p => update_at store i (_replace_placeholders_in_paragraph p data)
  | None => store
  end.

Definition _fill_word_template (doc : document) (data : dict value) : document :=
  {| doc_store := fold_left (fill_at data) (visits doc) (doc_store doc);
     doc_paragraphs := doc_paragraphs doc;
     doc_tables := doc_tables doc |}.

(** *** Sections of the report *)

Definition sections_init : dict (dict value) :=
  [ ("Patient Information", []);
    ("Background Activity", []);
    ("Epileptiform Activity", []);
    ("Provocation Responses", []);
    ("Conclusion", []);
    ("Other", []) ].

Definition field_mapping : dict string :=
  [ ("patient_", "Patient Information");
    ("study_", "Patient Information");
    ("indication", "Patient Information");
    ("symmetry", "Background Activity");
    ("predominant_", "Background Activity");
    ("reactivity", "Background Activity");
    ("organization", "Background Activity");
    ("continuity", "Background Activity");
    ("epileptiform_", "Epileptiform Activity");
    ("hv_", "Provocation Responses");
    ("photo_", "Provocation Responses");
    ("impression", "Conclusion") ].

(** [key.startswith(prefix) or key == prefix] *)
Definition rule_matches (key prefix : string) : bool :=
  PyStr.startswith key prefix || (key =? prefix)%string.

(** The inner loop: the section of the first rule that matches, if any. *)
Fixpoint first_rule (key : string) (mapping : dict string) : option string :=
  match mapping with
  | [] => None
  | (prefix, section) :: rest =>
      if rule_matches key prefix then Some section else first_rule key rest
  end.

(** The section that a turn of the outer loop finds for a key. *)
Definition section_of (key : string) : string :=
  match first_rule key field_mapping with
  | Some section => section
  | None => "Other"
  end.

(** [sections[name][key] = value]; every name used is a key of [sections]. *)
Fixpoint set_in (name key : string) (v : value)
    (sections : dict (dict value)) : dict (dict value) :=
  match sections with
  | [] => []
  | (n, d) :: rest =>
      if (n =? name)%string then (n, set key v d) :: rest
      else (n, d) :: set_in name key v rest
  end.

(** One turn of the outer loop. *)
Definition place (sections : dict (dict value)) (item : string * value)
    : dict (dict value) :=
  let '(key, v) := item in
  match first_rule key field_mapping with
  | Some section => set_in section key v sections
  | None => set_in "Other" key v sections
  end.

(** The sections after the outer loop, the empty ones still there. *)
Definition grouped (data : dict value) : dict (dict value) :=
  fold_left place data sections_init.

Definition _group_data_by_sections (data : dict value) : dict (dict value) :=
  filter (fun kv => nonempty (snd kv)) (grouped data).

Definition section_names : list string :=
  [ "Patient Information"; "Background Activity"; "Epileptiform Activity";
    "Provocation Responses"; "Conclusion"; "Other" ].

(** No rule of a table matches the key. *)
Definition no_rule (key : string) (mapping : dict string) : Prop :=
  forall prefix section, In (prefix, section) mapping ->
    rule_matches key prefix = false.

(** The rule [(prefix, section)] is the first of the table to match. *)
Definition first_matching (key prefix section : string) : Prop :=
  exists before after,
    field_mapping = (before ++ (prefix, section) :: after)%list /\
    rule_matches key prefix = true /\
    no_rule key before.

(** The entries of the data that the rules send to a section, in the order
    of the data. *)
Definition section_entries (name : string) (data : dict value) : dict value :=
  filter (fun kv => (section_of (fst kv) =? name)%string) data.

(** *** Field names *)

Definition replacements : dict string :=
  [ ("Hv", "Hyperventilation");
    ("Photo", "Photostimulation");
    ("Eeg", "EEG") ].

Definition _format_field_name (field_name : string) : string :=
  fold_left (fun formatted item => PyStr.replace formatted (fst item) (snd item))
            replacements
            (PyStr.title (PyStr.replace field_name "_" " ")).

(** *** Table cells *)

(** [str(value) if value is not None else ''] *)
Definition formatted_value (v : value) : string :=
  match v with
  | VNone => ""
  | _ => str v
  end.

(** The value cell of a PDF table row. *)
Definition pdf_cell_value (v : value) : string :=
  let formatted := formatted_value v in
  if 50 <? PyStr.len formatted
  then PyStr.slice_to 47 formatted ++ "..."
  else formatted.

(** [table_data] of one section of the PDF. *)
Definition pdf_table_data (section_data : dict value) : list (list string) :=
  ["Field"; "Value"] ::
  map (fun kv => [_format_field_name (fst kv); pdf_cell_value (snd kv)])
      section_data.

(** The rows of one section's table in a Word document made from scratch. *)
Definition word_table_rows (section_data : dict value) : list (list string) :=
  ["Field"; "Value"] ::
  map (fun kv => [_format_field_name (fst kv); formatted_value (snd kv)])
      section_data.

(** The headings and tables that [generate_pdf_document] puts in its
    story. *)
Definition pdf_sections (data : dict value) : list (string * list (list string)) :=
  map (fun kv => (fst kv, pdf_table_data (snd kv)))
      (filter (fun kv => nonempty (snd kv)) (_group_data_by_sections data)).

(** The row of an entry in a Word table and in a PDF table. *)
Definition word_row (kv : string * value) : list string :=
  [_format_field_name (fst kv); formatted_value (snd kv)].

Definition pdf_row (kv : string * value) : list string :=
  [_format_field_name (fst kv); pdf_cell_value (snd kv)].

(** *** The documents made from scratch *)

(** What [_create_word_document_from_scratch] adds to the document, in
    order: headings with their level, paragraphs, and tables with the text
    of their cells. *)
Inductive block : Type :=
| Heading (text : string) (level : nat)
| Para (text : string)
| Table (rows : list (list string)).

(** One turn of the loop over [sections.items()]. *)
Definition section_blocks (section : string * dict value) : list block :=
  Heading (fst section) 1 ::
  ((if nonempty (snd section)
    then [Table (word_table_rows (snd section))]
    else []) ++ [Para ""])%list.

(** [generated_on] is [datetime.now().strftime('%Y-%m-%d %H:%M:%S')]. *)
Definition _create_word_document_from_scratch (generated_on : string)
    (data : dict value) : list block :=
  Heading "EEG Score Checklist Report" 0 ::
  Para ("Generated on: " ++ generated_on) ::
  Para "" ::
  flat_map section_blocks (_group_data_by_sections data).

(** The flowables of the story of [generate_pdf_document]; a paragraph has
    its style. *)
Inductive flowable : Type :=
| Paragraph (text style : string)
| Spacer (height : nat)
| PdfTable (table_data : list (list string)).

(** One turn of the loop over [sections.items()] in [generate_pdf_document]. *)
Definition section_flowables (section : string * dict value) : list flowable :=
  if negb (nonempty (snd section)) then []
  else [ Paragraph (fst section) "Heading2"; Spacer 12;
         PdfTable (pdf_table_data (snd section)); Spacer 20 ].

Definition pdf_story (generated : string) (data : dict value) : list flowable :=
  Paragraph "EEG Score Checklist Report" "CustomTitle" ::
  Paragraph ("Generated: " ++ generated) "DateStyle" ::
  flat_map section_flowables (_group_data_by_sections data).

(** The tables of a document, and the tables of a story. *)
Definition tables_of (blocks : list block) : list (list (list string)) :=
  flat_map (fun b => match b with Table rows => [rows] | _ => [] end) blocks.

Definition pdf_tables_of (story : list flowable) : list (list (list string)) :=
  flat_map (fun f => match f with PdfTable rows => [rows] | _ => [] end) story.

(** The rows of a table under its header row. *)
Definition data_rows (table : list (list string)) : list (list string) :=
  tl table.

(** *** The export paths

    The calls into python-docx and reportlab, and the builders that run
    through them, return or raise; the export paths are stated over any
    behaviour of theirs. *)

Section ExportPaths.

Variable word_template_path : string.
Variable os_path_exists : string -> bool.
Variable docx : Type.
(** [Document(template_path)] *)
Variable Document : string -> result docx.
Variable fill_word_template : docx -> dict value -> result docx.
Variable create_word_document_from_scratch : dict value -> result docx.
(** [doc.save(output_path)] *)
Variable docx_save : docx -> string -> result unit.
(** [SimpleDocTemplate(output_path, ...)], the flowables of the story and
    [doc.build(story)]. *)
Variable pdf_build : string -> list (string * list (list string)) -> result unit.

Definition word_error (e : exn) : exn :=
  mk_exn Exception ("Error generating Word document: " ++ exn_str e).

Definition pdf_error (e : exn) : exn :=
  mk_exn Exception ("Error generating PDF document: " ++ exn_str e).

(** [template_path or self.word_template_path] *)
Definition template_path_or_default (template_path : option string) : string :=
  match template_path with
  | Some p => if (p =? "")%string then word_template_path else p
  | None => word_template_path
  end.

(** The statements under [try] in [generate_word_document]. *)
Definition word_document_body (data : dict value) (output_path : string)
    (template_path : option string) : result unit :=
  let template_path := template_path_or_default template_path in
  doc <- (if os_path_exists template_path
          then doc <- Document template_path ;; fill_word_template doc data
          else create_word_document_from_scratch data) ;;
  docx_save doc output_path.

Definition generate_word_document (data : dict value) (output_path : string)
    (template_path : option string) : result unit :=
  try_except_Exception
    (word_document_body data output_path template_path)
    (fun e => Raise (word_error e)).

(** The statements under [try] in [generate_pdf_document]. *)
Definition pdf_document_body (data : dict value) (output_path : string)
    : result unit :=
  pdf_build output_path (pdf_sections data).

Definition generate_pdf_document (data : dict value) (output_path : string)
    : result unit :=
  try_except_Exception
    (pdf_document_body data output_path)
    (fun e => Raise (pdf_error e)).

(** The exception [e] is raised by a call of the Word path: by the loading
    of the template, by the filling of it, by the making of a document from
    scratch, or by the saving of the document made. *)
Definition raised_in_word (data : dict value) (output_path : string)
    (template_path : option string) (e : exn) : Prop :=
  let path := template_path_or_default template_path in
  (os_path_exists path = true /\ Document path = Raise e) \/
  (os_path_exists path = true /\
   exists doc, Document path = Ok doc /\ fill_word_template doc data = Raise e) \/
  (os_path_exists path = false /\
   create_word_document_from_scratch data = Raise e) \/
  (exists doc,
     (if os_path_exists path
      then exists doc0, Document path = Ok doc0 /\
                        fill_word_template doc0 data = Ok doc
      else create_word_document_from_scratch data = Ok doc) /\
     docx_save doc output_path = Raise e).

End ExportPaths.

(** *** Templates as text and tokens

    A paragraph of a template, seen as pieces of plain text and
    placeholders, and the substitution that fills all its placeholders from
    the original text at once. *)

Inductive segment : Type :=
| Lit (s : string)
| Tok (key : string).

Definition segment_text (g : segment) : string :=
  match g with
  | Lit s => s
  | Tok key => placeholder key
  end.

Definition join (pieces : list string) : string :=
  fold_right String.append "" pieces.

Definition segments_text (segs : list segment) : string :=
  join (map segment_text segs).

Definition fill_segment (data : dict value) (g : segment) : string :=
  match g with
  | Lit s => s
  | Tok key =>
      match get key data with
      | Some v => str v
      | None => placeholder key
      end
  end.

Definition simultaneous_fill (data : dict value) (segs : list segment) : string :=
  join (map (fill_segment data) segs).

(** Data in which the value of the first key is the placeholder of the
    second. *)
Definition chained (key1 key2 : string) (v2 : value) : dict value :=
  [ (key1, VStr (placeholder key2)); (key2, v2) ].

(** The same in one pass over a text: at each position the first entry whose
    placeholder starts there is substituted, and the pass goes on after the
    placeholder, never over text it has put in. *)
Fixpoint first_match (data : dict value) (s : string) : option (string * value) :=
  match data with
  | [] => None
  | (key, v) :: rest =>
      if String.prefix (placeholder key) s then Some (key, v)
      else first_match rest s
  end.

Fixpoint scan (data : dict value) (skip : nat) (s : string) : string :=
  match s with
  | EmptyString => EmptyString
  | String c r =>
      match skip with
      | S k => scan data k r
      | O =>
          match first_match data s with
          | Some (key, v) =>
              str v ++ scan data (String.length (placeholder key) - 1) r
          | None => String c (scan data 0 r)
          end
      end
  end.

Definition simultaneous_replace (data : dict value) (text : string) : string :=
  scan data 0 text.

Definition brace_free (s : string) : bool :=
  PyStr.all_chars (fun c => negb ((c =? "{")%char || (c =? "}")%char)) s.

(** A text in which no pair of opening braces starts, and which does not
    end on an opening brace: no placeholder starts in it, whatever comes
    after it. *)
Fixpoint quiet (u : string) : bool :=
  match u with
  | EmptyString => true
  | String c r =>
      (negb (c =? "{")%char ||
       match r with
       | String c2 _ => negb (c2 =? "{")%char
       | EmptyString => false
       end) && quiet r
  end.

(** A segment after the substitution of one key. *)
Definition subst_token (key new : string) (g : segment) : segment :=
  match g with
  | Lit s => Lit s
  | Tok key' => if (key' =? key)%string then Lit new else Tok key'
  end.

(** The text of a literal, the key of a token. *)
Definition segment_body (g : segment) : string :=
  match g with
  | Lit s => s
  | Tok key => key
  end.

Definition plain_segments (segs : list segment) : Prop :=
  Forall (fun g => brace_free (segment_body g) = true) segs.

Definition plain_data (data : dict value) : Prop :=
  Forall (fun kv => brace_free (fst kv) = true /\
                    brace_free (str (snd kv)) = true) data.

(** A segment with its token filled when the data has its key. *)
Definition filled_segment (data : dict value) (g : segment) : segment :=
  match g with
  | Lit s => Lit s
  | Tok key =>
      match get key data with
      | Some v => Lit (str v)
      | None => Tok key
      end
  end.

(** The characters of a label: no underscore. *)
Definition no_underscore (s : string) : bool :=
  PyStr.all_chars (fun c => negb (c =? "_")%char) s.

End Generator.

End DocumentGenerator.

(* ================================================================= *)
(** ** dynamic_form.py *)

Module DynamicForm.
Import Py.

Section Form.
Context {E : PyEnv}.

(** *** The template *)

(** A field of the template; [field_default] is [None] when the field has
    no ["default"] entry. *)
Record field_spec : Type := mk_field {
  field_id : string;
  field_label : string;
  field_type : string;
  field_default : option value;
  field_options : list string;
  field_height : option nat
}.

Record section_spec : Type := mk_section {
  section_title : string;
  section_fields : list field_spec
}.

(** [self.template.get('sections', [])] *)
Definition template : Type := list section_spec.

Definition all_fields (t : template) : list field_spec :=
  flat_map section_fields t.

(** [field.get('default', '')] *)
Definition default_of (f : field_spec) : value :=
  match field_default f with
  | Some v => v
  | None => VStr ""
  end.

(** *** The date *)

Record datetime : Type := mk_datetime { year : nat; month : nat; day : nat }.

Definition decimal (n : nat) : string := PyStr.str_of_int (Z.of_nat n).

Fixpoint zeros (n : nat) : string :=
  match n with
  | O => EmptyString
  | S k => String "0"%char (zeros k)
  end.

Definition zero_padded (width n : nat) : string :=
  zeros (width - String.length (decimal n)) ++ decimal n.

(** [d.strftime("%Y-%m-%d")] *)
Definition strftime_Ymd (d : datetime) : string :=
  zero_padded 4 (year d) ++ "-" ++ zero_padded 2 (month d) ++ "-" ++
  zero_padded 2 (day d).

(** [default_value = datetime.now().strftime(...)] under
    [if default_value == "today"] *)
Definition resolve_today (now : datetime) (default_value : value) : value :=
  if eq_str default_value "today" then VStr (strftime_Ymd now) else default_value.

(** *** The controls *)

(** A Tk variable: a [BooleanVar] with the value of its Tcl variable, a
    [StringVar] with its string. *)
Inductive tkvar : Type :=
| BooleanVar (raw : value)
| StringVar (s : string).

(** A widget; a [ScrolledText] has its text. *)
Inductive widget : Type :=
| Checkbutton
| Entry
| Combobox (values : list string)
| ScrolledText (height : nat) (text : string).

Record form : Type := mk_form {
  variables : dict tkvar;
  widgets : dict widget;
  output_text : string
}.

Definition empty_form : form := mk_form [] [] "".

Definition value_error (msg : string) : exn :=
  mk_exn (ExceptionSubclass "ValueError") msg.

Definition type_error (msg : string) : exn :=
  mk_exn (ExceptionSubclass "TypeError") msg.

Definition tcl_error (msg : string) : exn :=
  mk_exn (ExceptionSubclass "TclError") msg.

Definition quoted (s : string) : string :=
  String (ascii_of_nat 34) (s ++ String (ascii_of_nat 34) EmptyString).

Definition has_nul (s : string) : bool :=
  negb (PyStr.all_chars (fun c => negb (c =? Ascii.zero)%char) s).

(** [self._tk.getboolean(v)]: an integer is its truth value, a string is
    read by Tcl, and nothing else is taken. *)
Definition getboolean (v : value) : result bool :=
  match v with
  | VBool b => Ok b
  | VInt n => Ok (negb (n =? 0)%Z)
  | VStr s =>
      if has_nul s then Raise (value_error "embedded null character")
      else
        match tcl_getboolean s with
        | Some b => Ok b
        | None =>
            Raise (tcl_error ("expected boolean value but got " ++ quoted s))
        end
  | VFloat _ => Raise (type_error "getboolean() argument must be str, not float")
  | VNone => Raise (type_error "getboolean() argument must be str, not None")
  end.

(** [tk.BooleanVar(value=v)]: the value is read as a boolean when the
    variable is made ([initialize] is [set], which calls [getboolean]), and
    without a value the variable is [False]. *)
Definition new_BooleanVar (v : value) : result tkvar :=
  match v with
  | VNone => Ok (BooleanVar (VBool false))
  | _ => b <- getboolean v ;; Ok (BooleanVar (VBool b))
  end.

(** [var.get()] of a [BooleanVar] *)
Definition BooleanVar_get (raw : value) : result bool :=
  match raw with
  | VBool b => Ok b
  | _ =>
      match tcl_getboolean (str raw) with
      | Some b => Ok b
      | None => Raise (value_error "invalid literal for getboolean()")
      end
  end.

Definition is_ScrolledText (w : widget) : bool :=
  match w with
  | ScrolledText _ _ => true
  | _ => false
  end.

Definition set_variable (id : string) (var : tkvar) (fm : form) : form :=
  mk_form (set id var (variables fm)) (widgets fm) (output_text fm).

Definition set_widget (id : string) (w : widget) (fm : form) : form :=
  mk_form (variables fm) (set id w (widgets fm)) (output_text fm).

(** [if field_id not in self.widgets: self.widgets[field_id] = widget] *)
Definition store_widget (id : string) (w : widget) (fm : form) : form :=
  if mem id (widgets fm) then fm else set_widget id w fm.

Definition is_entry_type (field_type : string) : bool :=
  (field_type =? "text")%string || (field_type =? "date")%string ||
  (field_type =? "number")%string.

(** The types of the data model: an entry, a dropdown, a check box or a
    text area. *)
Definition is_field_type (field_type : string) : bool :=
  is_entry_type field_type || (field_type =? "select")%string ||
  (field_type =? "checkbox")%string || (field_type =? "textarea")%string.

(** The types whose control is a [StringVar] behind an entry or a dropdown. *)
Definition is_string_type (field_type : string) : bool :=
  is_entry_type field_type || (field_type =? "select")%string.

(** [create_field]; [now] is the reading of the clock at this call.  The
    variable of a check box is made from the default, which raises when the
    default is no boolean for Tcl.  A type outside the six kinds leaves
    [widget] unbound, which the last statement trips over unless the id
    already has a widget. *)
Definition create_field (now : datetime) (field_config : field_spec)
    (fm : form) : result form :=
  let id := field_id field_config in
  let field_type := field_type field_config in
  let default_value := resolve_today now (default_of field_config) in
  if (field_type =? "checkbox")%string then
    var <- new_BooleanVar default_value ;;
    Ok (store_widget id Checkbutton (set_variable id var fm))
  else if is_entry_type field_type then
    Ok (store_widget id Entry
          (set_variable id (StringVar (str default_value)) fm))
  else if (field_type =? "select")%string then
    Ok (store_widget id (Combobox (field_options field_config))
          (set_variable id (StringVar (str default_value)) fm))
  else if (field_type =? "textarea")%string then
    let height := match field_height field_config with Some h => h | None => 4 end in
    Ok (set_widget id (ScrolledText height (str default_value)) fm)
  else if mem id (widgets fm) then Ok fm
  else Raise (mk_exn (ExceptionSubclass "UnboundLocalError")
                     "local variable 'widget' referenced before assignment").

(** [create_section] over the fields of a section; [clock] gives the
    reading of the clock when the field of an id is created. *)
Fixpoint create_fields (clock : string -> datetime) (fields : list field_spec)
    (fm : form) : result form :=
  match fields with
  | [] => Ok fm
  | f :: rest =>
      fm' <- create_field (clock (field_id f)) f fm ;;
      create_fields clock rest fm'
  end.

Definition create_sections (clock : string -> datetime) (t : template)
    (fm : form) : result form :=
  create_fields clock (all_fields t) fm.

(** *** Collection *)

(** [is_number_field]: the type of the first field with this id. *)
Fixpoint is_number_in (fields : list field_spec) (id : string) : bool :=
  match fields with
  | [] => false
  | f :: rest =>
      if (field_id f =? id)%string then (field_type f =? "number")%string
      else is_number_in rest id
  end.

Definition is_number_field (t : template) (id : string) : bool :=
  is_number_in (all_fields t) id.

(** [int(value) if value.isdigit() else float(value)], with
    [except ValueError] giving the string back. *)
Definition convert_number (value : string) : Py.value :=
  if PyStr.isdigit value then
    match PyStr.int_of_str int_max_str_digits value with
    | Some n => VInt n
    | None => VStr value
    end
  else
    match float_of_str value with
    | Some f => VFloat f
    | None => VStr value
    end.

(** What [collect_data] stores for the string of a [StringVar]. *)
Definition stored_value (t : template) (id value : string) : Py.value :=
  if is_number_field t id && negb (value =? "")%string
  then convert_number value
  else VStr value.

Definition collect_variable (t : template) (data : dict value)
    (item : string * tkvar) : result (dict value) :=
  let '(id, var) := item in
  match var with
  | BooleanVar raw => b <- BooleanVar_get raw ;; Ok (set id (VBool b) data)
  | StringVar value => Ok (set id (stored_value t id value) data)
  end.

Fixpoint collect_variables (t : template) (vars : dict tkvar)
    (data : dict value) : result (dict value) :=
  match vars with
  | [] => Ok data
  | item :: rest =>
      data' <- collect_variable t data item ;;
      collect_variables t rest data'
  end.

Definition newline : string := String (ascii_of_nat 10) EmptyString.

(** [widget.get("1.0", tk.END)]: the text and the newline that Tk keeps at
    the end of a text widget. *)
Definition ScrolledText_get (text : string) : string := text ++ newline.

Definition collect_widget (data : dict value) (item : string * widget)
    : dict value :=
  let '(id, w) := item in
  match w with
  | ScrolledText _ text => set id (VStr (PyStr.strip (ScrolledText_get text))) data
  | _ => data
  end.

Definition collect_data (t : template) (fm : form) : result (dict value) :=
  data <- collect_variables t (variables fm) [] ;;
  Ok (fold_left collect_widget (widgets fm) data).

(** *** Clearing *)

(** One turn of the loop of [clear_form]. *)
Definition clear_field (now : datetime) (fm : form) (field : field_spec) : form :=
  let id := field_id field in
  let default_value := default_of field in
  let '(fm1, default_value1) :=
    match get id (variables fm) with
    | Some (BooleanVar _) =>
        (set_variable id (BooleanVar (VBool (truthy default_value))) fm,
         default_value)
    | Some (StringVar _) =>
        let d := resolve_today now default_value in
        (set_variable id (StringVar (str d)) fm, d)
    | None => (fm, default_value)
    end in
  match get id (widgets fm1) with
  | Some (ScrolledText height _) =>
      set_widget id
        (ScrolledText height
           (if truthy default_value1 then str default_value1 else ""))
        fm1
  | _ => fm1
  end.

Definition clear_form (clock : string -> datetime) (t : template) (fm : form)
    : form :=
  let fm' := fold_left (fun fm f => clear_field (clock (field_id f)) fm f)
                       (all_fields t) fm in
  mk_form (variables fm') (widgets fm') "".

(** The value that the control of a field shows. *)
Definition control_value (fm : form) (id : string) : option value :=
  match get id (widgets fm) with
  | Some (ScrolledText _ text) => Some (VStr text)
  | _ =>
      match get id (variables fm) with
      | Some (BooleanVar raw) => Some raw
      | Some (StringVar s) => Some (VStr s)
      | None => None
      end
  end.

Definition not_ScrolledText (w : option widget) : Prop :=
  forall height text, w <> Some (ScrolledText height text).

(** *** The conversion as the specification words it

    Integer conversion is tried first, then floating point, and the string
    is kept when neither reads it. *)
Definition int_then_float (value : string) : Py.value :=
  match PyStr.int_of_str int_max_str_digits value with
  | Some n => VInt n
  | None =>
      match float_of_str value with
      | Some f => VFloat f
      | None => VStr value
      end
  end.

(** *** The controls of a field

    What [create_field] gives a field whose id is new to the form, and what
    [clear_form] makes of the controls that it finds under the id of a
    field. *)

Definition initial_variables (now : datetime) (f : field_spec) : dict tkvar :=
  let default_value := resolve_today now (default_of f) in
  if (field_type f =? "checkbox")%string
  then match new_BooleanVar default_value with
       | Ok var => [(field_id f, var)]
       | Raise _ => []
       end
  else if is_string_type (field_type f)
  then [(field_id f, StringVar (str default_value))]
  else [].

Definition initial_widget (now : datetime) (f : field_spec) : widget :=
  let default_value := resolve_today now (default_of f) in
  if (field_type f =? "checkbox")%string then Checkbutton
  else if is_entry_type (field_type f) then Entry
  else if (field_type f =? "select")%string then Combobox (field_options f)
  else ScrolledText (match field_height f with Some h => h | None => 4 end)
                    (str default_value).

(** A field that [create_field] can build under a new id: it has one of
    the six types, and the default of a check box is a boolean for Tcl. *)
Definition buildable (now : datetime) (f : field_spec) : bool :=
  if (field_type f =? "checkbox")%string
  then match new_BooleanVar (resolve_today now (default_of f)) with
       | Ok _ => true
       | Raise _ => false
       end
  else is_field_type (field_type f).

(** The variables and the widgets that the fields of a list get. *)
Definition built_variables (clock : string -> datetime)
    (fields : list field_spec) : dict tkvar :=
  flat_map (fun f => initial_variables (clock (field_id f)) f) fields.

Definition built_widgets (clock : string -> datetime)
    (fields : list field_spec) : dict widget :=
  map (fun f => (field_id f, initial_widget (clock (field_id f)) f)) fields.

Definition cleared_variable (now : datetime) (f : field_spec)
    (var : option tkvar) : option tkvar :=
  match var with
  | Some (BooleanVar _) => Some (BooleanVar (VBool (truthy (default_of f))))
  | Some (StringVar _) =>
      Some (StringVar (str (resolve_today now (default_of f))))
  | None => None
  end.

(** The default that the text of a text area is taken from: the date stands
    for "today" only when the id has a string variable. *)
Definition cleared_default (now : datetime) (f : field_spec)
    (var : option tkvar) : value :=
  match var with
  | Some (StringVar _) => resolve_today now (default_of f)
  | _ => default_of f
  end.

Definition cleared_widget (now : datetime) (f : field_spec)
    (var : option tkvar) (w : option widget) : option widget :=
  match w with
  | Some (ScrolledText height _) =>
      let d := cleared_default now f var in
      Some (ScrolledText height (if truthy d then str d else ""))
  | _ => w
  end.

(** What [collect_data] finds under the id of a field in the form as it is
    built, when the field is alone with its id and a check box has a boolean
    for its default. *)
Definition initial_value (t : template) (now : datetime) (f : field_spec)
    : value :=
  let default_value := resolve_today now (default_of f) in
  if (field_type f =? "checkbox")%string then default_value
  else if (field_type f =? "textarea")%string
  then VStr (PyStr.strip (str default_value))
  else stored_value t (field_id f) (str default_value).

Definition is_textarea (f : field_spec) : bool :=
  (field_type f =? "textarea")%string.

(** Every [BooleanVar] of the form can be read: it holds a boolean, or
    what Tcl reads as one. *)
Definition readable_variables (fm : form) : Prop :=
  forall id raw, In (id, BooleanVar raw) (variables fm) ->
    exists b, BooleanVar_get raw = Ok b.

(** Controls of the same kind: what the user's edits leave of a variable
    and of a widget. *)
Definition same_kind_variable (var var' : option tkvar) : Prop :=
  match var, var' with
  | Some (BooleanVar _), Some (BooleanVar _) => True
  | Some (StringVar _), Some (StringVar _) => True
  | None, None => True
  | _, _ => False
  end.

Definition same_kind_widget (w w' : option widget) : Prop :=
  match w, w' with
  | Some (ScrolledText h _), Some (ScrolledText h' _) => h = h'
  | Some Checkbutton, Some Checkbutton => True
  | Some Entry, Some Entry => True
  | Some (Combobox values), Some (Combobox values') => values = values'
  | None, None => True
  | _, _ => False
  end.

(** What [collect_data] stores for a variable. *)
Definition variable_value (t : template) (id : string) (var : tkvar)
    : result value :=
  match var with
  | BooleanVar raw => b <- BooleanVar_get raw ;; Ok (VBool b)
  | StringVar s => Ok (stored_value t id s)
  end.

(** *** Saving and loading

    The dialogs are taken to return; a file dialog gives the name chosen,
    which is empty when it is cancelled. *)

Inductive dialog : Type :=
| showinfo (title message : string)
| showerror (title message : string).

(** A button of the template: [button_config['text']] and
    [button_config['action']], when the keys are there. *)
Record button_spec : Type := mk_button {
  button_text : option string;
  button_action : option string
}.

(** The template of a file, as [load_template_file] uses it:
    [.get('sections', [])] and [.get('buttons', [])].  The output section
    is read with defaults throughout. *)
Record template_file : Type := mk_template_file {
  file_sections : template;
  file_buttons : list button_spec
}.

(** [str(KeyError(key))] is the key between quotes. *)
Definition key_error (key : string) : exn :=
  mk_exn (ExceptionSubclass "KeyError") ("'" ++ key ++ "'").

(** The window: the template, the controls, the buttons shown with their
    texts and the names of their commands, and whether the output widget is
    there (it is destroyed with the rest of the frame when a template is
    loaded, and made anew at the end). *)
Record session : Type := mk_session {
  session_template : template_file;
  session_form : form;
  session_buttons : list (string * string);
  session_output : bool
}.

Section Dialogs.

(** [filedialog.asksaveasfilename(...)] *)
Variable asksaveasfilename : result string.
(** [self.doc_generator.generate_word_document] and
    [self.doc_generator.generate_pdf_document] *)
Variable generate_word_document :
  dict value -> string -> option string -> result unit.
Variable generate_pdf_document : dict value -> string -> result unit.

Definition save_to_word (t : template) (fm : form) : result (option dialog) :=
  try_except_Exception
    (data <- collect_data t fm ;;
     filename <- asksaveasfilename ;;
     if negb (filename =? "")%string then
       done <- generate_word_document data filename None ;;
       Ok (Some (showinfo "Success"
                   ("Document saved to:" ++ newline ++ filename)))
     else Ok None)
    (fun e => Ok (Some (showerror "Error"
                          ("Error saving Word document:" ++ newline ++
                           exn_str e)))).

Definition save_to_pdf (t : template) (fm : form) : result (option dialog) :=
  try_except_Exception
    (data <- collect_data t fm ;;
     filename <- asksaveasfilename ;;
     if negb (filename =? "")%string then
       done <- generate_pdf_document data filename ;;
       Ok (Some (showinfo "Success"
                   ("Document saved to:" ++ newline ++ filename)))
     else Ok None)
    (fun e => Ok (Some (showerror "Error"
                          ("Error saving PDF document:" ++ newline ++
                           exn_str e)))).

(** [filedialog.askopenfilename(...)], which is called before the [try]. *)
Variable askopenfilename : result string.
(** [open(filename)] and [json.load(f)], for a file that holds a template:
    sections as above, and buttons. *)
Variable read_template : string -> result template_file.
(** [getattr(self, action, None)] is there and true: the name of a method
    of the form, for one. *)
Variable command : string -> bool.

(** The loop of [create_buttons]: the buttons made, and the [KeyError] of
    the first button that lacks its text or its action. *)
Fixpoint make_buttons (buttons : list button_spec)
    : list (string * string) * option exn :=
  match buttons with
  | [] => ([], None)
  | b :: rest =>
      match button_text b with
      | None => ([], Some (key_error "text"))
      | Some text =>
          match button_action b with
          | None => ([], Some (key_error "action"))
          | Some action =>
              let '(made, err) := make_buttons rest in
              (if command action then (text, action) :: made else made, err)
          end
      end
  end.

(** [create_buttons]: the buttons of the template, then the two buttons
    that save a document. *)
Definition saving_buttons : list (string * string) :=
  [ ("Save to Word", "save_to_word"); ("Save to PDF", "save_to_pdf") ].

Definition create_buttons (buttons : list button_spec)
    : list (string * string) * option exn :=
  match make_buttons buttons with
  | (made, Some e) => (made, Some e)
  | (made, None) => ((made ++ saving_buttons)%list, None)
  end.

(** The buttons of a template in which every button has its text and its
    action. *)
Definition template_buttons (buttons : list button_spec)
    : list (string * string) :=
  flat_map (fun b =>
              match button_text b, button_action b with
              | Some text, Some action =>
                  if command action then [(text, action)] else []
              | _, _ => []
              end) buttons.

Definition complete_button (b : button_spec) : bool :=
  match button_text b, button_action b with
  | Some _, Some _ => true
  | _, _ => false
  end.

(** [create_sections] with the form as it is left when a field raises:
    [create_field] raises before it has changed the form. *)
Fixpoint build_fields (clock : string -> datetime) (fields : list field_spec)
    (fm : form) : form * option exn :=
  match fields with
  | [] => (fm, None)
  | f :: rest =>
      match create_field (clock (field_id f)) f fm with
      | Ok fm' => build_fields clock rest fm'
      | Raise e => (fm, Some e)
      end
  end.

(** The [except Exception] of [load_template_file]. *)
Definition loading_error (e : exn) : result (option dialog) :=
  if isinstance_Exception (exn_cls e)
  then Ok (Some (showerror "Error" ("Template loading error: " ++ exn_str e)))
  else Raise e.

(** [load_template_file]: the window it leaves, and the dialog shown or the
    exception that escapes.  Once the file is read, the template is the new
    one, the widgets of the frame are destroyed and the controls forgotten;
    then the fields, the buttons and a new, empty output are made, and what
    one of them raises stops the rest. *)
Definition load_template_file (clock : string -> datetime) (s : session)
    : session * result (option dialog) :=
  match askopenfilename with
  | Raise e => (s, Raise e)
  | Ok filename =>
      if (filename =? "")%string then (s, Ok None)
      else
        match read_template filename with
        | Raise e => (s, loading_error e)
        | Ok t =>
            let cleared := mk_form [] [] (output_text (session_form s)) in
            match build_fields clock (all_fields (file_sections t)) cleared with
            | (fm, Some e) => (mk_session t fm [] false, loading_error e)
            | (fm, None) =>
                match create_buttons (file_buttons t) with
                | (made, Some e) =>
                    (mk_session t fm made false, loading_error e)
                | (made, None) =>
                    (mk_session t (mk_form (variables fm) (widgets fm) "")
                                made true,
                     Ok (Some (showinfo "Success"
                                 "Template loaded successfully!")))
                end
            end
        end
  end.

End Dialogs.

End Form.

End DynamicForm.

(* ================================================================= *)
(** ** Sample inputs

    Form data, templates, forms and libraries on which the statements
    below are run, over the sample runtime. *)

Module Samples.
Import Py DocumentGenerator DynamicForm.

Definition sample_data : dict (value (E := SampleEnv.env)) :=
  [ ("reactivity_extra", VStr "Present");
    ("patient_name", VStr "Jane");
    ("notes", VInt 3) ].

Definition sixty : string :=
  "123456789012345678901234567890123456789012345678901234567890".

(** A library whose [build] is interrupted from the keyboard, and one whose
    [build] fails on a file that it cannot write. *)
Definition interrupted_build (_ : string)
    (_ : list (string * list (list string))) : result unit :=
  Raise (mk_exn KeyboardInterrupt "").

Definition failing_build (path : string)
    (_ : list (string * list (list string))) : result unit :=
  Raise (mk_exn (ExceptionSubclass "PermissionError")
                ("[Errno 13] Permission denied: " ++ path)).

Definition number_template : template (E := SampleEnv.env) :=
  [ mk_section "1. Patient and Study Information"
      [ mk_field "patient_name" "Patient Name:" "text" (Some (VStr "")) [] None;
        mk_field "patient_age" "Age:" "number" (Some (VStr "")) [] None ] ].

(** A form in which the id of a text area is declared a number by the
    template and also has a variable that holds digits. *)
Definition notes_template : template (E := SampleEnv.env) :=
  [ mk_section "Notes"
      [ mk_field "impression" "Impression:" "number" None [] None ] ].

Definition notes_form : form (E := SampleEnv.env) :=
  mk_form [ ("impression", StringVar "7") ]
          [ ("impression",
             ScrolledText 4 ("  42 " ++ newline)) ]
          "".

Definition opening_day : datetime := mk_datetime 2024 1 15.
Definition clearing_day : datetime := mk_datetime 2024 1 16.

Definition today_template : template (E := SampleEnv.env) :=
  [ mk_section "1. Patient and Study Information"
      [ mk_field "study_date" "Study Date:" "date" (Some (VStr "today")) [] None;
        mk_field "reviewed" "Reviewed" "checkbox" (Some (VBool false)) [] None;
        mk_field "impression" "Impression:" "textarea" (Some (VStr "today")) []
                 (Some 6) ] ].

Definition today_form : form (E := SampleEnv.env) :=
  mk_form [ ("study_date", StringVar "2024-01-15");
            ("reviewed", BooleanVar (VBool false)) ]
          [ ("study_date", Entry);
            ("reviewed", Checkbutton);
            ("impression", ScrolledText 6 "2024-01-15") ]
          "".

(** Data in which the value of one key is the placeholder of another. *)
Definition chained_data : dict (value (E := SampleEnv.env)) :=
  [ ("a", VStr "{{b}}"); ("b", VStr "X") ].

(** Data in which a key holds braces and its placeholder runs over two
    tokens. *)
Definition overlapping_data : dict (value (E := SampleEnv.env)) :=
  [ ("a}}{{b", VStr "X"); ("a", VStr "Y") ].

(** Data for a paragraph in which a token stands between braces. *)
Definition nested_data : dict (value (E := SampleEnv.env)) :=
  [ ("a", VStr ""); ("b", VStr "Z") ].

Definition report_line : list segment :=
  [ Lit "Hyperventilation: "; Tok "hv_response"; Lit ", photo: ";
    Tok "photo_response"; Lit " ("; Tok "unknown"; Lit ")" ].

Definition report_data : dict (value (E := SampleEnv.env)) :=
  [ ("photo_response", VStr "Normal"); ("hv_response", VBool true) ].

(** The same line as a paragraph of two runs, the first of which ends
    inside a placeholder. *)
Definition report_paragraph : paragraph :=
  [ mk_run "Hyperventilation: {{hv_" None;
    mk_run "response}}, photo: {{photo_response}} ({{unknown}})"
           (Some "Strong") ].

(** A document whose only table has one row with a cell that spans two
    columns, and data in which a later entry brings in the placeholder of
    an earlier one. *)
Definition merged_cell_document : document :=
  mk_document [ [mk_run "Report" (Some "Title")]; [mk_run "{{a}}" None] ]
              [0] [ [ [ [1]; [1] ] ] ].

Definition later_data : dict (value (E := SampleEnv.env)) :=
  [ ("b", VStr "X"); ("a", VStr "{{b}}") ].

(** A field of a type that the form does not know. *)
Definition slider_field : field_spec (E := SampleEnv.env) :=
  mk_field "alertness" "Alertness:" "slider" (Some (VStr "5")) [] None.

Definition checklist_template : template (E := SampleEnv.env) :=
  [ mk_section "1. Patient and Study Information"
      [ mk_field "patient_name" "Patient Name:" "text" (Some (VStr "")) [] None;
        mk_field "study_date" "Study Date:" "date" (Some (VStr "today")) [] None;
        mk_field "patient_age" "Age:" "number" (Some (VStr "42")) [] None ];
    mk_section "2. Recording"
      [ mk_field "eyes_closed" "Eyes closed" "checkbox" (Some (VBool true)) []
                 None;
        mk_field "state" "State:" "select" (Some (VStr "Awake"))
                 ["Awake"; "Drowsy"] None;
        mk_field "impression" "Impression:" "textarea" (Some (VStr "Normal")) []
                 (Some 6) ] ].

(** The form of [checklist_template] after the user has filled it in and
    generated the JSON. *)
Definition edited_form : form (E := SampleEnv.env) :=
  mk_form [ ("patient_name", StringVar "Jane");
            ("study_date", StringVar "2024-01-10");
            ("patient_age", StringVar "30");
            ("eyes_closed", BooleanVar (VBool false));
            ("state", StringVar "Drowsy") ]
          [ ("patient_name", Entry);
            ("study_date", Entry);
            ("patient_age", Entry);
            ("eyes_closed", Checkbutton);
            ("state", Combobox ["Awake"; "Drowsy"]);
            ("impression", ScrolledText 6 "Slowing") ]
          "{}".

(** The names of the methods of the form, a template file with a button
    whose action is none of them, a file with a button that has no text,
    and the window before a file is loaded. *)
Definition is_method (name : string) : bool :=
  existsb (String.eqb name)
    [ "load_template"; "create_default_template"; "create_interface";
      "bind_mousewheel"; "create_sections"; "create_section"; "create_field";
      "create_buttons"; "create_output_section"; "collect_data";
      "is_number_field"; "generate_json"; "clear_form"; "save_to_word";
      "save_to_pdf"; "load_template_file" ].

Definition checklist_file : template_file (E := SampleEnv.env) :=
  mk_template_file checklist_template
    [ mk_button (Some "Generate JSON") (Some "generate_json");
      mk_button (Some "Clear Form") (Some "clear_form");
      mk_button (Some "Print") (Some "print_form") ].

Definition unnamed_button_file : template_file (E := SampleEnv.env) :=
  mk_template_file checklist_template
    [ mk_button (Some "Generate JSON") (Some "generate_json");
      mk_button None (Some "clear_form") ].

Definition notes_session : session (E := SampleEnv.env) :=
  mk_session (mk_template_file notes_template []) notes_form
    [ ("Save to Word", "save_to_word"); ("Save to PDF", "save_to_pdf") ] true.

(** A generator of Word documents that cannot write its file. *)
Definition failing_save (_ : dict (value (E := SampleEnv.env))) (path : string)
    (_ : option string) : result unit :=
  Raise (mk_exn Exception
           ("Error generating Word document: [Errno 13] Permission denied: "
            ++ path)).

End Samples.

(* ================================================================= *)
(** * Properties *)

(** ** Dictionaries *)

Module DictFacts.
Import Py.

Section Facts.
Context {V : Type}.
Implicit Types (d : dict V) (k : string) (v : V).

Lemma keys_set k v d k' :
  In k' (keys (set k v d)) <-> k' = k \/ In k' (keys d).
Proof.
  induction d as [|[k0 v0] r IH]; simpl.
  - intuition congruence.
  - destruct (String.eqb_spec k0 k) as [->|Hne]; simpl.
    + intuition congruence.
    + rewrite IH. tauto.
Qed.

Lemma set_not_nil k v d : set k v d <> [].
Proof.
  destruct d as [|[k0 v0] r]; simpl; [discriminate|].
  destruct (k0 =? k)%string; discriminate.
Qed.

Lemma get_set_same k v d : get k (set k v d) = Some v.
Proof.
  induction d as [|[k0 v0] r IH]; simpl.
  - now rewrite String.eqb_refl.
  - destruct (String.eqb_spec k0 k) as [->|Hne]; simpl.
    + now rewrite String.eqb_refl.
    + destruct (String.eqb_spec k0 k); [contradiction|assumption].
Qed.

Lemma get_set_other k k' v d :
  k' <> k -> get k' (set k v d) = get k' d.
Proof.
  intros Hne.
  induction d as [|[k0 v0] r IH]; simpl.
  - destruct (String.eqb_spec k k'); [congruence|reflexivity].
  - destruct (String.eqb_spec k0 k) as [->|Hk]; simpl.
    + destruct (String.eqb_spec k k'); [congruence|reflexivity].
    + now rewrite IH.
Qed.

Lemma get_In k d v : get k d = Some v -> In (k, v) d.
Proof.
  induction d as [|[k0 v0] r IH]; simpl; [discriminate|].
  destruct (String.eqb_spec k0 k) as [->|Hne].
  - intros [= ->]. now left.
  - intros H. right. now apply IH.
Qed.

Lemma get_None k d : get k d = None <-> ~ In k (keys d).
Proof.
  induction d as [|[k0 v0] r IH]; simpl.
  - tauto.
  - destruct (String.eqb_spec k0 k) as [->|Hne].
    + split; [discriminate|]. intros H. exfalso. apply H. now left.
    + rewrite IH. tauto.
Qed.

Lemma In_get k v d : NoDup (keys d) -> In (k, v) d -> get k d = Some v.
Proof.
  induction d as [|[k0 v0] r IH]; simpl; [tauto|].
  intros Hnd [Heq|Hin].
  - inversion Heq; subst. now rewrite String.eqb_refl.
  - inversion Hnd as [|? ? Hnotin Hnd']; subst.
    destruct (String.eqb_spec k0 k) as [->|Hne].
    + exfalso. apply Hnotin. change k with (fst (k, v)). now apply in_map.
    + now apply IH.
Qed.

Lemma mem_true k d : mem k d = true <-> In k (keys d).
Proof.
  unfold mem. destruct (get k d) eqn:Hg.
  - split; [intros _|reflexivity].
    apply get_In in Hg. change k with (fst (k, v)). now apply in_map.
  - split; [discriminate|]. intros H. now apply get_None in Hg.
Qed.

End Facts.

End DictFacts.

(** ** Strings *)

Module PyStrFacts.
Import PyStr.

Lemma app_nil_r (s : string) : s ++ "" = s.
Proof. induction s; simpl; congruence. Qed.

Lemma app_assoc (a b c : string) : (a ++ b) ++ c = a ++ (b ++ c).
Proof. induction a; simpl; congruence. Qed.

Lemma length_app (a b : string) :
  String.length (a ++ b) = String.length a + String.length b.
Proof. induction a; simpl; congruence. Qed.

Lemma prefix_app (p t : string) : String.prefix p (p ++ t) = true.
Proof.
  induction p as [|c p IH]; simpl.
  - now destruct t.
  - destruct (ascii_dec c c); [assumption|contradiction].
Qed.

Lemma prefix_inv (p s : string) :
  String.prefix p s = true -> exists t, s = p ++ t.
Proof.
  revert s. induction p as [|c p IH]; intros s H; simpl in *.
  - now exists s.
  - destruct s as [|c' s]; simpl in H; [discriminate|].
    destruct (ascii_dec c c') as [->|]; [|discriminate].
    destruct (IH _ H) as [t ->]. now exists t.
Qed.

Lemma prefix_iff (p s : string) :
  String.prefix p s = true <-> exists t, s = p ++ t.
Proof.
  split; [apply prefix_inv|]. intros [t ->]. apply prefix_app.
Qed.

Lemma prefix_cons (c c' : ascii) (p s : string) :
  String.prefix (String c p) (String c' s) =
  (c =? c')%char && String.prefix p s.
Proof.
  simpl. destruct (ascii_dec c c') as [->|Hne].
  - now rewrite Ascii.eqb_refl.
  - destruct (Ascii.eqb_spec c c'); [contradiction|reflexivity].
Qed.

Lemma prefix_nil (s : string) : String.prefix "" s = true.
Proof. now destruct s. Qed.

End PyStrFacts.

(** ** Sections of the report *)

Module Classification.
Import Py DocumentGenerator DictFacts Samples.

Section Facts.
Context {E : PyEnv}.

Lemma rule_matches_iff key prefix :
  rule_matches key prefix = true <->
  (exists rest, key = prefix ++ rest) \/ key = prefix.
Proof.
  unfold rule_matches, PyStr.startswith.
  rewrite orb_true_iff, PyStrFacts.prefix_iff, String.eqb_eq. tauto.
Qed.

Lemma first_rule_Some key mapping section :
  first_rule key mapping = Some section ->
  exists before prefix after,
    mapping = (before ++ (prefix, section) :: after)%list /\
    rule_matches key prefix = true /\
    no_rule key before.
Proof.
  induction mapping as [|[p s] rest IH]; simpl; [discriminate|].
  destruct (rule_matches key p) eqn:Hm.
  - intros [= ->]. exists [], p, rest. repeat split; trivial.
    intros ? ? [].
  - intros H. destruct (IH H) as (before & prefix & after & -> & Hp & Hno).
    exists ((p, s) :: before), prefix, after. repeat split; trivial.
    intros p' s' [[= <- <-]|Hin]; [assumption|]. eapply Hno; eassumption.
Qed.

Lemma first_rule_None key mapping :
  first_rule key mapping = None <-> no_rule key mapping.
Proof.
  induction mapping as [|[p s] rest IH]; simpl.
  - split; [intros _ ? ? []|reflexivity].
  - destruct (rule_matches key p) eqn:Hm.
    + split; [discriminate|]. intros H.
      specialize (H p s (or_introl eq_refl)). congruence.
    + rewrite IH. split.
      * intros H p' s' [[= <- <-]|Hin]; [assumption|]. eapply H; eassumption.
      * intros H p' s' Hin. apply (H p' s'). now right.
Qed.

Lemma section_of_cases key :
  (exists prefix, first_matching key prefix (section_of key)) \/
  (section_of key = "Other" /\ no_rule key field_mapping).
Proof.
  unfold section_of. destruct (first_rule key field_mapping) as [s|] eqn:H.
  - left. destruct (first_rule_Some _ _ _ H) as (b & p & a & ? & ? & ?).
    exists p, b, a. auto.
  - right. split; [reflexivity|]. now apply first_rule_None.
Qed.

Lemma section_of_name key : In (section_of key) section_names.
Proof.
  unfold section_of.
  assert (H : forall mapping,
             Forall (fun r => In (snd r) section_names) mapping ->
             In (match first_rule key mapping with
                 | Some s => s | None => "Other" end) section_names).
  { induction mapping as [|[p s] rest IH]; simpl; intros HF.
    - unfold section_names. simpl. intuition.
    - inversion HF as [|? ? Hs HF']; subst. simpl in Hs.
      destruct (rule_matches key p); [assumption|now apply IH]. }
  apply H. unfold field_mapping, section_names.
  repeat (constructor; [simpl; intuition|]). constructor.
Qed.

Lemma place_eq sections key v :
  place sections (key, v) = set_in (section_of key) key v sections.
Proof.
  unfold place, section_of. now destruct (first_rule key field_mapping).
Qed.

Lemma keys_set_in name key v (sections : dict (dict value)) :
  keys (set_in name key v sections) = keys sections.
Proof.
  induction sections as [|[n d] rest IH]; simpl; [reflexivity|].
  destruct (n =? name)%string; simpl; congruence.
Qed.

Lemma get_set_in name key v (sections : dict (dict value)) n :
  get n (set_in name key v sections) =
  match get n sections with
  | Some d => Some (if (n =? name)%string then set key v d else d)
  | None => None
  end.
Proof.
  induction sections as [|[n0 d0] rest IH]; simpl; [reflexivity|].
  destruct (String.eqb_spec n0 name) as [->|Hne]; simpl.
  - destruct (String.eqb_spec name n) as [->|Hn].
    + now rewrite String.eqb_refl.
    + destruct (get n rest); [|reflexivity].
      destruct (String.eqb_spec n name); [congruence|reflexivity].
  - destruct (String.eqb_spec n0 n) as [->|Hn].
    + destruct (String.eqb_spec n name); [congruence|reflexivity].
    + apply IH.
Qed.

Lemma keys_fold_place data (sections : dict (dict value)) :
  keys (fold_left place data sections) = keys sections.
Proof.
  revert sections. induction data as [|[k v] rest IH]; intros; cbn [fold_left].
  - reflexivity.
  - rewrite IH, place_eq. apply keys_set_in.
Qed.

(** The keys of a section after the loop: those it had, and the keys of the
    data that the rules send to it. *)
Lemma fold_place_get data : forall (sections : dict (dict value)) n d,
  get n sections = Some d ->
  exists d', get n (fold_left place data sections) = Some d' /\
    forall k, In k (keys d') <->
              In k (keys d) \/ (In k (keys data) /\ section_of k = n).
Proof.
  induction data as [|[k0 v0] rest IH]; intros sections n d Hget;
    cbn [fold_left].
  - exists d. split; [assumption|]. intros k. simpl. tauto.
  - rewrite place_eq.
    destruct (IH (set_in (section_of k0) k0 v0 sections) n
                 (if (n =? section_of k0)%string then set k0 v0 d else d))
      as (d' & Hd' & Hkeys).
    { now rewrite get_set_in, Hget. }
    exists d'. split; [assumption|]. intros k. rewrite Hkeys.
    destruct (String.eqb_spec n (section_of k0)) as [->|Hne].
    + rewrite keys_set. simpl. intuition (subst; auto).
    + simpl. intuition (subst; auto; congruence).
Qed.

Lemma grouped_keys data : keys (grouped data) = section_names.
Proof. unfold grouped. now rewrite keys_fold_place. Qed.

Lemma grouped_get data n :
  In n section_names ->
  exists d, get n (grouped data) = Some d /\
    forall k, In k (keys d) <-> In k (keys data) /\ section_of k = n.
Proof.
  intros Hn.
  assert (Hinit : get n sections_init = Some []).
  { simpl in Hn. unfold sections_init.
    repeat (destruct Hn as [<-|Hn]; [reflexivity|]). destruct Hn. }
  destruct (fold_place_get data _ _ _ Hinit) as (d & Hd & Hk).
  exists d. split; [assumption|]. intros k. rewrite Hk. simpl. tauto.
Qed.

Lemma NoDup_section_names : NoDup section_names.
Proof.
  unfold section_names.
  repeat (constructor; [simpl; intuition discriminate|]). constructor.
Qed.

Lemma get_filter_nonempty (l : dict (dict value)) n d :
  NoDup (keys l) ->
  (get n (filter (fun kv => nonempty (snd kv)) l) = Some d <->
   get n l = Some d /\ d <> []).
Proof.
  induction l as [|[n0 d0] rest IH]; simpl; intros Hnd.
  - intuition discriminate.
  - inversion Hnd as [|? ? Hnotin Hnd']; subst.
    destruct (String.eqb_spec n0 n) as [->|Hne].
    + destruct d0 as [|x d0]; simpl.
      * rewrite IH by assumption. split.
        -- intros [H _]. apply get_In in H. exfalso. apply Hnotin.
           change n with (fst (n, d)). now apply in_map.
        -- intros [[= <-] H]. congruence.
      * rewrite String.eqb_refl. split.
        -- intros [= <-]. split; [reflexivity|discriminate].
        -- intros [[= <-] _]. reflexivity.
    + destruct (nonempty d0); simpl.
      * destruct (String.eqb_spec n0 n); [contradiction|]. now apply IH.
      * now apply IH.
Qed.

Lemma group_get data n d :
  get n (_group_data_by_sections data) = Some d <->
  get n (grouped data) = Some d /\ d <> [].
Proof.
  unfold _group_data_by_sections. apply get_filter_nonempty.
  rewrite grouped_keys. apply NoDup_section_names.
Qed.

Lemma keys_in_nonnil {V : Type} (d : dict V) k : In k (keys d) -> d <> [].
Proof. destruct d; [intros []|discriminate]. Qed.

(** A key of the result's section [n] is a key of the data that the rules
    send to [n], and conversely. *)
Lemma group_member data n k :
  (exists d, get n (_group_data_by_sections data) = Some d /\ In k (keys d)) <->
  In k (keys data) /\ section_of k = n.
Proof.
  split.
  - intros (d & Hd & Hk). apply group_get in Hd. destruct Hd as [Hd _].
    assert (Hn : In n section_names).
    { rewrite <- (grouped_keys data). apply get_In in Hd.
      change n with (fst (n, d)). now apply in_map. }
    destruct (grouped_get data n Hn) as (d' & Hd' & Hkeys).
    rewrite Hd in Hd'. injection Hd' as <-. now apply Hkeys.
  - intros [Hk Hs].
    assert (Hn : In n section_names) by (subst n; apply section_of_name).
    destruct (grouped_get data n Hn) as (d & Hd & Hkeys).
    assert (Hin : In k (keys d)) by now apply Hkeys.
    exists d. split; [|assumption]. apply group_get. split; [assumption|].
    now apply keys_in_nonnil with k.
Qed.

Lemma first_rule_target key mapping section :
  first_rule key mapping = Some section -> In section (map snd mapping).
Proof.
  induction mapping as [|[p s] rest IH]; simpl; [discriminate|].
  destruct (rule_matches key p).
  - intros [= ->]. now left.
  - intros H. right. now apply IH.
Qed.

Lemma section_of_Other key :
  section_of key = "Other" <-> no_rule key field_mapping.
Proof.
  rewrite <- first_rule_None. unfold section_of.
  destruct (first_rule key field_mapping) as [s|] eqn:H.
  - split; [|discriminate]. intros ->. apply first_rule_target in H.
    exfalso. simpl in H. intuition discriminate.
  - tauto.
Qed.

Lemma keys_filter_ext {V : Type} (f : string * V -> bool) (P : string -> bool)
    (l : dict V) :
  (forall kv, In kv l -> f kv = P (fst kv)) ->
  keys (filter f l) = filter P (keys l).
Proof.
  induction l as [|kv rest IH]; simpl; intros H; [reflexivity|].
  rewrite (H kv (or_introl eq_refl)).
  destruct (P (fst kv)); simpl; rewrite IH; auto.
Qed.

Lemma nonempty_grouped data n d :
  In (n, d) (grouped data) ->
  nonempty d = existsb (fun k => (section_of k =? n)%string) (keys data).
Proof.
  intros Hin.
  assert (Hget : get n (grouped data) = Some d).
  { apply In_get; [|assumption]. rewrite grouped_keys.
    apply NoDup_section_names. }
  assert (Hn : In n section_names).
  { rewrite <- (grouped_keys data). change n with (fst (n, d)).
    now apply in_map. }
  destruct (grouped_get data n Hn) as (d' & Hd' & Hkeys).
  rewrite Hget in Hd'. injection Hd' as <-.
  apply eq_true_iff_eq. rewrite existsb_exists. split.
  - destruct d as [|[k v] r]; [discriminate|]. intros _.
    exists k. rewrite String.eqb_eq. apply Hkeys. now left.
  - intros (k & Hk & Hs). apply String.eqb_eq in Hs.
    assert (Hkd : In k (keys d)) by now apply Hkeys.
    destruct d; [destruct Hkd|reflexivity].
Qed.

(** C1. Classification is a total function of the key.  Every key of the
    data lies in a section of the result, in no other section, and that
    section is one of the six names.  It is the section of the first rule
    of the table, in the order of the table, whose prefix starts the key or
    is the key, and it is "Other" when no rule matches; a prefix matches
    exactly when the key goes on from it or equals it; "Other" holds exactly
    the keys that no rule matches; and the table is the one of the
    specification. *)
Theorem C1_classification_total (data : dict value) (key : string) :
  In key (keys data) ->
  (exists section,
     In section section_names /\
     (exists d, get section (_group_data_by_sections data) = Some d /\
                In key (keys d)) /\
     (forall n d, get n (_group_data_by_sections data) = Some d ->
                  In key (keys d) -> n = section) /\
     ((exists prefix, first_matching key prefix section) \/
      (section = "Other" /\ no_rule key field_mapping))) /\
  (forall k prefix,
     rule_matches k prefix = true <->
     (exists rest, k = prefix ++ rest) \/ k = prefix) /\
  (forall k,
     (exists d, get "Other" (_group_data_by_sections data) = Some d /\
                In k (keys d)) <->
     In k (keys data) /\ no_rule k field_mapping) /\
  field_mapping =
    [ ("patient_", "Patient Information");
      ("study_", "Patient Information");
      ("indication", "Patient Information");
      ("symmetry", "Background Activity");
      ("predominant_", "Background Activity");
      ("reactivity", "Background Activity");
      ("organization", "Background Activity");
      ("continuity", "Background Activity");
      ("epileptiform_", "Epileptiform Activity");
      ("hv_", "Provocation Responses");
      ("photo_", "Provocation Responses");
      ("impression", "Conclusion") ].
Proof.
  intros Hkey. split; [|split; [|split]].
  - exists (section_of key). split; [apply section_of_name|]. split; [|split].
    + now apply group_member.
    + intros n d Hget Hin. symmetry.
      apply (group_member data n key). now exists d.
    + apply section_of_cases.
  - intros k prefix. apply rule_matches_iff.
  - intros k. rewrite group_member, section_of_Other. tauto.
  - reflexivity.
Qed.

(** C6. No section of the result is empty, and the sections of the result
    are, in the order in which the table of sections declares them, those
    that some key of the data is sent to. *)
Theorem C6_empty_sections_omitted (data : dict value) :
  Forall (fun kv => snd kv <> []) (_group_data_by_sections data) /\
  keys (_group_data_by_sections data) =
    filter (fun n => existsb (fun k => (section_of k =? n)%string) (keys data))
           [ "Patient Information"; "Background Activity";
             "Epileptiform Activity"; "Provocation Responses";
             "Conclusion"; "Other" ].
Proof.
  split.
  - unfold _group_data_by_sections. apply Forall_forall.
    intros [n d] Hin. apply filter_In in Hin. destruct Hin as [_ Hne].
    simpl in *. now destruct d.
  - unfold _group_data_by_sections.
    rewrite (keys_filter_ext _
               (fun n => existsb (fun k => (section_of k =? n)%string)
                                 (keys data))).
    + now rewrite grouped_keys.
    + intros [n d] Hin. simpl. now apply nonempty_grouped.
Qed.

End Facts.

Lemma C1_classification_total_witness :
  In "reactivity_extra" (keys sample_data) /\
  exists section,
    In section section_names /\
    (exists d, get section (_group_data_by_sections sample_data) = Some d /\
               In "reactivity_extra" (keys d)) /\
    (forall n d, get n (_group_data_by_sections sample_data) = Some d ->
                 In "reactivity_extra" (keys d) -> n = section) /\
    ((exists prefix, first_matching "reactivity_extra" prefix section) \/
     (section = "Other" /\ no_rule "reactivity_extra" field_mapping)).
Proof.
  assert (H : In "reactivity_extra" (keys sample_data)) by (simpl; auto).
  split; [exact H|].
  exact (proj1 (C1_classification_total sample_data "reactivity_extra" H)).
Defined.

End Classification.

(** ** Field names *)

Module FieldNames.
Import PyStr PyStrFacts DocumentGenerator.

Lemma split_on_not_nil sep s : split_on sep s <> [].
Proof.
  destruct s as [|c r]; simpl; [discriminate|].
  destruct (c =? sep)%char; [discriminate|].
  destruct (split_on sep r); discriminate.
Qed.

Lemma concat_cons sep w ws :
  ws <> [] -> String.concat sep (w :: ws) = w ++ sep ++ String.concat sep ws.
Proof. destruct ws; [congruence|reflexivity]. Qed.

(** Replacing a character is joining anew the words that it separates. *)
Lemma replace_char (c : ascii) (new s : string) :
  replace s (String c "") new = String.concat new (split_on c s).
Proof.
  unfold replace. simpl (_ =? _)%string. cbv iota.
  induction s as [|x r IH].
  - reflexivity.
  - cbn [replace_from split_on]. rewrite prefix_cons, prefix_nil, andb_true_r.
    rewrite Ascii.eqb_sym. destruct (x =? c)%char.
    + simpl (String.length _ - 1). rewrite IH.
      rewrite concat_cons by apply split_on_not_nil. reflexivity.
    + rewrite IH. pose proof (split_on_not_nil c r) as Hne.
      destruct (split_on c r) as [|w ws]; [congruence|].
      destruct ws; reflexivity.
Qed.

Lemma title_from_space b (w t : string) :
  title_from b (w ++ String " " t) =
  title_from b w ++ String " " (title_from false t).
Proof.
  revert b. induction w as [|c w IH]; intros b; simpl.
  - now destruct b.
  - now rewrite IH.
Qed.

(** [title] starts afresh after every space. *)
Lemma title_concat (ws : list string) :
  title (String.concat " " ws) = String.concat " " (map title ws).
Proof.
  unfold title. induction ws as [|w ws IH]; [reflexivity|].
  destruct ws as [|w' ws]; [reflexivity|].
  change (String.concat " " (w :: w' :: ws))
    with (w ++ String " " (String.concat " " (w' :: ws))).
  rewrite title_from_space, IH. reflexivity.
Qed.

Lemma lower_not_upper c : ch_islower c = true -> ch_isupper c = false.
Proof.
  unfold ch_islower, ch_isupper, in_range.
  rewrite andb_true_iff, andb_false_iff, !Nat.leb_le, !Nat.leb_gt. lia.
Qed.

Lemma title_from_lower (w : string) :
  all_chars ch_islower w = true -> title_from true w = w.
Proof.
  induction w as [|c w IH]; simpl; [reflexivity|].
  rewrite andb_true_iff. intros [Hc Hw].
  unfold ch_lower, ch_iscased. rewrite (lower_not_upper _ Hc), Hc. simpl.
  now rewrite IH.
Qed.

Lemma title_lower_word (w : string) :
  all_chars ch_islower w = true -> title w = capitalized w.
Proof.
  destruct w as [|c w]; [reflexivity|]. unfold title. simpl.
  rewrite andb_true_iff. intros [Hc Hw].
  unfold ch_iscased. rewrite Hc, orb_true_r. now rewrite title_from_lower.
Qed.

(** C2. The label of a snake-case key: the words between its underscores,
    each put in title case (a word of lower-case letters gets its first
    letter in upper case), joined by spaces, and then "Hv", "Photo" and
    "Eeg" replaced in this order in that string; the three labels of the
    specification. *)
Theorem C2_format_field_name (key : string) :
  snake_case key = true ->
  _format_field_name key =
    replace
      (replace
         (replace (String.concat " " (map title (split_on "_" key)))
                  "Hv" "Hyperventilation")
         "Photo" "Photostimulation")
      "Eeg" "EEG" /\
  (forall w, In w (split_on "_" key) -> all_chars ch_islower w = true ->
             title w = capitalized w) /\
  _format_field_name "patient_name" = "Patient Name" /\
  _format_field_name "hv_response" = "Hyperventilation Response" /\
  _format_field_name "eeg_score" = "EEG Score".
Proof.
  intros _. split; [|split; [|repeat split]].
  - unfold _format_field_name, replacements. cbn [fold_left fst snd].
    now rewrite replace_char, title_concat.
  - intros w _. apply title_lower_word.
Qed.

Lemma C2_format_field_name_witness :
  snake_case "photo_response" = true /\
  _format_field_name "photo_response" =
    replace
      (replace
         (replace (String.concat " " (map title (split_on "_" "photo_response")))
                  "Hv" "Hyperventilation")
         "Photo" "Photostimulation")
      "Eeg" "EEG".
Proof.
  split; [reflexivity|].
  exact (proj1 (C2_format_field_name "photo_response" eq_refl)).
Defined.

End FieldNames.

(** ** Cells of the PDF tables *)

Module Truncation.
Import Py PyStr PyStrFacts DocumentGenerator Samples.

Lemma slice_to_from (n : nat) (s : string) :
  s = slice_to n s ++ slice_from n s.
Proof.
  unfold slice_to. revert n. induction s as [|c r IH]; intros [|n]; simpl;
    try reflexivity.
  now rewrite <- IH.
Qed.

Lemma length_slice_to (n : nat) (s : string) :
  n <= String.length s -> String.length (slice_to n s) = n.
Proof.
  unfold slice_to. revert n. induction s as [|c r IH]; intros [|n]; simpl;
    intros H; try reflexivity; try lia.
  rewrite IH; lia.
Qed.

Section Cells.
Context {E : PyEnv}.

(** C5. A formatted value of more than 50 characters goes into its PDF cell
    as its first 47 characters followed by three dots, 50 characters in all;
    a formatted value of 50 characters or fewer goes in unchanged; and the
    value cells of a table are made in this way. *)
Theorem C5_pdf_cell_truncation (v : value) :
  (50 < len (formatted_value v) ->
     pdf_cell_value v = slice_to 47 (formatted_value v) ++ "..." /\
     formatted_value v =
       slice_to 47 (formatted_value v) ++ slice_from 47 (formatted_value v) /\
     len (slice_to 47 (formatted_value v)) = 47 /\
     len (pdf_cell_value v) = 50) /\
  (len (formatted_value v) <= 50 -> pdf_cell_value v = formatted_value v) /\
  (forall section_data : dict value,
     map (fun row => nth 1 row "") (tl (pdf_table_data section_data)) =
     map (fun kv => pdf_cell_value (snd kv)) section_data).
Proof.
  unfold pdf_cell_value, len. split; [|split].
  - intros H. apply Nat.ltb_lt in H as Hb. rewrite Hb.
    assert (H47 : String.length (slice_to 47 (formatted_value v)) = 47)
      by (apply length_slice_to; lia).
    repeat split; trivial.
    + apply slice_to_from.
    + rewrite length_app, H47. reflexivity.
  - intros H. apply Nat.ltb_ge in H. now rewrite H.
  - intros section_data. unfold pdf_table_data. simpl tl.
    rewrite map_map. reflexivity.
Qed.

End Cells.

Lemma C5_pdf_cell_truncation_witness :
  (pdf_cell_value (E := SampleEnv.env) (VStr sixty) =
     "12345678901234567890123456789012345678901234567..." /\
   len (pdf_cell_value (E := SampleEnv.env) (VStr sixty)) = 50) /\
  pdf_cell_value (E := SampleEnv.env) (VInt 42) = "42".
Proof.
  pose proof (C5_pdf_cell_truncation (E := SampleEnv.env) (VStr sixty)) as [H _].
  pose proof (C5_pdf_cell_truncation (E := SampleEnv.env) (VInt 42)) as [_ [H' _]].
  split.
  - destruct H as (H1 & _ & _ & H2); [vm_compute; lia|].
    split; [exact H1|exact H2].
  - apply H'. vm_compute. lia.
Defined.

End Truncation.

(** ** The export paths *)

Module ErrorPolicy.
Import Py DocumentGenerator Samples.

Section Library.
Context {E : PyEnv}.
Variable word_template_path : string.
Variable os_path_exists : string -> bool.
Variable docx : Type.
Variable Document : string -> result docx.
Variable fill_word_template : docx -> dict value -> result docx.
Variable create_word_document_from_scratch : dict value -> result docx.
Variable docx_save : docx -> string -> result unit.
Variable pdf_build : string -> list (string * list (list string)) -> result unit.

#[local] Abbreviation word_body :=
  (word_document_body word_template_path os_path_exists docx Document
     fill_word_template create_word_document_from_scratch docx_save).
#[local] Abbreviation generate_word :=
  (generate_word_document word_template_path os_path_exists docx Document
     fill_word_template create_word_document_from_scratch docx_save).
#[local] Abbreviation pdf_body := (pdf_document_body pdf_build).
#[local] Abbreviation generate_pdf := (generate_pdf_document pdf_build).
#[local] Abbreviation raised_in_word :=
  (DocumentGenerator.raised_in_word word_template_path os_path_exists docx
     Document fill_word_template create_word_document_from_scratch docx_save).

Lemma word_body_Raise data output_path template_path e :
  word_body data output_path template_path = Raise e <->
  raised_in_word data output_path template_path e.
Proof.
  unfold word_document_body, raised_in_word.
  set (path := template_path_or_default word_template_path template_path).
  destruct (os_path_exists path); simpl.
  - destruct (Document path) as [doc0|e0]; simpl.
    + destruct (fill_word_template doc0 data) as [doc|e1] eqn:Hf; simpl.
      * split.
        -- intros H. right. right. right. exists doc. split; [|assumption].
           exists doc0. auto.
        -- intros [[_ H]|[[_ (d & H1 & H2)]|[[H _]|(d & (d0 & H1 & H2) & H3)]]];
             try discriminate.
           ++ injection H1 as <-. congruence.
           ++ injection H1 as <-. congruence.
      * split.
        -- intros [= ->]. right. left. split; [reflexivity|]. exists doc0. auto.
        -- intros [[_ H]|[[_ (d & H1 & H2)]|[[H _]|(d & (d0 & H1 & H2) & H3)]]];
             try discriminate.
           ++ injection H1 as <-. congruence.
           ++ injection H1 as <-. congruence.
    + split.
      * intros [= ->]. left. auto.
      * intros [[_ H]|[[_ (d & H1 & H2)]|[[H _]|(d & (d0 & H1 & H2) & H3)]]];
          try discriminate. congruence.
  - destruct (create_word_document_from_scratch data) as [doc|e0]; simpl.
    + split.
      * intros H. right. right. right. exists doc. auto.
      * intros [[H _]|[[H _]|[[_ H]|(d & H1 & H2)]]]; try discriminate.
        congruence.
    + split.
      * intros [= ->]. right. right. left. auto.
      * intros [[H _]|[[H _]|[[_ H]|(d & H1 & H2)]]]; try discriminate.
        congruence.
Qed.

Lemma try_except_Raise {A : Type} (body : result A) handler e :
  body = Raise e ->
  try_except_Exception body (fun e => Raise (handler e)) =
  if isinstance_Exception (exn_cls e) then Raise (handler e) else Raise e.
Proof. intros ->. reflexivity. Qed.

(** C8. On both export paths, an exception of class [Exception] or of a
    subclass of it, raised by any call of the path, comes out as an
    [Exception] whose message is the path's prefix followed by the text of
    the exception raised, and nothing else of the [Exception] classes comes
    out; a path that raises nothing returns; an exception outside of the
    [Exception] classes comes out as it was raised. *)
Theorem C8_export_error_policy (data : dict value) (output_path : string)
    (template_path : option string) :
  (forall e0, raised_in_word data output_path template_path e0 ->
     isinstance_Exception (exn_cls e0) = true ->
     generate_word data output_path template_path =
       Raise (mk_exn Exception
                ("Error generating Word document: " ++ exn_str e0))) /\
  (forall e0, pdf_body data output_path = Raise e0 ->
     isinstance_Exception (exn_cls e0) = true ->
     generate_pdf data output_path =
       Raise (mk_exn Exception
                ("Error generating PDF document: " ++ exn_str e0))) /\
  (forall e, generate_word data output_path template_path = Raise e ->
     isinstance_Exception (exn_cls e) = true ->
     exn_cls e = Exception /\
     exists e0, raised_in_word data output_path template_path e0 /\
       exn_str e = "Error generating Word document: " ++ exn_str e0) /\
  (forall e, generate_pdf data output_path = Raise e ->
     isinstance_Exception (exn_cls e) = true ->
     exn_cls e = Exception /\
     exists e0, pdf_body data output_path = Raise e0 /\
       exn_str e = "Error generating PDF document: " ++ exn_str e0) /\
  (word_body data output_path template_path = Ok tt ->
     generate_word data output_path template_path = Ok tt) /\
  (pdf_body data output_path = Ok tt ->
     generate_pdf data output_path = Ok tt) /\
  (forall e0, raised_in_word data output_path template_path e0 ->
     isinstance_Exception (exn_cls e0) = false ->
     generate_word data output_path template_path = Raise e0) /\
  (forall e0, pdf_body data output_path = Raise e0 ->
     isinstance_Exception (exn_cls e0) = false ->
     generate_pdf data output_path = Raise e0).
Proof.
  unfold generate_word_document, generate_pdf_document.
  repeat match goal with |- _ /\ _ => split end.
  - intros e0 H Hcls. apply word_body_Raise in H.
    rewrite (try_except_Raise _ _ _ H), Hcls. reflexivity.
  - intros e0 H Hcls. rewrite (try_except_Raise _ _ _ H), Hcls. reflexivity.
  - intros e H Hcls.
    destruct (word_body data output_path template_path) as [u|e0] eqn:Hb;
      simpl in H; [discriminate|].
    destruct (isinstance_Exception (exn_cls e0)) eqn:H0.
    + injection H as <-. split; [reflexivity|]. exists e0.
      split; [now apply word_body_Raise|reflexivity].
    + injection H as <-. congruence.
  - intros e H Hcls.
    destruct (pdf_body data output_path) as [u|e0] eqn:Hb;
      simpl in H; [discriminate|].
    destruct (isinstance_Exception (exn_cls e0)) eqn:H0.
    + injection H as <-. split; [reflexivity|]. exists e0. auto.
    + injection H as <-. congruence.
  - intros ->. reflexivity.
  - intros ->. reflexivity.
  - intros e0 H Hcls. apply word_body_Raise in H.
    rewrite (try_except_Raise _ _ _ H), Hcls. reflexivity.
  - intros e0 H Hcls. rewrite (try_except_Raise _ _ _ H), Hcls. reflexivity.
Qed.

End Library.

Lemma C8_export_error_policy_counterexample :
  ~ (forall pdf_build data output_path e,
       generate_pdf_document (E := SampleEnv.env) pdf_build data output_path
         = Raise e ->
       exn_cls e = Exception).
Proof.
  intros H.
  specialize (H interrupted_build [] "report.pdf" (mk_exn KeyboardInterrupt "")
                eq_refl).
  discriminate H.
Qed.

Lemma C8_export_error_policy_witness :
  generate_pdf_document (E := SampleEnv.env) failing_build [] "report.pdf" =
  Raise (mk_exn Exception
           "Error generating PDF document: [Errno 13] Permission denied: report.pdf").
Proof.
  exact (proj1 (proj2
    (C8_export_error_policy (E := SampleEnv.env) "word_template.docx"
       (fun _ => false) unit (fun _ => Ok tt) (fun d _ => Ok d)
       (fun _ => Ok tt) (fun _ _ => Ok tt) failing_build [] "report.pdf" None))
    _ eq_refl eq_refl).
Defined.

End ErrorPolicy.

(** ** Numbers read from the form *)

Module Coercion.
Import Py PyStr PyStrFacts DynamicForm Samples.

Lemma decimal_not_space c : ch_isdecimal c = true -> ch_isspace c = false.
Proof.
  unfold ch_isdecimal, ch_isspace, in_range.
  rewrite andb_true_iff, !Nat.leb_le. intros [H1 H2].
  repeat rewrite orb_false_iff. repeat rewrite andb_false_iff.
  rewrite !Nat.leb_gt, !Nat.eqb_neq. lia.
Qed.

Lemma decimal_not_sign c :
  ch_isdecimal c = true -> (c =? "-")%char = false /\ (c =? "+")%char = false.
Proof.
  intros H. split; apply Ascii.eqb_neq; intros ->; discriminate H.
Qed.

Lemma decimal_isdigit c : ch_isdecimal c = true -> ch_isdigit c = true.
Proof. unfold ch_isdigit. now intros ->. Qed.

Lemma all_chars_impl (p q : ascii -> bool) s :
  (forall c, p c = true -> q c = true) ->
  all_chars p s = true -> all_chars q s = true.
Proof.
  intros Hpq. induction s as [|c r IH]; simpl; [reflexivity|].
  rewrite !andb_true_iff. intros [H1 H2]. auto.
Qed.

Lemma rstrip_no_space s :
  all_chars (fun c => negb (ch_isspace c)) s = true -> rstrip s = s.
Proof.
  induction s as [|c r IH]; simpl; [reflexivity|].
  rewrite andb_true_iff, negb_true_iff. intros [Hc Hr].
  rewrite (IH Hr), Hc. now destruct r.
Qed.

Lemma strip_decimal s : all_chars ch_isdecimal s = true -> strip s = s.
Proof.
  intros H. unfold strip.
  assert (Hl : lstrip s = s).
  { destruct s as [|c r]; [reflexivity|]. simpl in *.
    apply andb_true_iff in H. destruct H as [Hc _].
    now rewrite (decimal_not_space _ Hc). }
  rewrite Hl. apply rstrip_no_space.
  apply all_chars_impl with (p := ch_isdecimal); [|assumption].
  intros c Hc. now rewrite (decimal_not_space _ Hc).
Qed.

Lemma count_decimal s :
  all_chars ch_isdecimal s = true -> count_chars ch_isdecimal s = String.length s.
Proof.
  induction s as [|c r IH]; simpl; [reflexivity|].
  rewrite andb_true_iff. intros [-> Hr]. now rewrite IH.
Qed.

Lemma int_digits_decimal s : forall acc after_digit,
  all_chars ch_isdecimal s = true ->
  s <> "" \/ after_digit = true ->
  (0 <= acc)%Z ->
  exists n, int_digits acc after_digit s = Some n /\ (0 <= n)%Z.
Proof.
  induction s as [|c r IH]; intros acc b Hs Hne Hacc; cbn [int_digits].
  - destruct Hne as [Hne| ->]; [congruence|]. now exists acc.
  - simpl in Hs. apply andb_true_iff in Hs. destruct Hs as [Hc Hr].
    rewrite Hc. apply IH; [assumption|now right|].
    pose proof (Nat2Z.is_nonneg (code c - 48)). unfold digit_val. lia.
Qed.

Lemma isdigit_decimal s :
  all_chars ch_isdecimal s = true -> s <> "" -> isdigit s = true.
Proof.
  intros Hs Hne. unfold isdigit. apply andb_true_iff. split.
  - apply negb_true_iff. now apply String.eqb_neq.
  - apply all_chars_impl with (p := ch_isdecimal); [|assumption].
    apply decimal_isdigit.
Qed.

(** [int] reads a string of decimal digits that the limit allows. *)
Lemma int_of_str_decimal (limit : nat) (s : string) :
  all_chars ch_isdecimal s = true -> s <> "" ->
  limit = 0 \/ String.length s <= limit ->
  exists n, int_of_str limit s = Some n /\ (0 <= n)%Z.
Proof.
  intros Hs Hne Hlimit. unfold int_of_str. rewrite (strip_decimal _ Hs).
  destruct s as [|c r]; [congruence|].
  assert (Hc : ch_isdecimal c = true).
  { simpl in Hs. now apply andb_true_iff in Hs. }
  destruct (decimal_not_sign _ Hc) as [-> ->].
  rewrite (count_decimal _ Hs).
  assert (Hl : negb (limit =? 0) && (limit <? String.length (String c r)) = false).
  { destruct Hlimit as [->|Hle]; [reflexivity|].
    apply andb_false_iff. right. apply Nat.ltb_ge. exact Hle. }
  rewrite Hl.
  destruct (int_digits_decimal (String c r) 0%Z false Hs) as (n & Hn & Hpos);
    [now left|lia|].
  rewrite Hn. simpl. now exists n.
Qed.

Section Fields.
Context {E : PyEnv}.

Lemma is_number_in_unique (fields : list field_spec) (f : field_spec) :
  NoDup (map field_id fields) -> In f fields ->
  is_number_in fields (field_id f) = (field_type f =? "number")%string.
Proof.
  induction fields as [|g rest IH]; simpl; [tauto|].
  intros Hnd [->|Hin].
  - now rewrite String.eqb_refl.
  - inversion Hnd as [|? ? Hnotin Hnd']; subst.
    destruct (String.eqb_spec (field_id g) (field_id f)) as [Heq|Hne].
    + exfalso. apply Hnotin. rewrite Heq. now apply in_map.
    + now apply IH.
Qed.

(** C4. What is stored for the string of a field.  On a field that the
    template types "number" and for a string that is not empty: a string of
    decimal digits becomes the integer that [int] reads in it; a string that
    is not made of digits becomes the float that [float] reads in it, and
    stays as it is when [float] refuses it.  A field of another type, and an
    empty string, keep the string.  A field of a template with distinct ids
    is a number field exactly when its type is "number".  On a number field
    "42" becomes 42, "3.5" becomes the float read in it, and "abc" stays. *)
Theorem C4_numeric_coercion (t : template) (id value : string) :
  (is_number_field t id = true -> value <> "" ->
     (all_chars ch_isdecimal value = true ->
      int_max_str_digits = 0 \/ String.length value <= int_max_str_digits ->
      exists n, int_of_str int_max_str_digits value = Some n /\
                (0 <= n)%Z /\ stored_value t id value = VInt n) /\
     (isdigit value = false -> forall f, float_of_str value = Some f ->
      stored_value t id value = VFloat f) /\
     (isdigit value = false -> float_of_str value = None ->
      stored_value t id value = VStr value)) /\
  (is_number_field t id = false \/ value = "" ->
     stored_value t id value = VStr value) /\
  (forall f, NoDup (map field_id (all_fields t)) -> In f (all_fields t) ->
     is_number_field t (field_id f) = (field_type f =? "number")%string) /\
  (is_number_field t id = true ->
     stored_value t id "42" = VInt 42 /\
     (forall f, float_of_str "3.5" = Some f ->
        stored_value t id "3.5" = VFloat f) /\
     (float_of_str "abc" = None -> stored_value t id "abc" = VStr "abc")).
Proof.
  split; [|split; [|split]].
  - intros Hnum Hne. unfold stored_value. rewrite Hnum.
    apply String.eqb_neq in Hne. rewrite Hne. simpl.
    apply String.eqb_neq in Hne. unfold convert_number. repeat split.
    + intros Hdec Hlimit.
      destruct (int_of_str_decimal _ _ Hdec Hne Hlimit) as (n & Hn & Hpos).
      exists n. rewrite (isdigit_decimal _ Hdec Hne), Hn. auto.
    + intros -> f ->. reflexivity.
    + intros -> ->. reflexivity.
  - intros [H| ->]; unfold stored_value.
    + now rewrite H.
    + now rewrite andb_false_r.
  - intros f Hnd Hin. now apply is_number_in_unique.
  - intros Hnum. unfold stored_value. rewrite Hnum. simpl.
    unfold convert_number. repeat split.
    + replace (isdigit "42") with true by reflexivity.
      assert (H42 : int_of_str int_max_str_digits "42" = Some 42%Z).
      { unfold int_of_str. simpl.
        destruct int_max_str_digits_range as [->|H]; [reflexivity|].
        replace (int_max_str_digits <? 2) with false
          by (symmetry; apply Nat.ltb_ge; lia).
        now rewrite andb_false_r. }
      now rewrite H42.
    + intros f Hf. replace (isdigit "3.5") with false by reflexivity.
      now rewrite Hf.
    + intros Hf. replace (isdigit "abc") with false by reflexivity.
      now rewrite Hf.
Qed.

End Fields.

Lemma C4_numeric_coercion_counterexample :
  ~ (forall (E : PyEnv) (t : template) (id value : string),
       is_number_field t id = true -> value <> "" ->
       stored_value t id value = int_then_float value).
Proof.
  intros H.
  specialize (H SampleEnv.env number_template "patient_age" "-5" eq_refl).
  assert (Hne : "-5" <> "") by discriminate.
  specialize (H Hne). vm_compute in H. discriminate H.
Qed.

Lemma C4_numeric_coercion_witness :
  (exists n, int_of_str 4300 "2024" = Some n /\ (0 <= n)%Z /\
             stored_value number_template "patient_age" "2024" = VInt n) /\
  stored_value number_template "patient_age" "-5" =
    VFloat (E := SampleEnv.env) "-5" /\
  stored_value number_template "patient_age" "4 years" = VStr "4 years" /\
  stored_value number_template "patient_name" "42" = VStr "42" /\
  stored_value number_template "patient_age" "42" = VInt 42 /\
  stored_value number_template "patient_age" "3.5" =
    VFloat (E := SampleEnv.env) "3.5" /\
  stored_value number_template "patient_age" "abc" = VStr "abc".
Proof.
  pose proof (C4_numeric_coercion number_template "patient_age") as H.
  assert (Hnum : is_number_field number_template "patient_age" = true)
    by reflexivity.
  split; [|split; [|split; [|split; [|split; [|split]]]]].
  - destruct (H "2024") as [H1 _].
    destruct (H1 Hnum) as [H2 _]; [discriminate|].
    apply H2; [reflexivity|]. right. vm_compute. lia.
  - destruct (H "-5") as [H1 _].
    destruct (H1 Hnum) as (_ & H2 & _); [discriminate|].
    now apply H2.
  - destruct (H "4 years") as [H1 _].
    destruct (H1 Hnum) as (_ & _ & H2); [discriminate|].
    now apply H2.
  - destruct (C4_numeric_coercion number_template "patient_name" "42")
      as (_ & H1 & _).
    apply H1. now left.
  - destruct (H "") as (_ & _ & _ & H1). now apply H1.
  - destruct (H "") as (_ & _ & _ & H1).
    destruct (H1 Hnum) as (_ & H2 & _). now apply H2.
  - destruct (H "") as (_ & _ & _ & H1).
    destruct (H1 Hnum) as (_ & _ & H2). now apply H2.
Defined.

End Coercion.

(** ** Text areas *)

Module Textarea.
Import Py PyStr DictFacts DynamicForm Samples.

Lemma rstrip_app_newline s : rstrip (s ++ newline) = rstrip s.
Proof.
  induction s as [|c r IH]; [reflexivity|].
  change (String c r ++ newline) with (String c (r ++ newline)).
  cbn [rstrip]. now rewrite IH.
Qed.

Lemma lstrip_app_newline s :
  lstrip (s ++ newline) = lstrip s ++ newline \/
  (lstrip s = "" /\ lstrip (s ++ newline) = "").
Proof.
  induction s as [|c r IH]; [now right|].
  change (String c r ++ newline) with (String c (r ++ newline)).
  cbn [lstrip]. destruct (ch_isspace c); [exact IH|now left].
Qed.

(** The newline that Tk adds goes away with the whitespace at the end. *)
Lemma strip_app_newline s : strip (s ++ newline) = strip s.
Proof.
  unfold strip. destruct (lstrip_app_newline s) as [->|[-> ->]].
  - apply rstrip_app_newline.
  - reflexivity.
Qed.

Section Collect.
Context {E : PyEnv}.

Lemma collect_variables_total (t : template) (vars : dict tkvar) :
  (forall id raw, In (id, BooleanVar raw) vars ->
     exists b, BooleanVar_get raw = Ok b) ->
  forall data, exists data', collect_variables t vars data = Ok data'.
Proof.
  induction vars as [|[id var] rest IH]; intros Hread data; simpl.
  - now exists data.
  - destruct var as [raw|s].
    + destruct (Hread id raw (or_introl eq_refl)) as [b ->]. simpl.
      apply IH. intros id' raw' Hin. apply (Hread id' raw'). now right.
    + simpl. apply IH. intros id' raw' Hin. apply (Hread id' raw'). now right.
Qed.

Lemma collect_widgets_other (ws : dict widget) (id : string) :
  ~ In id (keys ws) ->
  forall data, get id (fold_left collect_widget ws data) = get id data.
Proof.
  induction ws as [|[id0 w0] rest IH]; intros Hnotin data; simpl.
  - reflexivity.
  - simpl in Hnotin. rewrite IH by tauto.
    destruct w0; try reflexivity.
    apply get_set_other. intros ->. tauto.
Qed.

Lemma collect_widgets_textarea (ws : dict widget) id height text :
  NoDup (keys ws) -> In (id, ScrolledText height text) ws ->
  forall data,
    get id (fold_left collect_widget ws data) =
    Some (VStr (strip (ScrolledText_get text))).
Proof.
  induction ws as [|[id0 w0] rest IH]; intros Hnd Hin data; simpl.
  - destruct Hin.
  - inversion Hnd as [|? ? Hnotin Hnd']; subst.
    destruct Hin as [[= -> ->]|Hin].
    + rewrite collect_widgets_other by assumption. apply get_set_same.
    + now apply IH.
Qed.

(** C9. When the variables of the form can be read, [collect_data] returns,
    and under the id of every text area the data holds the text that the
    widget gives, which is its text and the newline that Tk ends it with,
    stripped of the whitespace at both ends; that is the text of the widget
    stripped.  It is a string, whatever the template says of the type of
    the field with that id. *)
Theorem C9_textarea_collected (t : template) (fm : form) :
  NoDup (keys (widgets fm)) ->
  (forall id raw, In (id, BooleanVar raw) (variables fm) ->
     exists b, BooleanVar_get raw = Ok b) ->
  exists data, collect_data t fm = Ok data /\
    forall id height text, In (id, ScrolledText height text) (widgets fm) ->
      get id data = Some (VStr (strip (ScrolledText_get text))) /\
      get id data = Some (VStr (strip text)).
Proof.
  intros Hnd Hread. unfold collect_data.
  destruct (collect_variables_total t (variables fm) Hread []) as [data0 ->].
  simpl. eexists. split; [reflexivity|].
  intros id height text Hin.
  rewrite (collect_widgets_textarea _ id height text Hnd Hin).
  unfold ScrolledText_get. now rewrite strip_app_newline.
Qed.

End Collect.

Lemma C9_textarea_collected_witness :
  is_number_field notes_template "impression" = true /\
  exists data, collect_data notes_template notes_form = Ok data /\
    get "impression" data = Some (VStr "42").
Proof.
  split; [reflexivity|].
  assert (Hnd : NoDup (keys (widgets notes_form))).
  { simpl. constructor; [intros []|constructor]. }
  assert (Hread : forall id raw, In (id, BooleanVar raw) (variables notes_form) ->
                    exists b, BooleanVar_get raw = Ok b).
  { intros id raw [H|[]]. discriminate H. }
  destruct (C9_textarea_collected notes_template notes_form Hnd Hread)
    as (data & Hdata & Htext).
  exists data. split; [exact Hdata|].
  apply (proj2 (Htext "impression" 4 ("  42 " ++ newline) (or_introl eq_refl))).
Defined.

End Textarea.

(** ** Defaults of the form *)

Module FormDefaults.
Import Py PyStr DictFacts DynamicForm Samples.

Section Defaults.
Context {E : PyEnv}.

Lemma get_store_widget_other id id' w fm :
  id' <> id -> get id' (widgets (store_widget id w fm)) = get id' (widgets fm).
Proof.
  intros Hne. unfold store_widget. destruct (mem id (widgets fm)); simpl.
  - reflexivity.
  - now apply get_set_other.
Qed.

Lemma variables_store_widget id w fm :
  variables (store_widget id w fm) = variables fm.
Proof. unfold store_widget. now destruct (mem id (widgets fm)). Qed.

Lemma get_store_widget_fresh id w fm :
  ~ In id (keys (widgets fm)) ->
  get id (widgets (store_widget id w fm)) = Some w.
Proof.
  intros Hfresh. unfold store_widget.
  destruct (mem id (widgets fm)) eqn:Hm.
  - apply mem_true in Hm. contradiction.
  - simpl. apply get_set_same.
Qed.

(** A field leaves the controls of the other ids as they are. *)
Lemma create_field_other now f fm fm' id' :
  create_field now f fm = Ok fm' -> id' <> field_id f ->
  get id' (variables fm') = get id' (variables fm) /\
  get id' (widgets fm') = get id' (widgets fm).
Proof.
  unfold create_field. intros H Hne.
  destruct (field_type f =? "checkbox")%string.
  { destruct (new_BooleanVar (resolve_today now (default_of f))) as [var|e];
      [|discriminate H].
    cbn [bind] in H. injection H as <-. rewrite variables_store_widget.
    rewrite get_store_widget_other by assumption. simpl.
    split; [now apply get_set_other|reflexivity]. }
  destruct (is_entry_type (field_type f)).
  { injection H as <-. rewrite variables_store_widget.
    rewrite get_store_widget_other by assumption. simpl.
    split; [now apply get_set_other|reflexivity]. }
  destruct (field_type f =? "select")%string.
  { injection H as <-. rewrite variables_store_widget.
    rewrite get_store_widget_other by assumption. simpl.
    split; [now apply get_set_other|reflexivity]. }
  destruct (field_type f =? "textarea")%string.
  { injection H as <-. simpl. split; [reflexivity|now apply get_set_other]. }
  destruct (mem (field_id f) (widgets fm)); [|discriminate].
  injection H as <-. auto.
Qed.

Lemma create_field_total now f fm :
  buildable now f = true -> exists fm', create_field now f fm = Ok fm'.
Proof.
  unfold buildable, is_field_type, create_field. intros H.
  destruct (field_type f =? "checkbox")%string.
  { destruct (new_BooleanVar (resolve_today now (default_of f))) as [var|e];
      [|discriminate H].
    cbn [bind]. eauto. }
  rewrite orb_false_r in H.
  destruct (is_entry_type (field_type f)); [eauto|].
  destruct (field_type f =? "select")%string; [eauto|].
  destruct (field_type f =? "textarea")%string; [eauto|].
  discriminate H.
Qed.

(** What a field of a fresh id gets: a string variable behind an entry or a
    dropdown, or a text area with its text. *)
Lemma create_field_self now f fm fm' :
  create_field now f fm = Ok fm' ->
  ~ In (field_id f) (keys (widgets fm)) ->
  (is_string_type (field_type f) = true ->
     get (field_id f) (variables fm') =
       Some (StringVar (str (resolve_today now (default_of f)))) /\
     not_ScrolledText (get (field_id f) (widgets fm'))) /\
  (field_type f = "textarea" ->
     exists height,
       get (field_id f) (widgets fm') =
         Some (ScrolledText height (str (resolve_today now (default_of f))))).
Proof.
  unfold create_field, is_string_type. intros H Hfresh.
  destruct (String.eqb_spec (field_type f) "checkbox") as [Hc|Hc].
  { split.
    - rewrite Hc. discriminate.
    - rewrite Hc. discriminate. }
  destruct (is_entry_type (field_type f)) eqn:He.
  { injection H as <-. split.
    - intros _. rewrite variables_store_widget. simpl.
      rewrite get_set_same. split; [reflexivity|].
      rewrite get_store_widget_fresh by assumption. intros h x. discriminate.
    - intros Ht. rewrite Ht in He. discriminate He. }
  destruct (String.eqb_spec (field_type f) "select") as [Hs|Hs].
  { injection H as <-. split.
    - intros _. rewrite variables_store_widget. simpl.
      rewrite get_set_same. split; [reflexivity|].
      rewrite get_store_widget_fresh by assumption. intros h x. discriminate.
    - intros Ht. congruence. }
  split; [discriminate|]. intros Ht.
  rewrite Ht in H. simpl in H. injection H as <-. simpl.
  rewrite get_set_same. eauto.
Qed.

Lemma create_field_widgets now f fm fm' id' :
  create_field now f fm = Ok fm' ->
  In id' (keys (widgets fm')) -> id' = field_id f \/ In id' (keys (widgets fm)).
Proof.
  intros H Hin. destruct (String.eqb_spec id' (field_id f)) as [->|Hne].
  - now left.
  - right. destruct (create_field_other _ _ _ _ _ H Hne) as [_ Hw].
    apply mem_true. apply mem_true in Hin. unfold mem in *. now rewrite <- Hw.
Qed.

Lemma create_fields_other clock fields : forall fm fm' id',
  create_fields clock fields fm = Ok fm' ->
  ~ In id' (map field_id fields) ->
  get id' (variables fm') = get id' (variables fm) /\
  get id' (widgets fm') = get id' (widgets fm).
Proof.
  induction fields as [|f rest IH]; intros fm fm' id' H Hnotin; simpl in H.
  - injection H as <-. auto.
  - destruct (create_field (clock (field_id f)) f fm) as [fm1|e] eqn:H1;
      simpl in H; [|discriminate].
    simpl in Hnotin.
    destruct (IH _ _ id' H) as [Hv Hw]; [tauto|].
    destruct (create_field_other _ _ _ _ id' H1) as [Hv1 Hw1].
    { intros ->. tauto. }
    split; congruence.
Qed.

Lemma create_fields_total clock fields : forall fm,
  (forall g, In g fields -> buildable (clock (field_id g)) g = true) ->
  exists fm', create_fields clock fields fm = Ok fm'.
Proof.
  induction fields as [|f rest IH]; intros fm Hty; simpl.
  - eauto.
  - destruct (create_field_total (clock (field_id f)) f fm) as [fm1 ->].
    { apply Hty. now left. }
    simpl. apply IH. intros g Hg. apply Hty. now right.
Qed.

(** The controls after the construction of fields with distinct, fresh
    ids. *)
Lemma create_fields_spec clock fields : forall fm fm' f,
  NoDup (map field_id fields) ->
  (forall g, In g fields -> ~ In (field_id g) (keys (widgets fm))) ->
  create_fields clock fields fm = Ok fm' ->
  In f fields ->
  (is_string_type (field_type f) = true ->
     get (field_id f) (variables fm') =
       Some (StringVar (str (resolve_today (clock (field_id f)) (default_of f)))) /\
     not_ScrolledText (get (field_id f) (widgets fm'))) /\
  (field_type f = "textarea" ->
     exists height,
       get (field_id f) (widgets fm') =
         Some (ScrolledText height
                 (str (resolve_today (clock (field_id f)) (default_of f))))).
Proof.
  induction fields as [|f0 rest IH]; intros fm fm' f Hnd Hfresh H Hin;
    simpl in H; [destruct Hin|].
  inversion Hnd as [|? ? Hnotin Hnd']; subst.
  destruct (create_field (clock (field_id f0)) f0 fm) as [fm1|e] eqn:H1;
    simpl in H; [|discriminate].
  destruct Hin as [->|Hin].
  - destruct (create_fields_other _ _ _ _ _ H Hnotin) as [Hv Hw].
    rewrite Hv, Hw. apply (create_field_self _ _ _ _ H1).
    apply Hfresh. now left.
  - apply (IH fm1); trivial.
    intros g Hg Hgin.
    destruct (create_field_widgets _ _ _ _ _ H1 Hgin) as [Heq|Hold].
    + apply Hnotin. rewrite <- Heq. now apply in_map.
    + apply (Hfresh g); [now right|assumption].
Qed.

(** Clearing a field leaves the controls of the other ids as they are. *)
Lemma clear_field_other now fm f id' :
  id' <> field_id f ->
  get id' (variables (clear_field now fm f)) = get id' (variables fm) /\
  get id' (widgets (clear_field now fm f)) = get id' (widgets fm).
Proof.
  intros Hne. unfold clear_field.
  destruct (get (field_id f) (variables fm)) as [[raw|s]|];
    match goal with
    | |- context [get (field_id f) (widgets ?m)] =>
        destruct (get (field_id f) (widgets m)) as [[| | |h x]|]
    end; simpl; repeat rewrite get_set_other by assumption; auto.
Qed.

Lemma clear_field_self now fm f s :
  get (field_id f) (variables fm) = Some (StringVar s) ->
  not_ScrolledText (get (field_id f) (widgets fm)) ->
  get (field_id f) (variables (clear_field now fm f)) =
    Some (StringVar (str (resolve_today now (default_of f)))) /\
  get (field_id f) (widgets (clear_field now fm f)) =
    get (field_id f) (widgets fm).
Proof.
  intros Hv Hw. unfold clear_field. rewrite Hv. simpl.
  destruct (get (field_id f) (widgets fm)) as [[| | |h x]|] eqn:Hg; simpl;
    try (rewrite get_set_same; auto).
  exfalso. now apply (Hw h x).
Qed.

Lemma clear_fields_other clock fields : forall fm id',
  ~ In id' (map field_id fields) ->
  let fm' := fold_left (fun fm f => clear_field (clock (field_id f)) fm f)
                       fields fm in
  get id' (variables fm') = get id' (variables fm) /\
  get id' (widgets fm') = get id' (widgets fm).
Proof.
  induction fields as [|f rest IH]; intros fm id' Hnotin; simpl.
  - auto.
  - simpl in Hnotin.
    destruct (IH (clear_field (clock (field_id f)) fm f) id') as [Hv Hw];
      [tauto|].
    destruct (clear_field_other (clock (field_id f)) fm f id') as [Hv1 Hw1].
    { intros ->. tauto. }
    simpl in Hv, Hw. split; congruence.
Qed.

Lemma clear_fields_spec clock fields : forall fm f s,
  NoDup (map field_id fields) -> In f fields ->
  get (field_id f) (variables fm) = Some (StringVar s) ->
  not_ScrolledText (get (field_id f) (widgets fm)) ->
  let fm' := fold_left (fun fm f => clear_field (clock (field_id f)) fm f)
                       fields fm in
  get (field_id f) (variables fm') =
    Some (StringVar (str (resolve_today (clock (field_id f)) (default_of f)))) /\
  get (field_id f) (widgets fm') = get (field_id f) (widgets fm).
Proof.
  induction fields as [|f0 rest IH]; intros fm f s Hnd Hin Hv Hw; simpl;
    [destruct Hin|].
  inversion Hnd as [|? ? Hnotin Hnd']; subst.
  destruct Hin as [->|Hin].
  - destruct (clear_fields_other clock rest
                (clear_field (clock (field_id f)) fm f) _ Hnotin) as [Hv' Hw'].
    simpl in Hv', Hw'. rewrite Hv', Hw'. now apply clear_field_self with s.
  - assert (Hne : field_id f <> field_id f0).
    { intros Heq. apply Hnotin. rewrite <- Heq. now apply in_map. }
    destruct (clear_field_other (clock (field_id f0)) fm f0 _ Hne) as [Hv1 Hw1].
    destruct (IH (clear_field (clock (field_id f0)) fm f0) f s Hnd' Hin)
      as [Hv' Hw'].
    + now rewrite Hv1.
    + now rewrite Hw1.
    + simpl in Hv', Hw'. split; congruence.
Qed.

Lemma control_value_string fm id s :
  get id (variables fm) = Some (StringVar s) ->
  not_ScrolledText (get id (widgets fm)) ->
  control_value fm id = Some (VStr s).
Proof.
  intros Hv Hw. unfold control_value. rewrite Hv.
  destruct (get id (widgets fm)) as [[| | |h x]|]; try reflexivity.
  exfalso. now apply (Hw h x).
Qed.

Lemma resolve_today_today now :
  resolve_today now (VStr "today") = VStr (strftime_Ymd now).
Proof. reflexivity. Qed.

Lemma is_string_type_iff ty :
  is_string_type ty = true <-> In ty ["text"; "date"; "number"; "select"].
Proof.
  unfold is_string_type, is_entry_type. simpl.
  rewrite !orb_true_iff, !String.eqb_eq. intuition congruence.
Qed.

Lemma is_field_type_iff ty :
  is_field_type ty = true <->
  In ty ["text"; "date"; "number"; "select"; "checkbox"; "textarea"].
Proof.
  unfold is_field_type, is_entry_type. simpl.
  rewrite !orb_true_iff, !String.eqb_eq. intuition congruence.
Qed.

(** In a form that has been built from a template with distinct ids, a
    field whose default is "today" and whose type is text, date, number or
    select shows the date of the clock at its creation, in the form
    YYYY-MM-DD, and after [clear_form], from any state of the form in which
    the field still has its string variable and its widget, it shows the
    date of the clock at the clearing; a text area with that default shows
    the date of the clock at its creation. *)
Lemma today_controls (clock0 clock1 : string -> datetime) (t : template)
    (f : field_spec) (fm : form) :
  NoDup (map field_id (all_fields t)) ->
  create_sections clock0 t empty_form = Ok fm ->
  In f (all_fields t) ->
  field_default f = Some (VStr "today") ->
  (In (field_type f) ["text"; "date"; "number"; "select"] ->
     control_value fm (field_id f) =
       Some (VStr (strftime_Ymd (clock0 (field_id f)))) /\
     forall fm' s,
       get (field_id f) (variables fm') = Some (StringVar s) ->
       get (field_id f) (widgets fm') = get (field_id f) (widgets fm) ->
       control_value (clear_form clock1 t fm') (field_id f) =
         Some (VStr (strftime_Ymd (clock1 (field_id f))))) /\
  (field_type f = "textarea" ->
     control_value fm (field_id f) =
       Some (VStr (strftime_Ymd (clock0 (field_id f))))).
Proof.
  intros Hnd Hfm Hin Hdef. unfold create_sections in Hfm.
  assert (Hd : default_of f = VStr "today") by (unfold default_of; now rewrite Hdef).
  destruct (create_fields_spec clock0 (all_fields t) empty_form fm f Hnd)
    as [Hstring Harea]; trivial.
  { intros g _ []. }
  rewrite Hd, resolve_today_today in Hstring, Harea. simpl str in Hstring, Harea.
  split.
  - intros Hs. apply is_string_type_iff in Hs.
    destruct (Hstring Hs) as [Hv Hw]. split.
    + now apply control_value_string.
    + intros fm' s Hv' Hw'.
      destruct (clear_fields_spec clock1 (all_fields t) fm' f s Hnd Hin Hv')
        as [Hv1 Hw1].
      { now rewrite Hw'. }
      simpl in Hv1, Hw1. rewrite Hd, resolve_today_today in Hv1. simpl str in Hv1.
      apply control_value_string; unfold clear_form; simpl.
      * exact Hv1.
      * rewrite Hw1, Hw'. exact Hw.
  - intros Ht. destruct (Harea Ht) as [height Hw].
    unfold control_value. now rewrite Hw.
Qed.

End Defaults.

(** C7. A date field and a text area that both have the default "today",
    in a form built on one day and cleared on the next.  [create_field]
    gives both controls the date of the first day.  [clear_form] gives the
    date field the date of the second day, and the text area the word
    "today", which is not that date: it puts the date for "today" only in
    the branch of the string variables, and a text area has none. *)
Theorem C7_today_default :
  create_sections (fun _ => opening_day) today_template empty_form =
    Ok today_form /\
  control_value today_form "study_date" =
    Some (VStr (strftime_Ymd opening_day)) /\
  control_value today_form "impression" =
    Some (VStr (strftime_Ymd opening_day)) /\
  control_value (clear_form (fun _ => clearing_day) today_template today_form)
                "study_date" = Some (VStr (strftime_Ymd clearing_day)) /\
  control_value (clear_form (fun _ => clearing_day) today_template today_form)
                "impression" = Some (VStr "today") /\
  control_value (clear_form (fun _ => clearing_day) today_template today_form)
                "impression" <> Some (VStr (strftime_Ymd clearing_day)).
Proof.
  split; [reflexivity|]. split; [reflexivity|]. split; [reflexivity|].
  split; [reflexivity|]. split; [reflexivity|].
  vm_compute. discriminate.
Qed.

End FormDefaults.

(** ** Placeholders *)

Module TemplateFill.
Import Py PyStr PyStrFacts DictFacts DocumentGenerator Samples.

(** *** The scan of [replace] *)

Lemma replace_from_skip old new s : forall n,
  replace_from old new n s = replace_from old new 0 (slice_from n s).
Proof.
  induction s as [|c r IH]; intros [|n]; try reflexivity.
  cbn [replace_from slice_from]. apply IH.
Qed.

Lemma slice_from_app a b : slice_from (String.length a) (a ++ b) = b.
Proof. induction a; simpl; auto. Qed.

Lemma replace_from_match old new s :
  old <> "" -> String.prefix old s = true ->
  replace_from old new 0 s =
  new ++ replace_from old new 0 (slice_from (String.length old) s).
Proof.
  intros Hne Hp. destruct s as [|c r].
  - destruct old; [congruence|discriminate].
  - cbn [replace_from]. rewrite Hp.
    rewrite (replace_from_skip old new r (String.length old - 1)).
    destruct old as [|c0 old']; [congruence|].
    simpl. now rewrite Nat.sub_0_r.
Qed.

Lemma replace_from_absent old new s :
  contains old s = false -> replace_from old new 0 s = s.
Proof.
  induction s as [|c r IH]; [reflexivity|].
  cbn [contains replace_from]. rewrite orb_false_iff. intros [-> Hr].
  now rewrite IH.
Qed.

Lemma placeholder_prefix_quiet key c r rest :
  quiet (String c r) = true ->
  String.prefix (placeholder key) (String c (r ++ rest)) = false.
Proof.
  cbn [quiet]. rewrite andb_true_iff. intros [Hc _].
  unfold placeholder. simpl append. rewrite prefix_cons.
  destruct (Ascii.eqb_spec "{" c) as [<-|Hne]; [|reflexivity].
  simpl andb. simpl in Hc.
  destruct r as [|c2 r2]; [discriminate|].
  change (String c2 r2 ++ rest) with (String c2 (r2 ++ rest)).
  rewrite prefix_cons. rewrite Ascii.eqb_sym.
  apply negb_true_iff in Hc. now rewrite Hc.
Qed.

Lemma replace_from_quiet key new u rest :
  quiet u = true ->
  replace_from (placeholder key) new 0 (u ++ rest) =
  u ++ replace_from (placeholder key) new 0 rest.
Proof.
  induction u as [|c r IH]; [reflexivity|].
  cbn [quiet]. rewrite andb_true_iff. intros [Hc Hr].
  change (String c r ++ rest) with (String c (r ++ rest)).
  cbn [replace_from].
  rewrite placeholder_prefix_quiet
    by (cbn [quiet]; now rewrite Hc, Hr).
  simpl. now rewrite IH.
Qed.

(** *** Braces *)

Lemma brace_free_cons c s :
  brace_free (String c s) = true <->
  c <> "{"%char /\ c <> "}"%char /\ brace_free s = true.
Proof.
  unfold brace_free. cbn [all_chars].
  rewrite andb_true_iff, negb_true_iff, orb_false_iff, !Ascii.eqb_neq. tauto.
Qed.

Lemma brace_free_quiet s : brace_free s = true -> quiet s = true.
Proof.
  induction s as [|c r IH]; [reflexivity|].
  rewrite brace_free_cons. intros (Ho & _ & Hr). cbn [quiet].
  apply Ascii.eqb_neq in Ho. rewrite Ho. simpl. now apply IH.
Qed.

Lemma key_quiet key : brace_free key = true -> quiet (key ++ "}}") = true.
Proof.
  induction key as [|c r IH]; [reflexivity|].
  rewrite brace_free_cons. intros (Ho & _ & Hr).
  change (String c r ++ "}}") with (String c (r ++ "}}")). cbn [quiet].
  apply Ascii.eqb_neq in Ho. rewrite Ho. simpl. now apply IH.
Qed.

Lemma token_tail_quiet key :
  brace_free key = true -> quiet (String "{" (key ++ "}}")) = true.
Proof.
  intros H. cbn [quiet]. rewrite (key_quiet _ H), andb_true_r.
  destruct key as [|c r]; [reflexivity|].
  apply brace_free_cons in H. destruct H as (Ho & _).
  apply Ascii.eqb_neq in Ho. simpl. now rewrite Ho.
Qed.

Lemma key_prefix key : forall key' rest,
  brace_free key = true -> brace_free key' = true ->
  String.prefix (key ++ "}}") ((key' ++ "}}") ++ rest) = true -> key = key'.
Proof.
  induction key as [|c k IH]; intros [|c' k'] rest Hk Hk' Hp.
  - reflexivity.
  - apply brace_free_cons in Hk'. destruct Hk' as (_ & Hc & _).
    change (String.prefix (String "}" "}")
              (String c' ((k' ++ "}}") ++ rest)) = true) in Hp.
    rewrite prefix_cons in Hp. apply andb_true_iff in Hp.
    destruct Hp as [Hp _]. apply Ascii.eqb_eq in Hp. congruence.
  - apply brace_free_cons in Hk. destruct Hk as (_ & Hc & _).
    change (String.prefix (String c (k ++ "}}")) (String "}" (String "}" rest))
            = true) in Hp.
    rewrite prefix_cons in Hp. apply andb_true_iff in Hp.
    destruct Hp as [Hp _]. apply Ascii.eqb_eq in Hp. congruence.
  - apply brace_free_cons in Hk, Hk'.
    destruct Hk as (_ & _ & Hk), Hk' as (_ & _ & Hk').
    change (String.prefix (String c (k ++ "}}"))
              (String c' ((k' ++ "}}") ++ rest)) = true) in Hp.
    rewrite prefix_cons in Hp. apply andb_true_iff in Hp.
    destruct Hp as [Hc Hp]. apply Ascii.eqb_eq in Hc. subst c'.
    f_equal. now apply (IH k' rest).
Qed.

Lemma placeholder_not_empty key : (placeholder key =? "")%string = false.
Proof. reflexivity. Qed.

Lemma placeholder_not_nil key : placeholder key <> "".
Proof. discriminate. Qed.

Lemma join_cons (piece : string) (pieces : list string) :
  join (piece :: pieces) = piece ++ join pieces.
Proof. reflexivity. Qed.

Section Fill.
Context {E : PyEnv}.

(** *** One entry *)

(** The test [placeholder in full_text] changes nothing. *)
Lemma replace_item_eq (text key : string) (v : value) :
  replace_item text (key, v) = replace text (placeholder key) (str v).
Proof.
  unfold replace_item, replace. rewrite placeholder_not_empty.
  destruct (contains (placeholder key) text) eqn:Hc; [reflexivity|].
  symmetry. now apply replace_from_absent.
Qed.

Lemma replace_segments key new segs :
  brace_free key = true -> plain_segments segs ->
  replace (segments_text segs) (placeholder key) new =
  segments_text (map (subst_token key new) segs).
Proof.
  intros Hkey Hsegs. unfold replace. rewrite placeholder_not_empty.
  induction Hsegs as [|g segs Hg Hsegs IH]; [reflexivity|].
  unfold segments_text in *. cbn [map]. rewrite !join_cons.
  destruct g as [s|key']; cbn [segment_text subst_token segment_body] in *.
  - rewrite replace_from_quiet by now apply brace_free_quiet.
    now rewrite IH.
  - destruct (String.eqb_spec key' key) as [->|Hne]; cbn [segment_text].
    + rewrite replace_from_match.
      * now rewrite slice_from_app, IH.
      * apply placeholder_not_nil.
      * apply prefix_app.
    + set (rest := join (map segment_text segs)) in *.
      change (placeholder key' ++ rest)
        with (String "{" (String "{" (key' ++ "}}") ++ rest)).
      cbn [replace_from].
      assert (Hp : String.prefix (placeholder key)
                     (String "{" (String "{" (key' ++ "}}") ++ rest)) = false).
      { destruct (String.prefix _ _) eqn:Hp; [|reflexivity].
        exfalso. apply Hne. symmetry.
        unfold placeholder in Hp. simpl in Hp.
        now apply (key_prefix key key' rest). }
      rewrite Hp.
      rewrite replace_from_quiet by now apply token_tail_quiet.
      now rewrite IH.
Qed.

Lemma subst_token_plain key new segs :
  brace_free new = true -> plain_segments segs ->
  plain_segments (map (subst_token key new) segs).
Proof.
  intros Hnew Hsegs. induction Hsegs as [|g segs Hg Hsegs IH]; simpl.
  - constructor.
  - constructor; [|assumption].
    destruct g as [s|key']; simpl in *; [assumption|].
    now destruct (key' =? key)%string.
Qed.

Lemma fill_segment_step key v rest g :
  fill_segment rest (subst_token key (str v) g) =
  fill_segment ((key, v) :: rest) g.
Proof.
  destruct g as [s|key']; simpl; [reflexivity|].
  rewrite String.eqb_sym. now destruct (key =? key')%string.
Qed.

(** *** All the entries *)

(** With no brace in the keys, in the values and in the text between the
    tokens, the loop fills every token at once. *)
Lemma fill_plain_segments data : forall segs,
  plain_data data -> plain_segments segs ->
  fill_text (segments_text segs) data = simultaneous_fill data segs.
Proof.
  unfold fill_text.
  induction data as [|[key v] rest IH]; intros segs Hdata Hsegs;
    cbn [fold_left].
  - unfold simultaneous_fill, segments_text. apply f_equal. apply map_ext.
    now intros [s|key].
  - inversion Hdata as [|? ? [Hkey Hval] Hrest]; subst. simpl in Hkey, Hval.
    rewrite replace_item_eq, replace_segments by assumption.
    rewrite IH; [|assumption|now apply subst_token_plain].
    unfold simultaneous_fill. rewrite map_map. apply f_equal. apply map_ext.
    intros g. apply fill_segment_step.
Qed.

Lemma fill_text_absent data : forall text,
  (forall key v, In (key, v) data -> contains (placeholder key) text = false) ->
  fill_text text data = text.
Proof.
  unfold fill_text. induction data as [|[key v] rest IH]; intros text H;
    cbn [fold_left]; [reflexivity|].
  assert (Hitem : replace_item text (key, v) = text).
  { unfold replace_item. now rewrite (H key v (or_introl eq_refl)). }
  rewrite Hitem. apply IH. intros key' v' Hin. apply (H key' v'). now right.
Qed.

Lemma fill_text_sequential data : forall text,
  fill_text text data =
  fold_left (fun full_text kv =>
               replace full_text (placeholder (fst kv)) (str (snd kv)))
            data text.
Proof.
  unfold fill_text. induction data as [|[key v] rest IH]; intros text;
    cbn [fold_left]; [reflexivity|].
  now rewrite replace_item_eq, IH.
Qed.

(** *** The pass over the text *)

Lemma scan_skip data s : forall n,
  scan data n s = scan data 0 (slice_from n s).
Proof.
  induction s as [|c r IH]; intros [|n]; try reflexivity.
  cbn [scan slice_from]. apply IH.
Qed.

Lemma first_match_quiet data c r rest :
  quiet (String c r) = true -> first_match data (String c (r ++ rest)) = None.
Proof.
  intros Hq. induction data as [|[key v] data IH]; [reflexivity|].
  cbn [first_match]. now rewrite (placeholder_prefix_quiet key c r rest Hq).
Qed.

Lemma scan_quiet data u rest :
  quiet u = true -> scan data 0 (u ++ rest) = u ++ scan data 0 rest.
Proof.
  induction u as [|c r IH]; [reflexivity|]. intros Hq.
  change (String c r ++ rest) with (String c (r ++ rest)).
  cbn [scan]. rewrite (first_match_quiet data c r rest Hq).
  cbn [quiet] in Hq. apply andb_true_iff in Hq. destruct Hq as [_ Hr].
  simpl. now rewrite IH.
Qed.

Lemma placeholder_prefix key key' rest :
  brace_free key = true -> brace_free key' = true ->
  String.prefix (placeholder key) (placeholder key' ++ rest) = (key =? key')%string.
Proof.
  intros Hk Hk'. destruct (String.eqb_spec key key') as [->|Hne].
  - apply prefix_app.
  - destruct (String.prefix _ _) eqn:Hp; [|reflexivity].
    exfalso. apply Hne. unfold placeholder in Hp.
    change (String.prefix (String "{" (String "{" (key ++ "}}")))
              (String "{" (String "{" ((key' ++ "}}") ++ rest))) = true) in Hp.
    rewrite !prefix_cons in Hp. simpl in Hp.
    now apply (key_prefix key key' rest).
Qed.

Lemma first_match_token data key rest :
  plain_data data -> brace_free key = true ->
  first_match data (placeholder key ++ rest) =
  option_map (fun v => (key, v)) (get key data).
Proof.
  intros Hdata Hkey. induction Hdata as [|[k v] data [Hk _] Hdata IH];
    [reflexivity|].
  cbn [first_match get]. simpl in Hk.
  rewrite (placeholder_prefix k key rest Hk Hkey).
  destruct (String.eqb_spec k key) as [->|Hne]; [reflexivity|exact IH].
Qed.

(** On such a paragraph the pass over the text fills the tokens. *)
Lemma scan_plain_segments data segs :
  plain_data data -> plain_segments segs ->
  simultaneous_replace data (segments_text segs) = simultaneous_fill data segs.
Proof.
  intros Hdata Hsegs. unfold simultaneous_replace, simultaneous_fill.
  induction Hsegs as [|g segs Hg Hsegs IH]; [reflexivity|].
  unfold segments_text in *. cbn [map]. rewrite !join_cons.
  destruct g as [s|key]; cbn [segment_text fill_segment segment_body] in *.
  - rewrite scan_quiet by now apply brace_free_quiet. now rewrite IH.
  - set (rest := join (map segment_text segs)) in *.
    pose proof (first_match_token data key rest Hdata Hg) as Hfm.
    change (placeholder key ++ rest)
      with (String "{" (String "{" (key ++ "}}") ++ rest)) in *.
    cbn [scan]. rewrite Hfm.
    destruct (get key data) as [v|]; cbn [option_map].
    + rewrite (scan_skip data _ (String.length (placeholder key) - 1)).
      change (String.length (placeholder key) - 1)
        with (String.length (String "{" (key ++ "}}")) - 0).
      rewrite Nat.sub_0_r, slice_from_app. now rewrite IH.
    + rewrite scan_quiet by now apply token_tail_quiet. now rewrite IH.
Qed.

(** C3. The text of a paragraph is filled entry after entry, in the order
    of the data, each entry replacing the occurrences of its placeholder in
    the text as the entries before it have left it.  When the paragraph is
    made of tokens and of text between them, and there is no brace in the
    keys, in the string forms of the values and in the text between the
    tokens, every token whose key is in the data is replaced by the string
    form of the value of its key, and all the rest is kept, as one pass
    over the text does it.  A paragraph in
    which no placeholder of a key of the data occurs stays as it is, runs
    and all.  The paragraph of the specification becomes
    "Name: Jane, Age: 30". *)
Theorem C3_template_fill (p : paragraph) (data : dict value) :
  fill_text (paragraph_text p) data =
    fold_left (fun full_text kv =>
                 replace full_text (placeholder (fst kv)) (str (snd kv)))
              data (paragraph_text p) /\
  (forall segs,
     plain_data data -> plain_segments segs ->
     paragraph_text p = segments_text segs ->
     fill_text (paragraph_text p) data = simultaneous_fill data segs /\
     fill_text (paragraph_text p) data =
       simultaneous_replace data (paragraph_text p) /\
     _replace_placeholders_in_paragraph p data =
       if (simultaneous_fill data segs =? paragraph_text p)%string
       then p else [add_run (simultaneous_fill data segs)]) /\
  ((forall key v, In (key, v) data ->
      contains (placeholder key) (paragraph_text p) = false) ->
   _replace_placeholders_in_paragraph p data = p) /\
  _replace_placeholders_in_paragraph
    [mk_run "Name: {{patient_name}}, Age: {{patient_age}}" None]
    [("patient_name", VStr "Jane"); ("patient_age", VInt 30)] =
    [add_run "Name: Jane, Age: 30"].
Proof.
  split; [apply fill_text_sequential|]. split; [|split].
  - intros segs Hdata Hsegs Htext.
    assert (Hfill : fill_text (paragraph_text p) data = simultaneous_fill data segs).
    { rewrite Htext. now apply fill_plain_segments. }
    split; [assumption|]. split.
    { rewrite Hfill, Htext. symmetry. now apply scan_plain_segments. }
    unfold _replace_placeholders_in_paragraph. rewrite Hfill.
    now destruct (simultaneous_fill data segs =? paragraph_text p)%string.
  - intros H. unfold _replace_placeholders_in_paragraph.
    rewrite (fill_text_absent _ _ H), String.eqb_refl. reflexivity.
  - reflexivity.
Qed.

Lemma prefix_whole (p : string) : String.prefix p p = true.
Proof. rewrite <- (app_nil_r p) at 2. apply prefix_app. Qed.

Lemma slice_from_whole (p : string) : slice_from (String.length p) p = "".
Proof. rewrite <- (app_nil_r p) at 2. apply slice_from_app. Qed.

(** A text that is the pattern is replaced whole. *)
Lemma replace_whole (old new : string) :
  old <> "" -> replace old old new = new.
Proof.
  intros Hne. unfold replace.
  destruct (String.eqb_spec old "") as [Heq|_]; [contradiction|].
  rewrite (replace_from_match old new old Hne (prefix_whole old)).
  rewrite slice_from_whole. apply app_nil_r.
Qed.

Lemma contains_whole (p : string) : contains p p = true.
Proof.
  destruct p as [|c r]; [reflexivity|].
  cbn [contains]. now rewrite prefix_whole.
Qed.

Lemma scan_match (data : dict value) (key : string) (v : value) c r :
  first_match data (String c r) = Some (key, v) ->
  scan data 0 (String c r) =
  str v ++ scan data 0 (slice_from (String.length (placeholder key) - 1) r).
Proof. intros H. cbn [scan]. rewrite H. now rewrite scan_skip. Qed.

(** One pass over a text that is the placeholder of the first entry. *)
Lemma scan_whole (key : string) (v : value) (rest : dict value) :
  scan ((key, v) :: rest) 0 (placeholder key) = str v.
Proof.
  assert (Hm : first_match ((key, v) :: rest) (placeholder key) =
               Some (key, v)).
  { cbn [first_match]. now rewrite prefix_whole. }
  assert (Hs : slice_from (String.length (placeholder key) - 1)
                 (String "{" (key ++ "}}")) = "").
  { pose proof (slice_from_whole (placeholder key)) as H.
    unfold placeholder in *.
    cbn [append String.length slice_from Nat.sub] in *. exact H. }
  change (placeholder key) with (String "{" (String "{" (key ++ "}}")))
    in Hm at 1.
  change (placeholder key) with (String "{" (String "{" (key ++ "}}"))) at 1.
  rewrite (scan_match _ _ _ _ _ Hm), Hs. apply app_nil_r.
Qed.

(** C10. The substitution goes entry by entry and not in one pass.  For
    every two different keys and every value, take data in which the first
    key has the placeholder of the second for its value and the second key
    has the value, and a paragraph that is the placeholder of the first key:
    the turn of the first entry puts in the placeholder of the second key,
    the turn of the second entry replaces it too, and the paragraph is
    rewritten with the string of the value, where one pass over the
    original text puts in the placeholder of the second key and stops; the
    two differ whenever the string of the value is not that placeholder.
    Such a paragraph and such data exist. *)
Theorem C10_sequential_substitution :
  (forall (key1 key2 : string) (v2 : value),
     key1 <> key2 ->
     NoDup (keys (chained key1 key2 v2)) /\
     contains (placeholder key1) (placeholder key1) = true /\
     contains (placeholder key2) (str (VStr (placeholder key2))) = true /\
     replace_item (placeholder key1) (key1, VStr (placeholder key2)) =
       placeholder key2 /\
     fill_text (placeholder key1) (chained key1 key2 v2) = str v2 /\
     simultaneous_replace (chained key1 key2 v2) (placeholder key1) =
       placeholder key2 /\
     simultaneous_fill (chained key1 key2 v2) [Tok key1] = placeholder key2 /\
     _replace_placeholders_in_paragraph [mk_run (placeholder key1) None]
       (chained key1 key2 v2) = [add_run (str v2)] /\
     (str v2 <> placeholder key2 ->
      fill_text (placeholder key1) (chained key1 key2 v2) <>
      simultaneous_replace (chained key1 key2 v2) (placeholder key1))) /\
  exists (text : string) (segs : list segment) (data : dict value)
         (key1 key2 : string) (v1 v2 : value),
    text = segments_text segs /\
    NoDup (keys data) /\
    get key1 data = Some v1 /\ get key2 data = Some v2 /\ key1 <> key2 /\
    contains (placeholder key1) text = true /\
    contains (placeholder key2) text = false /\
    contains (placeholder key2) (str v1) = true /\
    fill_text text data = str v2 /\
    simultaneous_replace data text = str v1 /\
    simultaneous_fill data segs = str v1 /\
    fill_text text data <> simultaneous_replace data text /\
    _replace_placeholders_in_paragraph [mk_run text None] data =
      [add_run (str v2)].
Proof.
  split.
  - intros key1 key2 v2 Hne.
    assert (Hstep : replace_item (placeholder key1)
                      (key1, VStr (placeholder key2)) = placeholder key2).
    { rewrite replace_item_eq. apply replace_whole, placeholder_not_nil. }
    assert (Hfill : fill_text (placeholder key1) (chained key1 key2 v2) =
                    str v2).
    { unfold fill_text, chained. cbn [fold_left]. rewrite Hstep.
      rewrite replace_item_eq. apply replace_whole, placeholder_not_nil. }
    assert (Hscan : simultaneous_replace (chained key1 key2 v2)
                      (placeholder key1) = placeholder key2).
    { unfold simultaneous_replace, chained. apply scan_whole. }
    split; [|split; [|split; [|split; [|split; [|split; [|split; [|split]]]]]]].
    + unfold chained. cbn [keys map fst].
      constructor; [|constructor; [intros []|constructor]].
      intros [Heq|[]]. now apply Hne.
    + apply contains_whole.
    + apply contains_whole.
    + exact Hstep.
    + exact Hfill.
    + exact Hscan.
    + unfold simultaneous_fill, chained. cbn [map fill_segment get].
      rewrite String.eqb_refl. cbn [str]. apply app_nil_r.
    + unfold _replace_placeholders_in_paragraph.
      assert (Htext : paragraph_text [mk_run (placeholder key1) None] =
                      placeholder key1) by reflexivity.
      rewrite Htext, Hfill.
      destruct (String.eqb_spec (str v2) (placeholder key1)) as [Heq|_];
        cbn [negb]; [|reflexivity].
      unfold add_run. now rewrite Heq.
    + intros Hv. rewrite Hfill, Hscan. exact Hv.
  - exists "{{a}}", [Tok "a"], [("a", VStr "{{b}}"); ("b", VStr "X")],
           "a", "b", (VStr "{{b}}"), (VStr "X").
    repeat match goal with |- _ /\ _ => split end; try reflexivity;
      try discriminate.
    simpl. repeat (constructor; [simpl; intuition discriminate|]). constructor.
Qed.

End Fill.

Lemma C3_template_fill_counterexample :
  ~ (forall (E : PyEnv) (segs : list segment) (data : dict value),
       NoDup (keys data) ->
       fill_text (segments_text segs) data = simultaneous_fill data segs).
Proof.
  intros H.
  specialize (H SampleEnv.env [Tok "a"] chained_data).
  assert (Hnd : NoDup (keys chained_data)).
  { simpl. repeat (constructor; [simpl; intuition discriminate|]). constructor. }
  specialize (H Hnd). vm_compute in H. discriminate H.
Qed.

(** Each of the three provisos is needed: a value with braces, a key with
    braces, and braces in the text between the tokens, each make the loop
    and the substitution at once differ. *)
Lemma plain_provisos_needed :
  (fill_text (segments_text [Tok "a"]) chained_data = "X" /\
   simultaneous_fill chained_data [Tok "a"] = "{{b}}") /\
  (fill_text (segments_text [Tok "a"; Tok "b"]) overlapping_data = "X" /\
   simultaneous_fill overlapping_data [Tok "a"; Tok "b"] = "Y{{b}}") /\
  (fill_text (segments_text [Lit "{{"; Tok "a"; Lit "b}}"]) nested_data = "Z" /\
   simultaneous_fill nested_data [Lit "{{"; Tok "a"; Lit "b}}"] = "{{b}}").
Proof. vm_compute. repeat split. Qed.

Lemma C3_template_fill_witness :
  fill_text (segments_text report_line) report_data =
    "Hyperventilation: True, photo: Normal ({{unknown}})" /\
  _replace_placeholders_in_paragraph
    [mk_run "Conclusion" (Some "Heading 1")] report_data =
    [mk_run "Conclusion" (Some "Heading 1")].
Proof.
  split.
  - destruct (C3_template_fill
                [mk_run (segments_text report_line) None] report_data)
      as (_ & H & _).
    destruct (H report_line) as [Hfill _].
    + repeat constructor.
    + repeat constructor.
    + reflexivity.
    + exact Hfill.
  - destruct (C3_template_fill
                [mk_run "Conclusion" (Some "Heading 1")] report_data)
      as (_ & _ & H & _).
    apply H. intros key v [[= <- <-]|[[= <- <-]|[]]]; reflexivity.
Defined.

Lemma C10_sequential_substitution_witness :
  "a" <> "b" /\
  fill_text "{{a}}" chained_data = "X" /\
  simultaneous_replace chained_data "{{a}}" = "{{b}}" /\
  fill_text "{{a}}" chained_data <> simultaneous_replace chained_data "{{a}}".
Proof.
  assert (Hne : "a" <> "b") by discriminate.
  split; [exact Hne|].
  destruct (proj1 (@C10_sequential_substitution SampleEnv.env)
              "a" "b" (VStr "X") Hne)
    as (_ & _ & _ & _ & Hfill & Hscan & _ & _ & Hdiff).
  split; [exact Hfill|]. split; [exact Hscan|].
  apply Hdiff. discriminate.
Defined.

End TemplateFill.

(** ** The reports *)

Module Report.
Import Py PyStr PyStrFacts DictFacts DocumentGenerator Classification.

Lemma set_fresh {V : Type} (k : string) (v : V) (d : dict V) :
  ~ In k (keys d) -> set k v d = (d ++ [(k, v)])%list.
Proof.
  induction d as [|[k0 v0] r IH]; simpl; intros H; [reflexivity|].
  destruct (String.eqb_spec k0 k) as [->|Hne]; [tauto|].
  rewrite IH by tauto. reflexivity.
Qed.

Lemma flat_map_ext_in {A B : Type} (f g : A -> list B) (l : list A) :
  (forall a, In a l -> f a = g a) -> flat_map f l = flat_map g l.
Proof.
  induction l as [|a l IH]; intros H; [reflexivity|].
  simpl. rewrite (H a (or_introl eq_refl)), IH; [reflexivity|].
  intros b Hb. apply H. now right.
Qed.

(** Every element goes to one list of a partition by names. *)
Lemma flat_map_insert {A : Type} (x : A) (name : string) (g : string -> list A) :
  forall names, NoDup names -> In name names ->
  Permutation
    (flat_map (fun n => if (name =? n)%string then x :: g n else g n) names)
    (x :: flat_map g names).
Proof.
  induction names as [|n0 ns IH]; intros Hnd Hin; [destruct Hin|].
  inversion Hnd as [|? ? Hnotin Hnd']; subst. cbn [flat_map].
  destruct (String.eqb_spec name n0) as [->|Hne].
  - simpl. apply perm_skip. apply Permutation_app_head.
    rewrite (flat_map_ext_in _ g); [reflexivity|].
    intros n Hn. destruct (String.eqb_spec n0 n) as [->|]; [contradiction|].
    reflexivity.
  - destruct Hin as [->|Hin]; [congruence|].
    rewrite (IH Hnd' Hin). apply Permutation_sym, Permutation_middle.
Qed.

Lemma partition_permutation {A : Type} (f : A -> string) (names : list string) :
  NoDup names -> forall l,
  (forall x, In x l -> In (f x) names) ->
  Permutation (flat_map (fun n => filter (fun x => (f x =? n)%string) l) names) l.
Proof.
  intros Hnd. induction l as [|x l IH]; intros Hin.
  - simpl. induction names as [|n ns IHn]; [constructor|].
    simpl. inversion Hnd; subst. now apply IHn.
  - cbn [filter].
    rewrite (flat_map_insert x (f x)
               (fun n => filter (fun y => (f y =? n)%string) l));
      [|assumption|apply Hin; now left].
    apply perm_skip. apply IH. intros y Hy. apply Hin. now right.
Qed.

Lemma concat_nonempty {V : Type} (l : dict (dict V)) :
  concat (map snd (filter (fun kv => nonempty (snd kv)) l)) = concat (map snd l).
Proof.
  induction l as [|[n d] r IH]; [reflexivity|].
  cbn [filter snd]. destruct d as [|x d]; simpl; [exact IH|].
  now rewrite IH.
Qed.

Section Sections.
Context {E : PyEnv}.

Lemma set_in_map (name k : string) (v : value) (acc : string -> dict value) :
  forall names, NoDup names ->
  set_in name k v (map (fun n => (n, acc n)) names) =
  map (fun n => (n, if (n =? name)%string then set k v (acc n) else acc n)) names.
Proof.
  induction names as [|n0 ns IH]; intros Hnd; [reflexivity|].
  inversion Hnd as [|? ? Hnotin Hnd']; subst. cbn [map set_in].
  destruct (String.eqb_spec n0 name) as [->|Hne].
  - f_equal. apply map_ext_in. intros n Hn.
    destruct (String.eqb_spec n name) as [->|]; [contradiction|reflexivity].
  - f_equal. now apply IH.
Qed.

Lemma fold_place_map (names : list string) : NoDup names ->
  forall (data : dict value) (acc : string -> dict value),
  NoDup (keys data) ->
  (forall n k, In n names -> In k (keys data) -> ~ In k (keys (acc n))) ->
  fold_left place data (map (fun n => (n, acc n)) names) =
  map (fun n => (n, (acc n ++ section_entries n data)%list)) names.
Proof.
  intros Hnames. induction data as [|[k v] rest IH]; intros acc Hnd Hfresh;
    cbn [fold_left].
  - apply map_ext. intros n. unfold section_entries. simpl.
    now rewrite List.app_nil_r.
  - inversion Hnd as [|? ? Hk Hnd']; subst.
    rewrite place_eq, set_in_map by assumption.
    rewrite (IH (fun n => if (n =? section_of k)%string
                          then set k v (acc n) else acc n)); [|assumption|].
    + apply map_ext_in. intros n Hn. unfold section_entries. cbn [filter fst].
      rewrite (String.eqb_sym (section_of k) n).
      destruct (n =? section_of k)%string; [|reflexivity].
      rewrite set_fresh by (apply Hfresh; [assumption|now left]).
      now rewrite <- List.app_assoc.
    + intros n k' Hn Hk'.
      destruct (n =? section_of k)%string.
      * rewrite keys_set. intros [->|H]; [contradiction|].
        apply (Hfresh n k'); [assumption|now right|assumption].
      * apply Hfresh; [assumption|now right].
Qed.

Lemma grouped_map (data : dict value) :
  NoDup (keys data) ->
  grouped data = map (fun n => (n, section_entries n data)) section_names.
Proof.
  intros Hnd. unfold grouped.
  change sections_init with (map (fun n => (n, @nil (string * value))) section_names).
  rewrite fold_place_map; trivial.
  - apply NoDup_section_names.
  - intros n k _ _ [].
Qed.

Lemma group_entries (data : dict value) :
  NoDup (keys data) ->
  concat (map snd (_group_data_by_sections data)) =
  flat_map (fun n => section_entries n data) section_names.
Proof.
  intros Hnd. unfold _group_data_by_sections. rewrite (grouped_map data Hnd).
  rewrite concat_nonempty, map_map. cbn [snd].
  now rewrite <- flat_map_concat_map.
Qed.

(** X1. For data with distinct keys, the sections before the empty ones are
    dropped are the six names, each with the entries of the data that the
    rules send to it, in the order of the data and with their values; the
    result keeps those of them that are not empty. *)
Theorem sections_are_filters (data : dict value) :
  NoDup (keys data) ->
  grouped data = map (fun n => (n, section_entries n data)) section_names /\
  _group_data_by_sections data =
    filter (fun kv => nonempty (snd kv))
           (map (fun n => (n, section_entries n data)) section_names).
Proof.
  intros Hnd. pose proof (grouped_map data Hnd) as H.
  split; [exact H|]. unfold _group_data_by_sections. now rewrite H.
Qed.

Lemma section_entries_partition (data : dict value) :
  Permutation (flat_map (fun n => section_entries n data) section_names) data.
Proof.
  unfold section_entries.
  apply (partition_permutation (fun kv : string * value => section_of (fst kv))).
  - apply NoDup_section_names.
  - intros kv _. apply section_of_name.
Qed.

(** X2. For data with distinct keys, the entries of the sections of the
    result, put together, are the entries of the data in another order: no
    entry is lost, none comes twice, and every value is kept. *)
Theorem sections_keep_entries (data : dict value) :
  NoDup (keys data) ->
  Permutation (concat (map snd (_group_data_by_sections data))) data.
Proof.
  intros Hnd. rewrite (group_entries data Hnd).
  apply section_entries_partition.
Qed.

Lemma tables_of_sections (sections : dict (dict value)) :
  Forall (fun kv => snd kv <> []) sections ->
  tables_of (flat_map section_blocks sections) =
  map (fun kv => word_table_rows (snd kv)) sections.
Proof.
  induction 1 as [|[n d] r Hd Hr IH]; [reflexivity|].
  cbn [flat_map map]. unfold tables_of in *. rewrite flat_map_app, IH.
  simpl in Hd. destruct d as [|x d]; [congruence|]. reflexivity.
Qed.

Lemma group_nonempty (data : dict value) :
  Forall (fun kv => snd kv <> []) (_group_data_by_sections data).
Proof.
  unfold _group_data_by_sections. apply Forall_forall.
  intros [n d] Hin. apply filter_In in Hin. destruct Hin as [_ Hne].
  simpl in *. now destruct d.
Qed.

Lemma data_rows_concat {A : Type} (row : A -> list string)
    (sections : dict (list A)) :
  flat_map data_rows
    (map (fun kv => ["Field"; "Value"] :: map row (snd kv)) sections) =
  map row (concat (map snd sections)).
Proof.
  induction sections as [|[n d] r IH]; [reflexivity|].
  cbn [map flat_map concat snd]. rewrite IH, map_app. reflexivity.
Qed.

(** X3. The Word document made from scratch, for data with distinct keys:
    it has one table for each section of the result, in their order, and
    the rows of its tables under their headers are, in some order, one row
    for each entry of the data, with the label of its key and the string of
    its value, which is empty for [None]. *)
Theorem scratch_document_rows (generated_on : string) (data : dict value) :
  NoDup (keys data) ->
  let doc := _create_word_document_from_scratch generated_on data in
  tables_of doc =
    map (fun kv => word_table_rows (snd kv)) (_group_data_by_sections data) /\
  Permutation (flat_map data_rows (tables_of doc)) (map word_row data) /\
  length (flat_map data_rows (tables_of doc)) = length data.
Proof.
  intros Hnd doc.
  assert (Ht : tables_of doc =
               map (fun kv => word_table_rows (snd kv))
                   (_group_data_by_sections data)).
  { unfold doc, _create_word_document_from_scratch.
    change (tables_of (?a :: ?b :: ?c :: ?l)) with (tables_of l).
    apply tables_of_sections, group_nonempty. }
  assert (Hp : Permutation (flat_map data_rows (tables_of doc))
                           (map word_row data)).
  { rewrite Ht.
    change (fun kv : string * dict value => word_table_rows (snd kv))
      with (fun kv : string * dict value =>
              ["Field"; "Value"] :: map word_row (snd kv)).
    pose proof (group_entries data Hnd) as Hg.
    pose proof (section_entries_partition data) as Hp.
    unfold dict in *. rewrite (data_rows_concat word_row).
    apply Permutation_map. now rewrite Hg. }
  repeat split; trivial.
  rewrite (Permutation_length Hp). apply length_map.
Qed.

Lemma pdf_cell_length (v : value) : len (pdf_cell_value v) <= 50.
Proof.
  unfold pdf_cell_value, len.
  destruct (50 <? String.length (formatted_value v)) eqn:H.
  - apply Nat.ltb_lt in H.
    rewrite length_app, Truncation.length_slice_to by lia. simpl. lia.
  - now apply Nat.ltb_ge in H.
Qed.

Lemma pdf_tables_of_sections (sections : dict (dict value)) :
  Forall (fun kv => snd kv <> []) sections ->
  pdf_tables_of (flat_map section_flowables sections) =
  map (fun kv => pdf_table_data (snd kv)) sections.
Proof.
  induction 1 as [|[n d] r Hd Hr IH]; [reflexivity|].
  cbn [flat_map map]. unfold pdf_tables_of in *. rewrite flat_map_app, IH.
  simpl in Hd. destruct d as [|x d]; [congruence|]. reflexivity.
Qed.

(** X4. The story of the PDF, for data with distinct keys: its tables are
    those of the sections of the result; the rows under their headers are,
    in some order, one row for each entry of the data; every row of every
    table has two cells, and no value cell has more than 50 characters. *)
Theorem pdf_story_rows (generated : string) (data : dict value) :
  NoDup (keys data) ->
  let tables := pdf_tables_of (pdf_story generated data) in
  tables = map snd (pdf_sections data) /\
  Permutation (flat_map data_rows tables) (map pdf_row data) /\
  (forall table row, In table tables -> In row table -> length row = 2) /\
  (forall table row, In table tables -> In row (data_rows table) ->
     len (nth 1 row "") <= 50).
Proof.
  intros Hnd tables.
  assert (Ht : tables = map (fun kv => pdf_table_data (snd kv))
                            (_group_data_by_sections data)).
  { unfold tables, pdf_story.
    change (pdf_tables_of (?a :: ?b :: ?l)) with (pdf_tables_of l).
    apply pdf_tables_of_sections, group_nonempty. }
  split; [|split; [|split]].
  - rewrite Ht. unfold pdf_sections. rewrite map_map. cbn [snd].
    f_equal. symmetry. apply forallb_filter_id.
    apply forallb_forall. intros [n d] Hin.
    pose proof (group_nonempty data) as Hall.
    rewrite Forall_forall in Hall. specialize (Hall _ Hin).
    simpl in *. now destruct d.
  - rewrite Ht.
    change (fun kv : string * dict value => pdf_table_data (snd kv))
      with (fun kv : string * dict value =>
              ["Field"; "Value"] :: map pdf_row (snd kv)).
    pose proof (group_entries data Hnd) as Hg.
    pose proof (section_entries_partition data) as Hp.
    unfold dict in *. rewrite (data_rows_concat pdf_row).
    apply Permutation_map. now rewrite Hg.
  - intros table row Htab Hrow. rewrite Ht in Htab.
    apply in_map_iff in Htab. destruct Htab as ([n d] & <- & _).
    destruct Hrow as [<-|Hrow]; [reflexivity|].
    apply in_map_iff in Hrow. destruct Hrow as (kv & <- & _). reflexivity.
  - intros table row Htab Hrow. rewrite Ht in Htab.
    apply in_map_iff in Htab. destruct Htab as ([n d] & <- & _).
    unfold data_rows, pdf_table_data in Hrow. cbn [tl] in Hrow.
    apply in_map_iff in Hrow. destruct Hrow as (kv & <- & _).
    apply pdf_cell_length.
Qed.

End Sections.

Lemma sample_data_keys : NoDup (keys Samples.sample_data).
Proof. simpl. repeat constructor; simpl; intuition discriminate. Qed.

Lemma sections_are_filters_witness :
  NoDup (keys Samples.sample_data) /\
  _group_data_by_sections Samples.sample_data =
    filter (fun kv => nonempty (snd kv))
           (map (fun n => (n, section_entries n Samples.sample_data))
                section_names).
Proof.
  split; [exact sample_data_keys|].
  exact (proj2 (sections_are_filters Samples.sample_data sample_data_keys)).
Defined.

Lemma sections_keep_entries_witness :
  NoDup (keys Samples.sample_data) /\
  Permutation (concat (map snd (_group_data_by_sections Samples.sample_data)))
              Samples.sample_data.
Proof.
  split; [exact sample_data_keys|].
  exact (sections_keep_entries Samples.sample_data sample_data_keys).
Defined.

Lemma scratch_document_rows_witness :
  NoDup (keys Samples.sample_data) /\
  length (flat_map data_rows
            (tables_of (_create_word_document_from_scratch
                          "2024-01-15 10:30" Samples.sample_data))) = 3.
Proof.
  split; [exact sample_data_keys|].
  exact (proj2 (proj2 (scratch_document_rows "2024-01-15 10:30"
                         Samples.sample_data sample_data_keys))).
Defined.

Lemma pdf_story_rows_witness :
  NoDup (keys Samples.sample_data) /\
  Permutation
    (flat_map data_rows
       (pdf_tables_of (pdf_story "2024-01-15 10:30" Samples.sample_data)))
    (map pdf_row Samples.sample_data).
Proof.
  split; [exact sample_data_keys|].
  exact (proj1 (proj2 (pdf_story_rows "2024-01-15 10:30"
                         Samples.sample_data sample_data_keys))).
Defined.

End Report.

(** ** Paragraphs and labels *)

Module Paragraphs.
Import Py PyStr PyStrFacts DictFacts DocumentGenerator TemplateFill.

Lemma get_Permutation {V : Type} (d d' : dict V) (k : string) :
  NoDup (keys d) -> Permutation d d' -> get k d = get k d'.
Proof.
  intros Hnd Hperm.
  assert (Hnd' : NoDup (keys d')).
  { apply (Permutation_NoDup (l := keys d)); [|assumption].
    now apply Permutation_map. }
  destruct (get k d) as [v|] eqn:Hg.
  - symmetry. apply In_get; [assumption|].
    apply (Permutation_in _ Hperm). now apply get_In.
  - symmetry. apply get_None. apply get_None in Hg. intros Hin. apply Hg.
    apply (Permutation_in (l := keys d')); [|assumption].
    apply Permutation_sym. now apply Permutation_map.
Qed.

Lemma all_chars_app (p : ascii -> bool) (a b : string) :
  all_chars p (a ++ b) = all_chars p a && all_chars p b.
Proof.
  induction a as [|c a IH]; [reflexivity|].
  simpl. now rewrite IH, andb_assoc.
Qed.

Lemma replace_from_all_chars (p : ascii -> bool) (old new : string) :
  all_chars p new = true ->
  forall s n, all_chars p s = true ->
  all_chars p (replace_from old new n s) = true.
Proof.
  intros Hnew. induction s as [|c r IH]; intros n Hs; [reflexivity|].
  simpl in Hs. apply andb_true_iff in Hs. destruct Hs as [Hc Hr].
  cbn [replace_from]. destruct n as [|n]; [|now apply IH].
  destruct (String.prefix old (String c r)).
  - rewrite all_chars_app, Hnew. now apply IH.
  - simpl. rewrite Hc. now apply IH.
Qed.

Lemma interleave_all_chars (p : ascii -> bool) (new s : string) :
  all_chars p new = true -> all_chars p s = true ->
  all_chars p (interleave new s) = true.
Proof.
  intros Hnew. induction s as [|c r IH]; intros Hs; [assumption|].
  simpl in Hs. apply andb_true_iff in Hs. destruct Hs as [Hc Hr].
  cbn [interleave]. rewrite all_chars_app, Hnew. simpl. rewrite Hc.
  now apply IH.
Qed.

Lemma replace_all_chars (p : ascii -> bool) (s old new : string) :
  all_chars p new = true -> all_chars p s = true ->
  all_chars p (replace s old new) = true.
Proof.
  intros Hnew Hs. unfold replace. destruct (old =? "")%string.
  - now apply interleave_all_chars.
  - now apply replace_from_all_chars.
Qed.

Lemma replace_underscore (s : string) :
  no_underscore (replace s "_" " ") = true.
Proof.
  unfold no_underscore, replace. simpl (_ =? _)%string. cbv iota.
  induction s as [|c r IH]; [reflexivity|].
  cbn [replace_from]. rewrite prefix_cons, prefix_nil, andb_true_r.
  destruct (Ascii.eqb_spec "_" c) as [<-|Hne].
  - simpl. exact IH.
  - simpl. rewrite IH, andb_true_r. apply negb_true_iff.
    apply Ascii.eqb_neq. congruence.
Qed.

Lemma code_lt_256 c : code c < 256.
Proof. apply nat_ascii_bounded. Qed.

Lemma upper_not_underscore c : c <> "_"%char -> ch_upper c <> "_"%char.
Proof.
  intros Hc. unfold ch_upper. destruct (ch_islower c) eqn:Hl; [|assumption].
  unfold ch_islower, in_range in Hl. apply andb_true_iff in Hl.
  rewrite !Nat.leb_le in Hl. intros H.
  apply (f_equal nat_of_ascii) in H.
  rewrite nat_ascii_embedding in H by (pose proof (code_lt_256 c); lia).
  change (nat_of_ascii "_") with 95 in H. lia.
Qed.

Lemma lower_not_underscore c : c <> "_"%char -> ch_lower c <> "_"%char.
Proof.
  intros Hc. unfold ch_lower. destruct (ch_isupper c) eqn:Hl; [|assumption].
  unfold ch_isupper, in_range in Hl. apply andb_true_iff in Hl.
  rewrite !Nat.leb_le in Hl. intros H.
  apply (f_equal nat_of_ascii) in H.
  rewrite nat_ascii_embedding in H by lia.
  change (nat_of_ascii "_") with 95 in H. lia.
Qed.

Lemma title_from_underscore (s : string) : forall b,
  no_underscore s = true -> no_underscore (title_from b s) = true.
Proof.
  unfold no_underscore. induction s as [|c r IH]; intros b Hs; [reflexivity|].
  simpl in Hs. apply andb_true_iff in Hs. destruct Hs as [Hc Hr].
  apply negb_true_iff, Ascii.eqb_neq in Hc.
  cbn [title_from all_chars]. rewrite (IH _ Hr), andb_true_r.
  apply negb_true_iff, Ascii.eqb_neq.
  destruct b; [now apply lower_not_underscore|now apply upper_not_underscore].
Qed.

(** X8. No label has an underscore. *)
Theorem label_has_no_underscore (field_name : string) :
  no_underscore (_format_field_name field_name) = true.
Proof.
  unfold _format_field_name, replacements. cbn [fold_left fst snd].
  unfold no_underscore.
  repeat (apply replace_all_chars; [reflexivity|]).
  apply title_from_underscore, replace_underscore.
Qed.

Section Fill.
Context {E : PyEnv}.

Lemma paragraph_text_run (text : string) : paragraph_text [add_run text] = text.
Proof. reflexivity. Qed.

Lemma replaced_paragraph_text (p : paragraph) (data : dict value) :
  paragraph_text (_replace_placeholders_in_paragraph p data) =
  fill_text (paragraph_text p) data.
Proof.
  unfold _replace_placeholders_in_paragraph.
  destruct (String.eqb_spec (fill_text (paragraph_text p) data) (paragraph_text p))
    as [Heq|Hne]; simpl.
  - now rewrite Heq.
  - reflexivity.
Qed.

Lemma plain_data_Permutation (data data' : dict value) :
  Permutation data data' -> plain_data data -> plain_data data'.
Proof.
  unfold plain_data. intros Hperm H. rewrite Forall_forall in *.
  intros kv Hin. apply H. apply (Permutation_in _ (Permutation_sym Hperm) Hin).
Qed.

(** X6. With no brace in the keys, in the values and in the text between the
    tokens, the order of the entries of data with distinct keys does not
    matter to the text that a paragraph is given. *)
Theorem fill_order_irrelevant (segs : list segment) (data data' : dict value) :
  plain_segments segs -> plain_data data -> NoDup (keys data) ->
  Permutation data data' ->
  fill_text (segments_text segs) data = fill_text (segments_text segs) data'.
Proof.
  intros Hsegs Hdata Hnd Hperm.
  rewrite !fill_plain_segments;
    [|now apply (plain_data_Permutation data)|assumption|assumption|assumption].
  unfold simultaneous_fill. f_equal. apply map_ext. intros [s|key]; simpl.
  - reflexivity.
  - now rewrite (get_Permutation data data' key Hnd Hperm).
Qed.

Lemma filled_segments_text (data : dict value) (segs : list segment) :
  segments_text (map (filled_segment data) segs) = simultaneous_fill data segs.
Proof.
  unfold segments_text, simultaneous_fill. rewrite map_map. f_equal.
  apply map_ext. intros [s|key]; simpl; [reflexivity|].
  now destruct (get key data).
Qed.

Lemma filled_segments_plain (data : dict value) (segs : list segment) :
  plain_data data -> plain_segments segs ->
  plain_segments (map (filled_segment data) segs).
Proof.
  unfold plain_data, plain_segments. intros Hdata Hsegs.
  rewrite Forall_forall in *. intros g Hg.
  apply in_map_iff in Hg. destruct Hg as (g0 & <- & Hg0).
  specialize (Hsegs g0 Hg0). destruct g0 as [s|key]; simpl in *; [assumption|].
  destruct (get key data) as [v|] eqn:Hget; simpl; [|assumption].
  apply get_In in Hget. apply (Hdata (key, v) Hget).
Qed.

Lemma fill_filled_segment (data : dict value) (g : segment) :
  fill_segment data (filled_segment data g) = fill_segment data g.
Proof.
  destruct g as [s|key]; simpl; [reflexivity|].
  destruct (get key data) as [v|] eqn:Hget; simpl; [reflexivity|].
  now rewrite Hget.
Qed.

Lemma refill_text (data : dict value) (segs : list segment) (text : string) :
  plain_segments segs -> plain_data data -> text = segments_text segs ->
  fill_text (fill_text text data) data = fill_text text data.
Proof.
  intros Hsegs Hdata ->.
  rewrite (fill_plain_segments data segs Hdata Hsegs).
  rewrite <- filled_segments_text.
  rewrite fill_plain_segments;
    [|assumption|now apply filled_segments_plain].
  rewrite filled_segments_text. unfold simultaneous_fill.
  rewrite map_map. f_equal. apply map_ext. intros g.
  apply fill_filled_segment.
Qed.

Lemma refill_paragraph (p : paragraph) (segs : list segment) (data : dict value) :
  plain_segments segs -> plain_data data ->
  paragraph_text p = segments_text segs ->
  _replace_placeholders_in_paragraph
    (_replace_placeholders_in_paragraph p data) data =
  _replace_placeholders_in_paragraph p data.
Proof.
  intros Hsegs Hdata Htext.
  unfold _replace_placeholders_in_paragraph at 1.
  rewrite replaced_paragraph_text.
  rewrite (refill_text data segs (paragraph_text p) Hsegs Hdata Htext).
  now rewrite String.eqb_refl.
Qed.

(** X7. With no brace in the keys, in the values and in the text between the
    tokens, a paragraph that has been filled is left as it is when it is
    filled again with the same data, as happens to the paragraphs of a cell
    that its row lists more than once. *)
Theorem fill_twice (p : paragraph) (segs : list segment) (data : dict value) :
  plain_segments segs -> plain_data data ->
  paragraph_text p = segments_text segs ->
  fill_text (fill_text (paragraph_text p) data) data =
    fill_text (paragraph_text p) data /\
  _replace_placeholders_in_paragraph
    (_replace_placeholders_in_paragraph p data) data =
    _replace_placeholders_in_paragraph p data.
Proof.
  intros Hsegs Hdata Htext.
  split; [now apply (refill_text data segs)|].
  now apply (refill_paragraph p segs data).
Qed.

(** *** The walk over the document *)

Lemma length_update_at {A : Type} (l : list A) : forall i x,
  length (update_at l i x) = length l.
Proof.
  induction l as [|y r IH]; intros [|k] x; simpl; auto.
Qed.

Lemma nth_error_update_at {A : Type} (l : list A) : forall i j x,
  nth_error (update_at l i x) j =
  if (j =? i)%nat
  then match nth_error l j with Some _ => Some x | None => None end
  else nth_error l j.
Proof.
  induction l as [|y r IH]; intros [|k] [|j] x; simpl; auto.
  now destruct (j =? k)%nat.
Qed.

Lemma update_at_same {A : Type} (l : list A) : forall i x,
  nth_error l i = Some x -> update_at l i x = l.
Proof.
  induction l as [|y r IH]; intros [|k] x; simpl; try discriminate.
  - now intros [= ->].
  - intros H. now rewrite IH.
Qed.

Lemma nth_error_fill_at (data : dict value) (store : list paragraph) (i j : nat) :
  nth_error (fill_at data store i) j =
  if (j =? i)%nat
  then option_map (fun p => _replace_placeholders_in_paragraph p data)
                  (nth_error store j)
  else nth_error store j.
Proof.
  unfold fill_at. destruct (nth_error store i) as [p|] eqn:Hp.
  - rewrite nth_error_update_at.
    destruct (Nat.eqb_spec j i) as [->|]; [|reflexivity]. now rewrite Hp.
  - destruct (Nat.eqb_spec j i) as [->|]; [|reflexivity]. now rewrite Hp.
Qed.

(** A paragraph that the walk reaches [n] times is filled [n] times. *)
Lemma nth_error_walk (data : dict value) (places : list nat) :
  forall (store : list paragraph) (j : nat),
  nth_error (fold_left (fill_at data) places store) j =
  option_map (Nat.iter (count_occ Nat.eq_dec places j)
                (fun p => _replace_placeholders_in_paragraph p data))
             (nth_error store j).
Proof.
  induction places as [|i rest IH]; intros store j; cbn [fold_left count_occ].
  - now destruct (nth_error store j).
  - rewrite IH, nth_error_fill_at.
    destruct (Nat.eq_dec i j) as [->|Hne].
    + rewrite Nat.eqb_refl. destruct (nth_error store j) as [p|]; [|reflexivity].
      cbn [option_map]. now rewrite Nat.iter_succ_r.
    + destruct (Nat.eqb_spec j i) as [->|]; [contradiction|reflexivity].
Qed.

Lemma length_walk (data : dict value) (places : list nat) :
  forall store : list paragraph,
  length (fold_left (fill_at data) places store) = length store.
Proof.
  induction places as [|i rest IH]; intros store; cbn [fold_left];
    [reflexivity|].
  rewrite IH. unfold fill_at. destruct (nth_error store i); [|reflexivity].
  apply length_update_at.
Qed.

Lemma walk_no_data (places : list nat) : forall store : list paragraph,
  fold_left (fill_at []) places store = store.
Proof.
  induction places as [|i rest IH]; intros store; cbn [fold_left];
    [reflexivity|].
  assert (Hstep : fill_at [] store i = store).
  { unfold fill_at. destruct (nth_error store i) as [p|] eqn:Hp; [|reflexivity].
    apply update_at_same. rewrite Hp. f_equal.
    unfold _replace_placeholders_in_paragraph, fill_text.
    cbn [fold_left]. now rewrite String.eqb_refl. }
  rewrite Hstep. apply IH.
Qed.

Lemma iterated_text (data : dict value) (p : paragraph) (n : nat) :
  paragraph_text
    (Nat.iter n (fun q => _replace_placeholders_in_paragraph q data) p) =
  Nat.iter n (fun text => fill_text text data) (paragraph_text p).
Proof.
  induction n as [|n IH]; [reflexivity|].
  rewrite !Nat.iter_succ. cbv beta.
  now rewrite replaced_paragraph_text, IH.
Qed.

Lemma iterated_plain (data : dict value) (p : paragraph) (segs : list segment)
    (n : nat) :
  plain_segments segs -> plain_data data ->
  paragraph_text p = segments_text segs ->
  Nat.iter (S n) (fun q => _replace_placeholders_in_paragraph q data) p =
  _replace_placeholders_in_paragraph p data.
Proof.
  intros Hsegs Hdata Htext. induction n as [|n IH]; [reflexivity|].
  rewrite Nat.iter_succ. cbv beta.
  rewrite IH. now apply (refill_paragraph p segs data).
Qed.

(** X5. Filling a template changes the paragraphs where they are: the
    body and the cells list the same paragraphs as before, and the store
    has as many.  A paragraph that the walk reaches [n] times, a paragraph
    of a merged cell for one, is filled [n] times over, each time from
    the text that the time before left; one that the walk does not reach
    stays as it is.  With no brace in the keys, in the values and in the
    text between the tokens, a paragraph that is reached holds what one
    filling gives, however often it is reached.  Empty data change
    nothing. *)
Theorem fill_template_texts (doc : document) (data : dict value) :
  doc_paragraphs (_fill_word_template doc data) = doc_paragraphs doc /\
  doc_tables (_fill_word_template doc data) = doc_tables doc /\
  length (doc_store (_fill_word_template doc data)) = length (doc_store doc) /\
  (forall i p, nth_error (doc_store doc) i = Some p ->
     exists p',
       nth_error (doc_store (_fill_word_template doc data)) i = Some p' /\
       p' = Nat.iter (count_occ Nat.eq_dec (visits doc) i)
                     (fun q => _replace_placeholders_in_paragraph q data) p /\
       paragraph_text p' =
         Nat.iter (count_occ Nat.eq_dec (visits doc) i)
                  (fun text => fill_text text data) (paragraph_text p) /\
       (~ In i (visits doc) -> p' = p) /\
       (forall segs, In i (visits doc) ->
          plain_segments segs -> plain_data data ->
          paragraph_text p = segments_text segs ->
          p' = _replace_placeholders_in_paragraph p data)) /\
  _fill_word_template doc [] = doc.
Proof.
  unfold _fill_word_template. cbn [doc_store doc_paragraphs doc_tables].
  split; [reflexivity|]. split; [reflexivity|].
  split; [apply length_walk|]. split.
  - intros i p Hp. eexists. split.
    { rewrite nth_error_walk, Hp. reflexivity. }
    split; [reflexivity|]. split; [apply iterated_text|]. split.
    + intros Hnot. apply (count_occ_not_In Nat.eq_dec) in Hnot.
      now rewrite Hnot.
    + intros segs Hin Hsegs Hdata Htext.
      apply (count_occ_In Nat.eq_dec) in Hin.
      destruct (count_occ Nat.eq_dec (visits doc) i) as [|n]; [lia|].
      now apply (iterated_plain data p segs n).
  - rewrite walk_no_data. now destruct doc.
Qed.

End Fill.

Lemma report_line_plain : plain_segments Samples.report_line.
Proof. repeat constructor. Qed.

Lemma report_data_plain : plain_data Samples.report_data.
Proof. repeat constructor. Qed.

Lemma fill_order_irrelevant_witness :
  Permutation Samples.report_data (rev Samples.report_data) /\
  fill_text (segments_text Samples.report_line) Samples.report_data =
  fill_text (segments_text Samples.report_line) (rev Samples.report_data).
Proof.
  assert (Hp : Permutation Samples.report_data (rev Samples.report_data))
    by apply Permutation_rev.
  split; [exact Hp|].
  apply (fill_order_irrelevant Samples.report_line Samples.report_data
           (rev Samples.report_data) report_line_plain report_data_plain);
    [|exact Hp].
  simpl. repeat constructor; simpl; intuition discriminate.
Defined.

Lemma fill_twice_witness :
  paragraph_text Samples.report_paragraph =
    segments_text Samples.report_line /\
  _replace_placeholders_in_paragraph
    (_replace_placeholders_in_paragraph Samples.report_paragraph
       Samples.report_data) Samples.report_data =
  _replace_placeholders_in_paragraph Samples.report_paragraph
    Samples.report_data.
Proof.
  split; [reflexivity|].
  exact (proj2 (fill_twice Samples.report_paragraph Samples.report_line
                  Samples.report_data report_line_plain report_data_plain
                  eq_refl)).
Defined.

Lemma fill_template_texts_witness :
  nth_error (doc_store Samples.merged_cell_document) 1 =
    Some [mk_run "{{a}}" None] /\
  count_occ Nat.eq_dec (visits Samples.merged_cell_document) 1 = 2 /\
  _replace_placeholders_in_paragraph [mk_run "{{a}}" None] Samples.later_data =
    [add_run "{{b}}"] /\
  nth_error (doc_store (_fill_word_template Samples.merged_cell_document
                          Samples.later_data)) 1 = Some [add_run "X"].
Proof.
  split; [reflexivity|]. split; [reflexivity|]. split; [reflexivity|].
  destruct (proj1 (proj2 (proj2 (proj2
              (fill_template_texts Samples.merged_cell_document
                 Samples.later_data)))) 1 [mk_run "{{a}}" None] eq_refl)
    as (p' & Hp' & Hiter & _).
  rewrite Hp', Hiter. reflexivity.
Defined.

End Paragraphs.

(** ** Building the form *)

Module FormBuild.
Import Py PyStr DictFacts DynamicForm.

Lemma not_in_app {A : Type} (x : A) (l1 l2 : list A) :
  ~ In x (l1 ++ l2)%list <-> ~ In x l1 /\ ~ In x l2.
Proof. rewrite in_app_iff. tauto. Qed.

Section Build.
Context {E : PyEnv}.

Lemma known_type_cases ty :
  is_field_type ty = true ->
  (ty =? "checkbox")%string = true \/
  ((ty =? "checkbox")%string = false /\ is_entry_type ty = true) \/
  ((ty =? "checkbox")%string = false /\ is_entry_type ty = false /\
   (ty =? "select")%string = true) \/
  ((ty =? "checkbox")%string = false /\ is_entry_type ty = false /\
   (ty =? "select")%string = false /\ (ty =? "textarea")%string = true).
Proof.
  unfold is_field_type.
  destruct (ty =? "checkbox")%string; [now left|].
  destruct (is_entry_type ty); [right; now left|].
  destruct (ty =? "select")%string; [right; right; now left|].
  destruct (ty =? "textarea")%string; [|discriminate].
  intros _. right. right. right. auto.
Qed.

Lemma create_field_unknown now f (fm : form) :
  is_field_type (field_type f) = false ->
  create_field now f fm =
  if mem (field_id f) (widgets fm) then Ok fm
  else Raise (mk_exn (ExceptionSubclass "UnboundLocalError")
                     "local variable 'widget' referenced before assignment").
Proof.
  unfold is_field_type, create_field. intros H.
  destruct (field_type f =? "checkbox")%string;
    [rewrite !orb_true_r in H; simpl in H; discriminate|].
  destruct (is_entry_type (field_type f)); [discriminate|].
  destruct (field_type f =? "select")%string; [discriminate|].
  destruct (field_type f =? "textarea")%string;
    [rewrite !orb_true_r in H; discriminate|].
  reflexivity.
Qed.

(** X9. A field whose type is none of the six: [create_field] raises
    [UnboundLocalError] when the id has no widget yet, and leaves the form
    as it is, without an error, when the id has one. *)
Theorem create_field_unknown_type (now : datetime) (f : field_spec) (fm : form) :
  is_field_type (field_type f) = false ->
  (~ In (field_id f) (keys (widgets fm)) ->
   exists msg, create_field now f fm =
               Raise (mk_exn (ExceptionSubclass "UnboundLocalError") msg)) /\
  (In (field_id f) (keys (widgets fm)) -> create_field now f fm = Ok fm).
Proof.
  intros H. rewrite (create_field_unknown now f fm H).
  split; intros Hin.
  - destruct (mem (field_id f) (widgets fm)) eqn:Hm.
    + apply mem_true in Hm. contradiction.
    + eauto.
  - apply mem_true in Hin. now rewrite Hin.
Qed.

Lemma set_absent {V : Type} (k : string) (v : V) (d : dict V) :
  ~ In k (keys d) -> set k v d = (d ++ [(k, v)])%list.
Proof.
  induction d as [|[k0 v0] r IH]; simpl; intros H; [reflexivity|].
  destruct (String.eqb_spec k0 k) as [->|Hne]; [tauto|].
  rewrite IH by tauto. reflexivity.
Qed.

Lemma mem_false {V : Type} (k : string) (d : dict V) :
  ~ In k (keys d) -> mem k d = false.
Proof.
  intros H. destruct (mem k d) eqn:Hm; [|reflexivity].
  apply mem_true in Hm. contradiction.
Qed.

Lemma buildable_known now f :
  buildable now f = true -> is_field_type (field_type f) = true.
Proof.
  unfold buildable, is_field_type.
  destruct (field_type f =? "checkbox")%string; [|trivial].
  intros _. now rewrite !orb_true_r.
Qed.

Lemma buildable_boolean now f :
  is_field_type (field_type f) = true ->
  (field_type f = "checkbox" -> exists b, field_default f = Some (VBool b)) ->
  buildable now f = true.
Proof.
  unfold buildable. intros Hty Hbool.
  destruct (String.eqb_spec (field_type f) "checkbox") as [Hc|_]; [|exact Hty].
  destruct (Hbool Hc) as [b Hb]. unfold default_of. now rewrite Hb.
Qed.

(** What the making of a [BooleanVar] raises is of the [Exception]
    classes. *)
Lemma new_BooleanVar_Raise v e :
  new_BooleanVar v = Raise e -> isinstance_Exception (exn_cls e) = true.
Proof.
  unfold new_BooleanVar, getboolean.
  destruct v as [|b|n|x|s]; cbn [bind]; try discriminate;
    try (intros [= <-]; reflexivity).
  destruct (has_nul s); [intros [= <-]; reflexivity|].
  destruct (tcl_getboolean s); cbn [bind]; [discriminate|].
  intros [= <-]. reflexivity.
Qed.

Lemma new_BooleanVar_Ok v var :
  new_BooleanVar v = Ok var -> exists b, var = BooleanVar (VBool b).
Proof.
  unfold new_BooleanVar. destruct v as [|b|n|x|s];
    try (destruct (getboolean _) as [b'|e]; cbn [bind]);
    try discriminate; intros [= <-]; eauto.
Qed.

(** A field that can be built and whose id is new to the form adds its
    variable and its widget at the end. *)
Lemma create_field_fresh (now : datetime) (f : field_spec) (fm : form) :
  buildable now f = true ->
  ~ In (field_id f) (keys (variables fm)) ->
  ~ In (field_id f) (keys (widgets fm)) ->
  create_field now f fm =
  Ok (mk_form (variables fm ++ initial_variables now f)%list
              (widgets fm ++ [(field_id f, initial_widget now f)])%list
              (output_text fm)).
Proof.
  intros Hb Hv Hw. pose proof (buildable_known now f Hb) as Hty.
  unfold buildable in Hb.
  unfold create_field, initial_variables, initial_widget,
    is_string_type, store_widget, set_variable, set_widget.
  cbn [variables widgets output_text].
  destruct (known_type_cases _ Hty) as [H|[[H1 H2]|[(H1 & H2 & H3)|(H1 & H2 & H3 & H4)]]].
  - rewrite H in *.
    destruct (new_BooleanVar (resolve_today now (default_of f))) as [var|e];
      [|discriminate Hb].
    cbn [bind variables widgets output_text]. rewrite (mem_false _ _ Hw).
    now rewrite !set_absent by assumption.
  - rewrite H1, H2. cbn [variables widgets output_text orb].
    rewrite (mem_false _ _ Hw). now rewrite !set_absent by assumption.
  - rewrite H1, H2, H3. cbn [variables widgets output_text orb].
    rewrite (mem_false _ _ Hw). now rewrite !set_absent by assumption.
  - rewrite H1, H2, H3, H4. cbn [variables widgets output_text orb].
    rewrite set_absent by assumption. now rewrite List.app_nil_r.
Qed.

(** A field that cannot be built and whose id has no widget yet: what
    [create_field] raises. *)
Lemma create_field_not_buildable (now : datetime) (f : field_spec) (fm : form) :
  buildable now f = false ->
  ~ In (field_id f) (keys (widgets fm)) ->
  exists e, create_field now f fm = Raise e /\
    isinstance_Exception (exn_cls e) = true /\
    ((is_field_type (field_type f) = false /\
      exn_cls e = ExceptionSubclass "UnboundLocalError") \/
     (field_type f = "checkbox" /\
      new_BooleanVar (resolve_today now (default_of f)) = Raise e)).
Proof.
  unfold buildable. intros Hb Hw.
  destruct (String.eqb_spec (field_type f) "checkbox") as [Hc|Hc].
  - destruct (new_BooleanVar (resolve_today now (default_of f)))
      as [var|e] eqn:Hvar; [discriminate Hb|].
    exists e. unfold create_field. rewrite Hc, Hvar. cbn.
    split; [reflexivity|]. split; [now apply (new_BooleanVar_Raise _ _ Hvar)|].
    right. auto.
  - rewrite (create_field_unknown now f fm Hb), (mem_false _ _ Hw).
    eexists. split; [reflexivity|]. split; [reflexivity|]. left. auto.
Qed.

Lemma keys_initial_variables now f k :
  In k (keys (initial_variables now f)) -> k = field_id f.
Proof.
  unfold initial_variables.
  destruct (field_type f =? "checkbox")%string.
  { destruct (new_BooleanVar _); simpl; intuition. }
  destruct (is_string_type (field_type f)); simpl; intuition.
Qed.

Lemma create_fields_fresh clock fields : forall fm,
  NoDup (map field_id fields) ->
  (forall g, In g fields -> buildable (clock (field_id g)) g = true) ->
  (forall g, In g fields -> ~ In (field_id g) (keys (variables fm)) /\
                            ~ In (field_id g) (keys (widgets fm))) ->
  create_fields clock fields fm =
  Ok (mk_form (variables fm ++ built_variables clock fields)%list
              (widgets fm ++ built_widgets clock fields)%list
              (output_text fm)).
Proof.
  induction fields as [|f rest IH]; intros fm Hnd Hty Hfresh.
  - simpl. rewrite !List.app_nil_r. now destruct fm.
  - inversion Hnd as [|? ? Hnotin Hnd']; subst. cbn [create_fields].
    destruct (Hfresh f (or_introl eq_refl)) as [Hv Hw].
    rewrite create_field_fresh; [|apply Hty; now left|assumption|assumption].
    cbn [bind]. rewrite IH; trivial.
    + cbn [variables widgets output_text].
      unfold built_variables, built_widgets. cbn [flat_map map].
      now rewrite <- !List.app_assoc.
    + intros g Hg. apply Hty. now right.
    + intros g Hg. cbn [variables widgets].
      destruct (Hfresh g (or_intror Hg)) as [Hgv Hgw].
      assert (Hne : field_id g <> field_id f).
      { intros Heq. apply Hnotin. rewrite <- Heq. now apply in_map. }
      unfold keys. rewrite !map_app, !not_in_app. repeat split; trivial.
      * intros Hin. apply Hne.
        exact (keys_initial_variables (clock (field_id f)) f _ Hin).
      * simpl. intuition.
Qed.

(** The outcome of [create_fields] on fields with distinct ids that are new
    to the form. *)
Lemma create_fields_outcome clock fields : forall fm,
  NoDup (map field_id fields) ->
  (forall g, In g fields -> ~ In (field_id g) (keys (variables fm)) /\
                            ~ In (field_id g) (keys (widgets fm))) ->
  ((exists fm', create_fields clock fields fm = Ok fm') ->
   forall f, In f fields -> buildable (clock (field_id f)) f = true) /\
  (forall e, create_fields clock fields fm = Raise e ->
   isinstance_Exception (exn_cls e) = true /\
   exists f, In f fields /\
     buildable (clock (field_id f)) f = false /\
     ((is_field_type (field_type f) = false /\
       exn_cls e = ExceptionSubclass "UnboundLocalError") \/
      (field_type f = "checkbox" /\
       new_BooleanVar (resolve_today (clock (field_id f)) (default_of f)) =
         Raise e))).
Proof.
  induction fields as [|f rest IH]; intros fm Hnd Hfresh.
  - split; [intros _ f []|]. simpl. discriminate.
  - inversion Hnd as [|? ? Hnotin Hnd']; subst.
    destruct (Hfresh f (or_introl eq_refl)) as [Hv Hw].
    cbn [create_fields].
    destruct (buildable (clock (field_id f)) f) eqn:Hb.
    + rewrite create_field_fresh by assumption. cbn [bind].
      match goal with |- context [create_fields clock rest ?m] =>
        destruct (IH m Hnd') as [IH1 IH2] end.
      { intros g Hg. cbn [variables widgets].
        destruct (Hfresh g (or_intror Hg)) as [Hgv Hgw].
        assert (Hne : field_id g <> field_id f).
        { intros Heq. apply Hnotin. rewrite <- Heq. now apply in_map. }
        unfold keys. rewrite !map_app, !not_in_app. repeat split; trivial.
        - intros Hin. apply Hne.
          exact (keys_initial_variables (clock (field_id f)) f _ Hin).
        - simpl. intuition. }
      split.
      * intros Hex g [<-|Hg]; [assumption|]. now apply IH1.
      * intros e He. destruct (IH2 e He) as (Hcls & g & Hg & Hrest).
        split; [exact Hcls|]. exists g. split; [now right|exact Hrest].
    + destruct (create_field_not_buildable (clock (field_id f)) f fm Hb Hw)
        as (e0 & -> & Hcls & Hwhy).
      cbn [bind]. split.
      * intros [fm' H]. discriminate H.
      * intros e [= <-]. split; [exact Hcls|].
        exists f. split; [now left|]. split; assumption.
Qed.

(** X10. For a template with distinct ids, the form is built exactly when
    every field can be built: it has one of the six types, and when it is a
    check box its default is a boolean for Tcl.  The form built has, in the
    order of the template, one variable for each field that is not a text
    area and one widget for each field, as [create_field] gives them to a
    new id, and an empty output.  When the form is not built, a field that
    cannot be built has raised: [UnboundLocalError] for a type outside the
    six, and for a check box what the making of its [BooleanVar] raises;
    the exception is of the [Exception] classes. *)
Theorem form_built (clock : string -> datetime) (t : template) :
  NoDup (map field_id (all_fields t)) ->
  ((forall f, In f (all_fields t) -> buildable (clock (field_id f)) f = true) ->
   create_sections clock t empty_form =
   Ok (mk_form (built_variables clock (all_fields t))
               (built_widgets clock (all_fields t)) "")) /\
  ((exists fm, create_sections clock t empty_form = Ok fm) ->
   forall f, In f (all_fields t) -> buildable (clock (field_id f)) f = true) /\
  (forall e, create_sections clock t empty_form = Raise e ->
   isinstance_Exception (exn_cls e) = true /\
   exists f, In f (all_fields t) /\
     buildable (clock (field_id f)) f = false /\
     ((is_field_type (field_type f) = false /\
       exn_cls e = ExceptionSubclass "UnboundLocalError") \/
      (field_type f = "checkbox" /\
       new_BooleanVar (resolve_today (clock (field_id f)) (default_of f)) =
         Raise e))).
Proof.
  intros Hnd. unfold create_sections.
  destruct (create_fields_outcome clock (all_fields t) empty_form Hnd)
    as [H1 H2].
  { intros g _. simpl. tauto. }
  split; [|split; assumption].
  intros Hty. rewrite create_fields_fresh; trivial.
  intros g _. simpl. tauto.
Qed.

End Build.

Lemma checklist_ids :
  NoDup (map field_id (all_fields Samples.checklist_template)).
Proof. simpl. repeat constructor; simpl; intuition discriminate. Qed.

Lemma checklist_types f :
  In f (all_fields Samples.checklist_template) ->
  is_field_type (field_type f) = true.
Proof. simpl. intuition (subst; reflexivity). Qed.

Lemma checklist_buildable f :
  In f (all_fields Samples.checklist_template) ->
  buildable Samples.opening_day f = true.
Proof. simpl. intuition (subst; reflexivity). Qed.

Lemma checklist_checkboxes f :
  In f (all_fields Samples.checklist_template) ->
  field_type f = "checkbox" -> exists b, field_default f = Some (VBool b).
Proof.
  simpl. intros [<-|[<-|[<-|[<-|[<-|[<-|[]]]]]]] H;
    try discriminate H; simpl; eauto.
Qed.

Lemma checklist_textareas f :
  In f (all_fields Samples.checklist_template) ->
  field_type f = "textarea" ->
  exists s, default_of f = VStr s /\ s <> "today".
Proof.
  simpl. intros [<-|[<-|[<-|[<-|[<-|[<-|[]]]]]]] H;
    try discriminate H.
  exists "Normal". split; [reflexivity|discriminate].
Qed.

Lemma create_field_unknown_type_witness :
  is_field_type (field_type Samples.slider_field) = false /\
  exists msg,
    create_field Samples.opening_day Samples.slider_field empty_form =
    Raise (mk_exn (ExceptionSubclass "UnboundLocalError") msg).
Proof.
  split; [reflexivity|].
  apply (proj1 (create_field_unknown_type Samples.opening_day
                  Samples.slider_field empty_form eq_refl)).
  simpl. intros [].
Defined.

Lemma form_built_witness :
  create_sections (fun _ => Samples.opening_day) Samples.checklist_template
                  empty_form =
  Ok (mk_form (built_variables (fun _ => Samples.opening_day)
                 (all_fields Samples.checklist_template))
              (built_widgets (fun _ => Samples.opening_day)
                 (all_fields Samples.checklist_template)) "").
Proof.
  exact (proj1 (form_built (fun _ => Samples.opening_day)
                  Samples.checklist_template checklist_ids)
               checklist_buildable).
Defined.

End FormBuild.

(** ** Collecting the data *)

Module Collection.
Import Py PyStr DictFacts DynamicForm Textarea FormBuild.

Section Collect.
Context {E : PyEnv}.

Lemma BooleanVar_get_Raise raw e :
  BooleanVar_get raw = Raise e ->
  e = value_error "invalid literal for getboolean()".
Proof.
  unfold BooleanVar_get. destruct raw; try discriminate;
    destruct (tcl_getboolean _); try discriminate; now intros [= <-].
Qed.

Lemma collect_variables_Raise t vars : forall data e,
  collect_variables t vars data = Raise e ->
  exists id raw, In (id, BooleanVar raw) vars /\ BooleanVar_get raw = Raise e.
Proof.
  induction vars as [|[id var] rest IH]; intros data e H; simpl in H;
    [discriminate|].
  destruct var as [raw|s]; simpl in H.
  - destruct (BooleanVar_get raw) as [b|e0] eqn:Hb; simpl in H.
    + destruct (IH _ _ H) as (id' & raw' & Hin & Hr).
      exists id', raw'. split; [now right|assumption].
    + injection H as <-. exists id, raw. split; [now left|assumption].
  - destruct (IH _ _ H) as (id' & raw' & Hin & Hr).
    exists id', raw'. split; [now right|assumption].
Qed.

(** An entry of a dictionary after an assignment is the one assigned or
    one that was there. *)
Lemma In_set_cases {V : Type} (k k0 : string) (v v0 : V) (d : dict V) :
  In (k, v) (set k0 v0 d) -> (k = k0 /\ v = v0) \/ In (k, v) d.
Proof.
  induction d as [|[k1 v1] r IH]; simpl.
  - intros [[= <- <-]|[]]. now left.
  - destruct (String.eqb_spec k1 k0) as [->|Hne]; simpl.
    + intros [[= <- <-]|H]; [now left|right; now right].
    + intros [H|H]; [right; now left|].
      destruct (IH H) as [H'|H']; [now left|right; now right].
Qed.

Lemma create_field_booleans now f fm fm' :
  create_field now f fm = Ok fm' ->
  readable_variables fm -> readable_variables fm'.
Proof.
  unfold create_field, readable_variables. intros H Hfm id raw.
  destruct (field_type f =? "checkbox")%string.
  { destruct (new_BooleanVar (resolve_today now (default_of f)))
      as [var|e] eqn:Hvar; [|discriminate H].
    cbn [bind] in H. injection H as <-.
    rewrite FormDefaults.variables_store_widget. cbn [variables set_variable].
    intros Hin. apply In_set_cases in Hin. destruct Hin as [[_ <-]|Hin].
    - destruct (new_BooleanVar_Ok _ _ Hvar) as [b [= ->]].
      exists b. reflexivity.
    - eauto. }
  destruct (is_entry_type (field_type f)).
  { injection H as <-.
    rewrite FormDefaults.variables_store_widget. cbn [variables set_variable].
    intros Hin. apply In_set_cases in Hin.
    destruct Hin as [[_ [=]]|Hin]. eauto. }
  destruct (field_type f =? "select")%string.
  { injection H as <-.
    rewrite FormDefaults.variables_store_widget. cbn [variables set_variable].
    intros Hin. apply In_set_cases in Hin.
    destruct Hin as [[_ [=]]|Hin]. eauto. }
  destruct (field_type f =? "textarea")%string.
  { injection H as <-. cbn [variables set_widget]. eauto. }
  destruct (mem (field_id f) (widgets fm)); [|discriminate H].
  injection H as <-. eauto.
Qed.

Lemma create_fields_booleans clock fields : forall fm fm',
  create_fields clock fields fm = Ok fm' ->
  readable_variables fm -> readable_variables fm'.
Proof.
  induction fields as [|f rest IH]; intros fm fm' H Hfm; cbn [create_fields] in H.
  - now injection H as <-.
  - destruct (create_field (clock (field_id f)) f fm) as [fm1|e] eqn:H1;
      [|discriminate H].
    cbn [bind] in H. apply (IH fm1 fm' H).
    now apply (create_field_booleans _ _ _ _ H1).
Qed.

Lemma clear_field_booleans now fm f :
  readable_variables fm -> readable_variables (clear_field now fm f).
Proof.
  unfold clear_field, readable_variables. intros Hfm id raw.
  destruct (get (field_id f) (variables fm)) as [[raw0|s0]|];
    match goal with
    | |- context [get (field_id f) (widgets ?m)] =>
        destruct (get (field_id f) (widgets m)) as [[| | |h x]|]
    end; cbn [variables set_variable set_widget]; intros Hin;
    try (apply In_set_cases in Hin; destruct Hin as [[_ Heq]|Hin];
         [first [discriminate Heq
                | injection Heq as ->; eexists; reflexivity]|]);
    eauto.
Qed.

Lemma clear_fields_booleans clock fields : forall fm,
  readable_variables fm ->
  readable_variables
    (fold_left (fun fm f => clear_field (clock (field_id f)) fm f) fields fm).
Proof.
  induction fields as [|f rest IH]; intros fm Hfm; cbn [fold_left]; [exact Hfm|].
  apply IH. now apply clear_field_booleans.
Qed.

Lemma booleans_collected t fm :
  readable_variables fm -> exists data, collect_data t fm = Ok data.
Proof.
  intros Hfm. unfold collect_data.
  destruct (collect_variables_total t (variables fm)) with (data := @nil (string * value))
    as [d ->].
  - exact Hfm.
  - simpl. eauto.
Qed.

(** X11. [collect_data] returns on every form that the program makes.  A
    new form has no [BooleanVar]; when every [BooleanVar] of a form can be
    read (it holds a boolean, or what a check box puts there), the same is
    true of the form after [create_sections], for any template, and after
    [clear_form], and [collect_data] returns data for these forms: the
    [ValueError] of a check box that cannot be read is never raised. *)
Theorem collect_data_returns (clock : string -> datetime) (t : template)
    (fm : form) :
  readable_variables empty_form /\
  (readable_variables fm ->
   (forall fm', create_sections clock t fm = Ok fm' ->
      readable_variables fm' /\ exists data, collect_data t fm' = Ok data) /\
   readable_variables (clear_form clock t fm) /\
   (exists data, collect_data t (clear_form clock t fm) = Ok data) /\
   (exists data, collect_data t fm = Ok data)).
Proof.
  split; [intros id raw []|]. intros Hfm.
  assert (Hclear : readable_variables (clear_form clock t fm)).
  { unfold clear_form, readable_variables. cbn [variables].
    apply (clear_fields_booleans clock (all_fields t) fm Hfm). }
  split; [|split; [exact Hclear|split; now apply booleans_collected]].
  intros fm' H.
  assert (Hfm' : readable_variables fm')
    by exact (create_fields_booleans clock (all_fields t) fm fm' H Hfm).
  split; [exact Hfm'|now apply booleans_collected].
Qed.

Lemma collect_variables_keys t vars : forall data data',
  collect_variables t vars data = Ok data' ->
  (forall k, In k (keys data') <-> In k (keys data) \/ In k (keys vars)) /\
  (forall k, ~ In k (keys vars) -> get k data' = get k data).
Proof.
  induction vars as [|[id var] rest IH]; intros data data' H; simpl in H.
  - injection H as <-. simpl. split; [tauto|auto].
  - assert (Hstep : exists v, collect_variable t data (id, var) =
                              Ok (set id v data) /\
                              collect_variables t rest (set id v data) = Ok data').
    { destruct var as [raw|s]; cbn [collect_variable collect_variables] in *.
      - destruct (BooleanVar_get raw) as [b|e]; simpl in *; [|discriminate].
        exists (VBool b). auto.
      - simpl in *. exists (stored_value t id s). auto. }
    destruct Hstep as (v & _ & Hrest).
    destruct (IH _ _ Hrest) as [Hk Hg]. split.
    + intros k. rewrite Hk, keys_set. simpl. intuition.
    + intros k Hnotin. simpl in Hnotin. rewrite Hg by tauto.
      apply get_set_other. intros ->. tauto.
Qed.

Lemma collect_variables_values t vars : forall data data',
  NoDup (keys vars) ->
  collect_variables t vars data = Ok data' ->
  forall id var, In (id, var) vars ->
    exists v, variable_value t id var = Ok v /\ get id data' = Some v.
Proof.
  induction vars as [|[id0 var0] rest IH]; intros data data' Hnd H id var Hin;
    [destruct Hin|].
  inversion Hnd as [|? ? Hnotin Hnd']; subst. simpl in H.
  assert (Hstep : exists v0, variable_value t id0 var0 = Ok v0 /\
                             collect_variables t rest (set id0 v0 data) = Ok data').
  { destruct var0 as [raw|s]; cbn [variable_value] in *.
    - destruct (BooleanVar_get raw) as [b|e]; simpl in *; [|discriminate].
      exists (VBool b). auto.
    - simpl in *. exists (stored_value t id0 s). auto. }
  destruct Hstep as (v0 & Hv0 & Hrest).
  destruct Hin as [[= -> ->]|Hin].
  - exists v0. split; [assumption|].
    destruct (collect_variables_keys _ _ _ _ Hrest) as [_ Hg].
    rewrite Hg by assumption. apply get_set_same.
  - now apply (IH _ _ Hnd' Hrest).
Qed.

Lemma collect_widgets_keys (ws : dict widget) : forall data k,
  In k (keys (fold_left collect_widget ws data)) <->
  In k (keys data) \/ exists h x, In (k, ScrolledText h x) ws.
Proof.
  induction ws as [|[id w] rest IH]; intros data k; cbn [fold_left].
  - split; [tauto|]. intros [H|(h & x & [])]. assumption.
  - rewrite IH. destruct w as [| | |h0 x0]; cbn [collect_widget].
    1-3: split; [intros [H|(h & x & H)]; [tauto|right; exists h, x; now right]
                |intros [H|(h & x & [H|H])]; [tauto|discriminate H
                                             |right; eauto]].
    rewrite keys_set. split.
    + intros [[->|H]|(h & x & H)]; [right; exists h0, x0; now left|tauto|].
      right. exists h, x. now right.
    + intros [H|(h & x & [[= -> _ _]|H])]; [tauto|tauto|].
      right. eauto.
Qed.

Lemma collect_widgets_no_textarea (ws : dict widget) (id : string) :
  (forall h x, ~ In (id, ScrolledText h x) ws) ->
  forall data, get id (fold_left collect_widget ws data) = get id data.
Proof.
  induction ws as [|[id0 w0] rest IH]; intros Hno data; [reflexivity|].
  cbn [fold_left]. rewrite IH.
  - destruct w0 as [| | |h0 x0]; try reflexivity. cbn [collect_widget].
    apply get_set_other. intros ->. apply (Hno h0 x0). now left.
  - intros h x H. apply (Hno h x). now right.
Qed.

(** X12. The keys of the data collected are the ids of the variables and
    the ids of the text areas.  When the ids of the variables are distinct,
    the data hold under the id of a variable what the variable gives (the
    boolean of a check box, the string or the number of an entry), unless a
    text area has the same id. *)
Theorem collected_keys_and_values (t : template) (fm : form)
    (data : dict value) :
  collect_data t fm = Ok data ->
  (forall k, In k (keys data) <->
     In k (keys (variables fm)) \/
     exists h x, In (k, ScrolledText h x) (widgets fm)) /\
  (NoDup (keys (variables fm)) ->
   forall id var, In (id, var) (variables fm) ->
     ~ In id (keys (widgets fm)) \/
     (forall h x, ~ In (id, ScrolledText h x) (widgets fm)) ->
     exists v, variable_value t id var = Ok v /\ get id data = Some v).
Proof.
  unfold collect_data. intros H.
  destruct (collect_variables t (variables fm) []) as [d|e] eqn:Hc;
    simpl in H; [|discriminate]. injection H as <-.
  destruct (collect_variables_keys _ _ _ _ Hc) as [Hk _]. split.
  - intros k. rewrite collect_widgets_keys, Hk. simpl. tauto.
  - intros Hnd id var Hin Hno.
    destruct (collect_variables_values _ _ _ _ Hnd Hc id var Hin) as (v & Hv & Hg).
    exists v. split; [assumption|]. rewrite <- Hg.
    apply collect_widgets_no_textarea. destruct Hno as [Hno|Hno]; [|assumption].
    intros h x H. apply Hno. change id with (fst (id, ScrolledText h x)).
    now apply in_map.
Qed.

(** *** The form as it is built *)

Lemma collect_variables_order t vars : forall data data',
  NoDup (keys vars) ->
  (forall k, In k (keys vars) -> ~ In k (keys data)) ->
  collect_variables t vars data = Ok data' ->
  keys data' = (keys data ++ keys vars)%list.
Proof.
  induction vars as [|[id var] rest IH]; intros data data' Hnd Hfresh H;
    simpl in H.
  - injection H as <-. simpl. now rewrite List.app_nil_r.
  - inversion Hnd as [|? ? Hnotin Hnd']; subst.
    assert (Hstep : exists v,
               collect_variables t rest (data ++ [(id, v)])%list = Ok data').
    { assert (Hid : ~ In id (keys data)) by (apply Hfresh; now left).
      destruct var as [raw|s]; simpl in *.
      - destruct (BooleanVar_get raw) as [b|e]; simpl in *; [|discriminate].
        exists (VBool b). now rewrite <- (set_absent id _ data Hid).
      - exists (stored_value t id s). now rewrite <- (set_absent id _ data Hid). }
    destruct Hstep as (v & Hrest).
    assert (Hfresh' : forall k, In k (keys rest) ->
                        ~ In k (keys (data ++ [(id, v)])%list)).
    { intros k Hk. unfold keys. rewrite map_app, in_app_iff. simpl.
      intros [H1|[H1|[]]].
      - apply (Hfresh k); [now right|assumption].
      - subst k. contradiction. }
    rewrite (IH _ _ Hnd' Hfresh' Hrest).
    unfold keys. rewrite map_app. simpl. now rewrite <- List.app_assoc.
Qed.

Lemma collect_widgets_order (ws : dict widget) : forall data,
  NoDup (keys ws) ->
  (forall k w, In (k, w) ws -> is_ScrolledText w = true -> ~ In k (keys data)) ->
  keys (fold_left collect_widget ws data) =
  (keys data ++ keys (filter (fun kw => is_ScrolledText (snd kw)) ws))%list.
Proof.
  induction ws as [|[id w] rest IH]; intros data Hnd Hfresh; cbn [fold_left].
  - simpl. now rewrite List.app_nil_r.
  - inversion Hnd as [|? ? Hnotin Hnd']; subst.
    destruct w as [| | |h x]; cbn [collect_widget filter snd is_ScrolledText].
    1-3: apply IH; [assumption|];
         intros k w Hin Hst; apply (Hfresh k w); [now right|assumption].
    rewrite IH; [|assumption|].
    + rewrite set_absent by (apply (Hfresh id (ScrolledText h x));
                            [now left|reflexivity]).
      unfold keys. rewrite map_app. simpl. now rewrite <- List.app_assoc.
    + intros k w Hin Hst. rewrite keys_set. intros [->|H].
      * apply Hnotin. change id with (fst (id, w)). now apply in_map.
      * apply (Hfresh k w); [now right|assumption|assumption].
Qed.

Lemma initial_variables_textarea now f :
  buildable now f = true ->
  keys (initial_variables now f) =
  if is_textarea f then [] else [field_id f].
Proof.
  intros Hb. pose proof (buildable_known now f Hb) as Hty.
  unfold buildable in Hb.
  unfold initial_variables, is_textarea, is_string_type.
  destruct (known_type_cases _ Hty)
    as [H|[[H1 H2]|[(H1 & H2 & H3)|(H1 & H2 & H3 & H4)]]].
  - rewrite H in *. apply String.eqb_eq in H. rewrite H.
    destruct (new_BooleanVar (resolve_today now (default_of f)));
      [reflexivity|discriminate Hb].
  - rewrite H1, H2. simpl.
    destruct (String.eqb_spec (field_type f) "textarea") as [Heq|]; [|reflexivity].
    rewrite Heq in H2. discriminate H2.
  - rewrite H1, H2, H3. simpl. apply String.eqb_eq in H3. now rewrite H3.
  - rewrite H1, H2, H3, H4. reflexivity.
Qed.

Lemma keys_built_variables clock fields :
  (forall g, In g fields -> buildable (clock (field_id g)) g = true) ->
  keys (built_variables clock fields) =
  map field_id (filter (fun f => negb (is_textarea f)) fields).
Proof.
  unfold built_variables, keys. induction fields as [|f rest IH]; intros Hty;
    [reflexivity|].
  cbn [flat_map filter]. rewrite map_app, IH by (intros g Hg; apply Hty; now right).
  change (map fst (initial_variables (clock (field_id f)) f))
    with (keys (initial_variables (clock (field_id f)) f)).
  rewrite initial_variables_textarea by (apply Hty; now left).
  now destruct (is_textarea f).
Qed.

Lemma initial_widget_textarea now f :
  is_field_type (field_type f) = true ->
  is_ScrolledText (initial_widget now f) = is_textarea f.
Proof.
  intros Hty. unfold initial_widget, is_textarea.
  destruct (known_type_cases _ Hty)
    as [H|[[H1 H2]|[(H1 & H2 & H3)|(H1 & H2 & H3 & H4)]]].
  - rewrite H. apply String.eqb_eq in H. now rewrite H.
  - rewrite H1, H2. simpl.
    destruct (String.eqb_spec (field_type f) "textarea") as [Heq|]; [|reflexivity].
    rewrite Heq in H2. discriminate H2.
  - rewrite H1, H2, H3. simpl. apply String.eqb_eq in H3. now rewrite H3.
  - rewrite H1, H2, H3, H4. reflexivity.
Qed.

Lemma keys_built_textareas clock fields :
  (forall g, In g fields -> is_field_type (field_type g) = true) ->
  keys (filter (fun kw => is_ScrolledText (snd kw)) (built_widgets clock fields)) =
  map field_id (filter is_textarea fields).
Proof.
  unfold built_widgets, keys. induction fields as [|f rest IH]; intros Hty;
    [reflexivity|].
  cbn [map filter snd].
  rewrite initial_widget_textarea by (apply Hty; now left).
  destruct (is_textarea f); simpl; rewrite IH; auto;
    intros g Hg; apply Hty; now right.
Qed.

Lemma keys_built_widgets clock fields :
  keys (built_widgets clock fields) = map field_id fields.
Proof. unfold built_widgets, keys. rewrite map_map. reflexivity. Qed.

(** Fields picked among fields with distinct ids have distinct ids. *)
Lemma distinct_ids_filter (keep : field_spec -> bool) :
  forall fields : list field_spec,
  NoDup (map field_id fields) -> NoDup (map field_id (filter keep fields)).
Proof.
  intros fields Hnd. induction fields as [|f rest IH]; [constructor|].
  inversion Hnd as [|? ? Hnotin Hrest]; subst. cbn [filter].
  destruct (keep f); [|now apply IH].
  cbn [map]. constructor; [|now apply IH].
  intros Hin. apply Hnotin. apply in_map_iff in Hin.
  destruct Hin as (g & Hg & Hin). apply filter_In in Hin.
  rewrite <- Hg. apply in_map. tauto.
Qed.

Lemma in_map_unique (fields : list field_spec) (f g : field_spec) :
  NoDup (map field_id fields) -> In f fields -> In g fields ->
  field_id f = field_id g -> f = g.
Proof.
  induction fields as [|a l IH]; intros Hnd Hf Hg Heq; [destruct Hf|].
  inversion Hnd as [|? ? Hnotin Hnd']; subst.
  destruct Hf as [->|Hf], Hg as [->|Hg]; trivial.
  - exfalso. apply Hnotin. rewrite Heq. now apply in_map.
  - exfalso. apply Hnotin. rewrite <- Heq. now apply in_map.
  - now apply IH.
Qed.

(** X13. For a template with distinct ids, fields of the six types and
    booleans for the defaults of its check boxes: the form is built, the
    data collected from it right away have one entry for each field, those
    of the fields that are not text areas first and those of the text areas
    after them, each in the order of the template, and the entry of a field
    holds its default: the boolean of a check box, the stripped text of a
    text area, and for the others the default as a string, or as a number
    when the field is a number field; "today" is held as the date. *)
Theorem build_then_collect (clock : string -> datetime) (t : template) :
  NoDup (map field_id (all_fields t)) ->
  (forall f, In f (all_fields t) -> is_field_type (field_type f) = true) ->
  (forall f, In f (all_fields t) -> field_type f = "checkbox" ->
     exists b, field_default f = Some (VBool b)) ->
  exists fm data,
    create_sections clock t empty_form = Ok fm /\
    collect_data t fm = Ok data /\
    keys data =
      (map field_id (filter (fun f => negb (is_textarea f)) (all_fields t)) ++
       map field_id (filter is_textarea (all_fields t)))%list /\
    forall f, In f (all_fields t) ->
      get (field_id f) data = Some (initial_value t (clock (field_id f)) f).
Proof.
  intros Hnd Hty Hbool. set (fields := all_fields t) in *.
  assert (Hbuild : forall g, In g fields ->
                     buildable (clock (field_id g)) g = true).
  { intros g Hg. apply buildable_boolean; [now apply Hty|now apply Hbool]. }
  pose (fm := mk_form (built_variables clock fields)
                      (built_widgets clock fields) "").
  assert (Hfm : create_sections clock t empty_form = Ok fm).
  { unfold create_sections. fold fields.
    rewrite (create_fields_fresh clock fields empty_form Hnd Hbuild);
      [reflexivity|].
    intros g _. simpl. tauto. }
  assert (Hvkeys := keys_built_variables clock fields Hbuild).
  assert (Hvnd : NoDup (keys (built_variables clock fields))).
  { rewrite Hvkeys. now apply distinct_ids_filter. }
  assert (Hwnd : NoDup (keys (built_widgets clock fields))).
  { now rewrite keys_built_widgets. }
  assert (Hin_var : forall id var, In (id, var) (built_variables clock fields) ->
            exists f, In f fields /\ id = field_id f /\
                      In (id, var) (initial_variables (clock (field_id f)) f)).
  { intros id var Hin. unfold built_variables in Hin.
    apply in_flat_map in Hin. destruct Hin as (f & Hf & Hin).
    exists f. split; [assumption|]. split; [|assumption].
    apply (keys_initial_variables (clock (field_id f)) f).
    change id with (fst (id, var)). now apply in_map. }
  assert (Hread : forall id raw, In (id, BooleanVar raw) (variables fm) ->
                    exists b, BooleanVar_get raw = Ok b).
  { intros id raw Hin. destruct (Hin_var _ _ Hin) as (f & Hf & -> & Hin').
    unfold initial_variables in Hin'.
    destruct (String.eqb_spec (field_type f) "checkbox") as [Hc|Hc].
    - destruct (Hbool f Hf Hc) as [b Hb].
      unfold default_of in Hin'. rewrite Hb in Hin'.
      destruct Hin' as [[= <-]|[]]. exists b. reflexivity.
    - destruct (is_string_type (field_type f)).
      + destruct Hin' as [[=]|[]].
      + destruct Hin'. }
  destruct (collect_variables_total t (variables fm) Hread []) as [d0 Hd0].
  exists fm, (fold_left collect_widget (widgets fm) d0).
  split; [exact Hfm|]. split.
  { unfold collect_data. rewrite Hd0. reflexivity. }
  assert (Hk0 : keys d0 = keys (built_variables clock fields)).
  { assert (Hempty : forall k, In k (keys (variables fm)) ->
                       ~ In k (keys (@nil (string * value))))
      by (intros k _ []).
    rewrite (collect_variables_order t (variables fm) [] d0 Hvnd Hempty Hd0).
    reflexivity. }
  split.
  - cbn [widgets fm]. rewrite collect_widgets_order; [|assumption|].
    + now rewrite Hk0, Hvkeys, keys_built_textareas.
    + intros k w Hin Hst. rewrite Hk0, Hvkeys. intros Hin'.
      unfold built_widgets in Hin. apply in_map_iff in Hin.
      destruct Hin as (f & [= <- <-] & Hf).
      rewrite initial_widget_textarea in Hst by now apply Hty.
      apply in_map_iff in Hin'. destruct Hin' as (g & Hid & Hg).
      apply filter_In in Hg. destruct Hg as [Hg Hgt].
      assert (g = f) by now apply (in_map_unique fields g f Hnd).
      subst g. rewrite Hst in Hgt. discriminate Hgt.
  - intros f Hf. unfold initial_value. cbn [widgets fm].
    destruct (is_textarea f) eqn:Hta.
    + assert (Hc : (field_type f =? "checkbox")%string = false).
      { unfold is_textarea in Hta. apply String.eqb_eq in Hta. now rewrite Hta. }
      unfold is_textarea in Hta. rewrite Hc, Hta.
      rewrite (collect_widgets_textarea (built_widgets clock fields) (field_id f)
                 (match field_height f with Some h => h | None => 4 end)
                 (str (resolve_today (clock (field_id f)) (default_of f)))
                 Hwnd).
      * unfold ScrolledText_get. now rewrite strip_app_newline.
      * unfold built_widgets. apply in_map_iff. exists f. split; [|assumption].
        unfold initial_widget. rewrite Hc.
        apply String.eqb_eq in Hta. rewrite Hta. reflexivity.
    + rewrite collect_widgets_no_textarea.
      * assert (Hvar : exists var,
                  In (field_id f, var) (built_variables clock fields) /\
                  variable_value t (field_id f) var =
                  Ok (if (field_type f =? "checkbox")%string
                      then resolve_today (clock (field_id f)) (default_of f)
                      else stored_value t (field_id f)
                             (str (resolve_today (clock (field_id f))
                                                 (default_of f))))).
        { unfold built_variables.
          pose proof (initial_variables_textarea (clock (field_id f)) f
                        (Hbuild f Hf)) as Hkeys.
          rewrite Hta in Hkeys. unfold initial_variables in *.
          destruct (String.eqb_spec (field_type f) "checkbox") as [Hc|Hc].
          - destruct (Hbool f Hf Hc) as [b Hb].
            exists (BooleanVar (VBool b)).
            split.
            + apply in_flat_map. exists f. split; [assumption|].
              apply String.eqb_eq in Hc. rewrite Hc.
              unfold default_of. rewrite Hb. now left.
            + unfold default_of. rewrite Hb. reflexivity.
          - destruct (is_string_type (field_type f)) eqn:Hs;
              [|discriminate Hkeys].
            exists (StringVar (str (resolve_today (clock (field_id f))
                                                  (default_of f)))).
            split; [|reflexivity].
            apply in_flat_map. exists f. split; [assumption|].
            apply String.eqb_neq in Hc. rewrite Hc, Hs. now left. }
        destruct Hvar as (var & Hin & Hval).
        destruct (collect_variables_values t _ _ _ Hvnd Hd0 _ _ Hin)
          as (v & Hv & Hg).
        rewrite Hval in Hv. injection Hv as <-. rewrite Hg.
        unfold is_textarea in Hta. now rewrite Hta.
      * intros h x Hin. unfold built_widgets in Hin.
        apply in_map_iff in Hin. destruct Hin as (g & [= Hid Hw] & Hg).
        assert (g = f) by now apply (in_map_unique fields g f Hnd).
        subst g.
        pose proof (initial_widget_textarea (clock (field_id f)) f (Hty f Hf))
          as Hst.
        rewrite Hw, Hta in Hst. discriminate Hst.
Qed.

End Collect.

Lemma collect_data_returns_witness :
  readable_variables Samples.edited_form /\
  exists data,
    collect_data Samples.checklist_template
      (clear_form (fun _ => Samples.clearing_day) Samples.checklist_template
         Samples.edited_form) = Ok data.
Proof.
  assert (H : readable_variables Samples.edited_form).
  { intros id raw Hin. simpl in Hin.
    repeat (destruct Hin as [Hin|Hin];
            [injection Hin as _ <- || discriminate Hin|]);
      [exists false; reflexivity|destruct Hin]. }
  split; [exact H|].
  destruct (collect_data_returns (fun _ => Samples.clearing_day)
              Samples.checklist_template Samples.edited_form)
    as [_ Hrest].
  exact (proj1 (proj2 (proj2 (Hrest H)))).
Defined.

Lemma collected_keys_and_values_witness :
  exists data,
    collect_data Samples.checklist_template Samples.edited_form = Ok data /\
    exists v,
      variable_value Samples.checklist_template "patient_age" (StringVar "30") =
        Ok v /\
      get "patient_age" data = Some v.
Proof.
  destruct (collect_data Samples.checklist_template Samples.edited_form)
    as [data|e] eqn:Hd; [|vm_compute in Hd; discriminate Hd].
  exists data. split; [reflexivity|].
  apply (proj2 (collected_keys_and_values Samples.checklist_template
                  Samples.edited_form data Hd)).
  - simpl. repeat constructor; simpl; intuition discriminate.
  - simpl. auto.
  - right. simpl. intros h x H.
    repeat (destruct H as [H|H]; [discriminate H|]). exact H.
Defined.

Lemma build_then_collect_witness :
  exists fm data,
    create_sections (fun _ => Samples.opening_day) Samples.checklist_template
                    empty_form = Ok fm /\
    collect_data Samples.checklist_template fm = Ok data /\
    keys data =
      ["patient_name"; "study_date"; "patient_age"; "eyes_closed"; "state";
       "impression"] /\
    forall f, In f (all_fields Samples.checklist_template) ->
      get (field_id f) data =
      Some (initial_value Samples.checklist_template Samples.opening_day f).
Proof.
  exact (build_then_collect (fun _ => Samples.opening_day)
           Samples.checklist_template checklist_ids checklist_types
           checklist_checkboxes).
Defined.

End Collection.

(** ** Clearing the form *)

Module Clearing.
Import Py PyStr DictFacts DynamicForm FormDefaults FormBuild Collection.

Lemma keys_set_present {V : Type} (k : string) (v x : V) (d : dict V) :
  get k d = Some x -> keys (set k v d) = keys d.
Proof.
  induction d as [|[k0 v0] r IH]; simpl; [discriminate|].
  destruct (String.eqb_spec k0 k) as [->|Hne]; simpl; [reflexivity|].
  intros H. now rewrite IH.
Qed.

(** Two dictionaries with the same keys are related at every key when they
    are at their own. *)
Lemma same_at_keys {V : Type} (R : option V -> option V -> Prop)
    (d d' : dict V) :
  R None None -> keys d = keys d' ->
  Forall (fun k => R (get k d) (get k d')) (keys d) ->
  forall id, R (get id d) (get id d').
Proof.
  intros Hnone Hkeys Hall id.
  destruct (in_dec string_dec id (keys d)) as [Hin|Hout].
  - rewrite Forall_forall in Hall. now apply Hall.
  - assert (H : get id d = None) by now apply get_None.
    assert (H' : get id d' = None) by (apply get_None; now rewrite <- Hkeys).
    now rewrite H, H'.
Qed.

Section Clear.
Context {E : PyEnv}.

(** One turn of the loop, at the id of its field. *)
Lemma clear_field_at now fm f :
  get (field_id f) (variables (clear_field now fm f)) =
    cleared_variable now f (get (field_id f) (variables fm)) /\
  get (field_id f) (widgets (clear_field now fm f)) =
    cleared_widget now f (get (field_id f) (variables fm))
                   (get (field_id f) (widgets fm)).
Proof.
  unfold clear_field, cleared_variable, cleared_widget, cleared_default.
  destruct (get (field_id f) (variables fm)) as [[raw|s]|] eqn:Hv;
    cbn [widgets set_variable variables];
    destruct (get (field_id f) (widgets fm)) as [[| | |h x]|] eqn:Hw;
    cbn [widgets set_widget set_variable variables];
    rewrite ?get_set_same, ?Hv, ?Hw; auto.
Qed.

Lemma clear_field_keys now fm f :
  keys (variables (clear_field now fm f)) = keys (variables fm) /\
  keys (widgets (clear_field now fm f)) = keys (widgets fm).
Proof.
  unfold clear_field.
  destruct (get (field_id f) (variables fm)) as [[raw|s]|] eqn:Hv;
    cbn [widgets set_variable variables];
    destruct (get (field_id f) (widgets fm)) as [[| | |h x]|] eqn:Hw;
    cbn [widgets set_widget set_variable variables];
    rewrite ?(keys_set_present _ _ _ _ Hv), ?(keys_set_present _ _ _ _ Hw);
    auto.
Qed.

Lemma clear_fields_keys clock fields : forall fm,
  let fm' := fold_left (fun fm f => clear_field (clock (field_id f)) fm f)
                       fields fm in
  keys (variables fm') = keys (variables fm) /\
  keys (widgets fm') = keys (widgets fm).
Proof.
  induction fields as [|f rest IH]; intros fm; simpl; [auto|].
  destruct (IH (clear_field (clock (field_id f)) fm f)) as [Hv Hw].
  destruct (clear_field_keys (clock (field_id f)) fm f) as [Hv1 Hw1].
  simpl in Hv, Hw. split; congruence.
Qed.

Lemma clear_fields_at clock fields : forall fm f,
  NoDup (map field_id fields) -> In f fields ->
  let fm' := fold_left (fun fm f => clear_field (clock (field_id f)) fm f)
                       fields fm in
  get (field_id f) (variables fm') =
    cleared_variable (clock (field_id f)) f (get (field_id f) (variables fm)) /\
  get (field_id f) (widgets fm') =
    cleared_widget (clock (field_id f)) f (get (field_id f) (variables fm))
                   (get (field_id f) (widgets fm)).
Proof.
  induction fields as [|f0 rest IH]; intros fm f Hnd Hin; [destruct Hin|].
  inversion Hnd as [|? ? Hnotin Hnd']; subst. cbn [fold_left].
  destruct Hin as [->|Hin].
  - destruct (clear_fields_other clock rest
                (clear_field (clock (field_id f)) fm f) _ Hnotin) as [Hv Hw].
    simpl in Hv, Hw. rewrite Hv, Hw. apply clear_field_at.
  - assert (Hne : field_id f <> field_id f0).
    { intros Heq. apply Hnotin. rewrite <- Heq. now apply in_map. }
    destruct (clear_field_other (clock (field_id f0)) fm f0 _ Hne) as [Hv1 Hw1].
    destruct (IH (clear_field (clock (field_id f0)) fm f0) f Hnd' Hin)
      as [Hv Hw].
    simpl in Hv, Hw. rewrite Hv, Hw, Hv1, Hw1. auto.
Qed.


Lemma get_built_variables clock fields f :
  NoDup (map field_id fields) ->
  (forall g, In g fields -> buildable (clock (field_id g)) g = true) ->
  In f fields ->
  get (field_id f) (built_variables clock fields) =
  match initial_variables (clock (field_id f)) f with
  | [] => None
  | (_, var) :: _ => Some var
  end.
Proof.
  intros Hnd Hty Hf.
  assert (Hvnd : NoDup (keys (built_variables clock fields))).
  { rewrite keys_built_variables by assumption. now apply distinct_ids_filter. }
  destruct (initial_variables (clock (field_id f)) f) as [|[k var] r] eqn:Hinit.
  - apply get_None. rewrite keys_built_variables by assumption.
    intros Hin. apply in_map_iff in Hin. destruct Hin as (g & Hid & Hg).
    apply filter_In in Hg. destruct Hg as [Hg Hgt].
    assert (g = f) by now apply (in_map_unique fields g f Hnd).
    subst g.
    pose proof (initial_variables_textarea (clock (field_id f)) f (Hty f Hf))
      as Hk.
    rewrite Hinit in Hk. destruct (is_textarea f); discriminate.
  - apply In_get; [assumption|].
    assert (Hk : k = field_id f).
    { apply (keys_initial_variables (clock (field_id f)) f).
      rewrite Hinit. now left. }
    subst k. unfold built_variables. apply in_flat_map.
    exists f. split; [assumption|]. rewrite Hinit. now left.
Qed.

Lemma get_built_widgets clock fields f :
  NoDup (map field_id fields) -> In f fields ->
  get (field_id f) (built_widgets clock fields) =
  Some (initial_widget (clock (field_id f)) f).
Proof.
  intros Hnd Hf. apply In_get.
  - now rewrite keys_built_widgets.
  - unfold built_widgets. apply in_map_iff. now exists f.
Qed.

(** X15. For a template with distinct ids, fields of the six types,
    booleans for the defaults of its check boxes, and for the defaults of
    its text areas strings other than "today" (or no default): whatever the
    user has put into the controls of the form, [clear_form] gives every
    field the variable and the widget that it had when the form was built
    at the same clock. *)
Theorem clear_restores_built (clock : string -> datetime) (t : template)
    (fm' : form) :
  NoDup (map field_id (all_fields t)) ->
  (forall f, In f (all_fields t) -> is_field_type (field_type f) = true) ->
  (forall f, In f (all_fields t) -> field_type f = "checkbox" ->
     exists b, field_default f = Some (VBool b)) ->
  (forall f, In f (all_fields t) -> field_type f = "textarea" ->
     exists s, default_of f = VStr s /\ s <> "today") ->
  exists fm, create_sections clock t empty_form = Ok fm /\
    ((forall id, same_kind_variable (get id (variables fm))
                                    (get id (variables fm')) /\
                 same_kind_widget (get id (widgets fm)) (get id (widgets fm'))) ->
     forall f, In f (all_fields t) ->
       get (field_id f) (variables (clear_form clock t fm')) =
         get (field_id f) (variables fm) /\
       get (field_id f) (widgets (clear_form clock t fm')) =
         get (field_id f) (widgets fm)).
Proof.
  intros Hnd Hty Hbool Harea. set (fields := all_fields t) in *.
  assert (Hbuild : forall g, In g fields ->
                     buildable (clock (field_id g)) g = true).
  { intros g Hg. apply buildable_boolean; [now apply Hty|now apply Hbool]. }
  exists (mk_form (built_variables clock fields) (built_widgets clock fields) "").
  split.
  { unfold create_sections. fold fields.
    rewrite (create_fields_fresh clock fields empty_form Hnd Hbuild);
      [reflexivity|].
    intros g _. simpl. tauto. }
  cbn [variables widgets]. intros Hsame f Hf.
  destruct (Hsame (field_id f)) as [Hsv Hsw].
  rewrite (get_built_variables clock fields f Hnd Hbuild Hf) in *.
  rewrite (get_built_widgets clock fields f Hnd Hf) in *.
  unfold clear_form. cbn [variables widgets]. fold fields.
  destruct (clear_fields_at clock fields fm' f Hnd Hf) as [Hv Hw].
  simpl in Hv, Hw. rewrite Hv, Hw. clear Hv Hw.
  unfold initial_variables, initial_widget, is_string_type in *.
  destruct (known_type_cases _ (Hty f Hf))
    as [H|[[H1 H2]|[(H1 & H2 & H3)|(H1 & H2 & H3 & H4)]]].
  - rewrite H in *. apply String.eqb_eq in H.
    destruct (Hbool f Hf H) as [b Hb].
    assert (Hd : default_of f = VBool b) by (unfold default_of; now rewrite Hb).
    rewrite Hd in *. cbn [resolve_today eq_str new_BooleanVar] in *.
    destruct (get (field_id f) (variables fm')) as [[raw|s]|]; try contradiction.
    destruct (get (field_id f) (widgets fm')) as [[| | |h x]|]; try contradiction.
    unfold cleared_variable, cleared_widget. rewrite Hd. simpl. auto.
  - rewrite H1, H2 in *. cbn [orb] in *.
    destruct (get (field_id f) (variables fm')) as [[raw|s]|]; try contradiction.
    destruct (get (field_id f) (widgets fm')) as [[| | |h x]|]; try contradiction.
    unfold cleared_variable, cleared_widget. auto.
  - rewrite H1, H2, H3 in *. cbn [orb] in *.
    destruct (get (field_id f) (variables fm')) as [[raw|s]|]; try contradiction.
    destruct (get (field_id f) (widgets fm')) as [[| | |h x]|]; try contradiction.
    simpl in Hsw. subst. unfold cleared_variable, cleared_widget. auto.
  - rewrite H1, H2, H3 in *. cbn [orb] in *. apply String.eqb_eq in H4.
    destruct (Harea f Hf H4) as (s & Hd & Hs).
    destruct (get (field_id f) (variables fm')) as [[raw|s']|]; try contradiction.
    destruct (get (field_id f) (widgets fm')) as [[| | |h x]|]; try contradiction.
    simpl in Hsw. subst h.
    unfold cleared_variable, cleared_widget, cleared_default.
    rewrite Hd. split; [reflexivity|].
    unfold resolve_today, eq_str. apply String.eqb_neq in Hs. rewrite Hs.
    cbn [truthy str]. destruct (String.eqb_spec s "") as [->|]; reflexivity.
Qed.

End Clear.


Lemma clear_restores_built_witness :
  exists fm,
    create_sections (fun _ => Samples.opening_day) Samples.checklist_template
                    empty_form = Ok fm /\
    forall f, In f (all_fields Samples.checklist_template) ->
      get (field_id f)
          (variables (clear_form (fun _ => Samples.opening_day)
                        Samples.checklist_template Samples.edited_form)) =
        get (field_id f) (variables fm) /\
      get (field_id f)
          (widgets (clear_form (fun _ => Samples.opening_day)
                      Samples.checklist_template Samples.edited_form)) =
        get (field_id f) (widgets fm).
Proof.
  destruct (clear_restores_built (fun _ => Samples.opening_day)
              Samples.checklist_template Samples.edited_form
              checklist_ids checklist_types checklist_checkboxes
              checklist_textareas) as (fm & Hfm & H).
  exists fm. split; [exact Hfm|]. apply H.
  assert (Hbuilt : Ok fm =
            Ok (mk_form (built_variables (fun _ => Samples.opening_day)
                           (all_fields Samples.checklist_template))
                        (built_widgets (fun _ => Samples.opening_day)
                           (all_fields Samples.checklist_template)) ""))
    by (rewrite <- Hfm; reflexivity).
  injection Hbuilt as ->. intros id.
  split; apply same_at_keys; try exact I; try reflexivity;
    vm_compute; repeat (apply Forall_cons; [auto|]); apply Forall_nil.
Defined.

End Clearing.

(** ** Saving and loading *)

Module Dialogs.
Import Py PyStr DictFacts DocumentGenerator DynamicForm FormDefaults FormBuild
       Collection.

Section Saving.
Context {E : PyEnv}.
Variable asksaveasfilename : result string.
Variable generate_word : dict value -> string -> option string -> result unit.
Variable generate_pdf : dict value -> string -> result unit.

#[local] Abbreviation save_word := (save_to_word asksaveasfilename generate_word).
#[local] Abbreviation save_pdf := (save_to_pdf asksaveasfilename generate_pdf).

Lemma caught_is_Ok {A : Type} (body : result A) (handler : exn -> A) e :
  try_except_Exception body (fun e => Ok (handler e)) = Raise e ->
  body = Raise e /\ isinstance_Exception (exn_cls e) = false.
Proof.
  destruct body as [a|e0]; simpl; [discriminate|].
  destruct (isinstance_Exception (exn_cls e0)) eqn:H; [discriminate|].
  intros [= <-]. auto.
Qed.

Lemma collect_data_Raise (t : template) (fm : form) e :
  collect_data t fm = Raise e ->
  e = value_error "invalid literal for getboolean()".
Proof.
  unfold collect_data. intros H.
  destruct (collect_variables t (variables fm) []) as [d|e0] eqn:Hc;
    simpl in H; [discriminate|]. injection H as <-.
  destruct (collect_variables_Raise _ _ _ _ Hc) as (id & raw & Hin & Hr).
  now apply (BooleanVar_get_Raise raw).
Qed.

(** X16. Saving to Word and to PDF: no exception of the [Exception]
    classes comes out.  An error of the collection or of the generation is
    shown in an error dialog, with the text of the exception after the
    heading of the path; when the file dialog is cancelled nothing is
    generated and no dialog is shown; when the document is generated the
    dialog names the file. *)
Theorem save_outcomes (t : template) (fm : form) :
  (forall e, save_word t fm = Raise e ->
     isinstance_Exception (exn_cls e) = false) /\
  (forall e, save_pdf t fm = Raise e ->
     isinstance_Exception (exn_cls e) = false) /\
  (forall e, collect_data t fm = Raise e ->
     save_word t fm =
       Ok (Some (showerror "Error"
                   ("Error saving Word document:" ++ newline ++ exn_str e))) /\
     save_pdf t fm =
       Ok (Some (showerror "Error"
                   ("Error saving PDF document:" ++ newline ++ exn_str e)))) /\
  (forall data, collect_data t fm = Ok data -> asksaveasfilename = Ok "" ->
     save_word t fm = Ok None /\ save_pdf t fm = Ok None) /\
  (forall data filename,
     collect_data t fm = Ok data -> asksaveasfilename = Ok filename ->
     filename <> "" ->
     (generate_word data filename None = Ok tt ->
      save_word t fm =
        Ok (Some (showinfo "Success"
                    ("Document saved to:" ++ newline ++ filename)))) /\
     (forall e, generate_word data filename None = Raise e ->
      isinstance_Exception (exn_cls e) = true ->
      save_word t fm =
        Ok (Some (showerror "Error"
                    ("Error saving Word document:" ++ newline ++ exn_str e)))) /\
     (generate_pdf data filename = Ok tt ->
      save_pdf t fm =
        Ok (Some (showinfo "Success"
                    ("Document saved to:" ++ newline ++ filename)))) /\
     (forall e, generate_pdf data filename = Raise e ->
      isinstance_Exception (exn_cls e) = true ->
      save_pdf t fm =
        Ok (Some (showerror "Error"
                    ("Error saving PDF document:" ++ newline ++ exn_str e))))).
Proof.
  unfold save_to_word, save_to_pdf.
  split; [|split; [|split; [|split]]].
  - intros e H. now apply caught_is_Ok in H.
  - intros e H. now apply caught_is_Ok in H.
  - intros e He.
    pose proof (collect_data_Raise _ _ _ He) as Hcls. rewrite He.
    subst e. split; reflexivity.
  - intros data -> ->. simpl. auto.
  - intros data filename -> -> Hne. apply String.eqb_neq in Hne.
    cbn [bind]. rewrite Hne. cbn [negb].
    repeat split.
    + intros ->. reflexivity.
    + intros e -> Hcls. simpl. now rewrite Hcls.
    + intros ->. reflexivity.
    + intros e -> Hcls. simpl. now rewrite Hcls.
Qed.

End Saving.

Section SavingThroughTheGenerator.
Context {E : PyEnv}.
Variable asksaveasfilename : result string.
Variable word_template_path : string.
Variable os_path_exists : string -> bool.
Variable docx : Type.
Variable Document : string -> result docx.
Variable fill_word_template : docx -> dict value -> result docx.
Variable create_word_document_from_scratch : dict value -> result docx.
Variable docx_save : docx -> string -> result unit.
Variable pdf_build : string -> list (string * list (list string)) -> result unit.

(** X17. Saving through the generator: when a call of the export path
    raises an exception of the [Exception] classes, the dialog shows the
    heading of the form, then the heading of the generator, then the text
    of the exception raised. *)
Theorem save_shows_generator_error (t : template) (fm : form)
    (data : dict value) (filename : string) (e0 : exn) :
  collect_data t fm = Ok data ->
  asksaveasfilename = Ok filename -> filename <> "" ->
  isinstance_Exception (exn_cls e0) = true ->
  (word_document_body word_template_path os_path_exists docx Document
     fill_word_template create_word_document_from_scratch docx_save
     data filename None = Raise e0 ->
   save_to_word asksaveasfilename
     (generate_word_document word_template_path os_path_exists docx Document
        fill_word_template create_word_document_from_scratch docx_save)
     t fm =
   Ok (Some (showerror "Error"
               ("Error saving Word document:" ++ newline ++
                "Error generating Word document: " ++ exn_str e0)))) /\
  (pdf_document_body pdf_build data filename = Raise e0 ->
   save_to_pdf asksaveasfilename (generate_pdf_document pdf_build) t fm =
   Ok (Some (showerror "Error"
               ("Error saving PDF document:" ++ newline ++
                "Error generating PDF document: " ++ exn_str e0)))).
Proof.
  intros Hdata Hask Hne Hcls. apply String.eqb_neq in Hne.
  unfold save_to_word, save_to_pdf, generate_word_document,
    generate_pdf_document.
  rewrite Hdata, Hask. cbn [bind]. rewrite Hne. cbn [negb].
  split; intros ->; simpl; rewrite Hcls; reflexivity.
Qed.

End SavingThroughTheGenerator.

Section Loading.
Context {E : PyEnv}.
Variable askopenfilename : result string.
Variable read_template : string -> result template_file.
Variable command : string -> bool.

#[local] Abbreviation load :=
  (load_template_file askopenfilename read_template command).

Lemma create_field_Raise now f fm e :
  create_field now f fm = Raise e ->
  isinstance_Exception (exn_cls e) = true.
Proof.
  unfold create_field.
  destruct (field_type f =? "checkbox")%string.
  { destruct (new_BooleanVar (resolve_today now (default_of f)))
      as [var|e0] eqn:Hvar; cbn [bind]; [discriminate|].
    intros [= <-]. now apply (new_BooleanVar_Raise _ _ Hvar). }
  repeat match goal with
         | |- context [if ?b then _ else _] => destruct b
         end; try discriminate.
  now intros [= <-].
Qed.

Lemma create_field_variables now f fm fm' id' :
  create_field now f fm = Ok fm' ->
  In id' (keys (variables fm')) ->
  id' = field_id f \/ In id' (keys (variables fm)).
Proof.
  intros H Hin. destruct (String.eqb_spec id' (field_id f)) as [->|Hne].
  - now left.
  - right. destruct (create_field_other _ _ _ _ _ H Hne) as [Hv _].
    apply mem_true. apply mem_true in Hin. unfold mem in *. now rewrite <- Hv.
Qed.

(** The form that [build_fields] leaves has controls for ids of the fields
    and of the form it started from only; its error is what
    [create_sections] raises, and is of the [Exception] classes. *)
Lemma build_fields_spec clock fields : forall fm fm' err,
  build_fields clock fields fm = (fm', err) ->
  (forall k, In k (keys (variables fm')) ->
     In k (keys (variables fm)) \/ In k (map field_id fields)) /\
  (forall k, In k (keys (widgets fm')) ->
     In k (keys (widgets fm)) \/ In k (map field_id fields)) /\
  (forall e, err = Some e ->
     isinstance_Exception (exn_cls e) = true /\
     create_fields clock fields fm = Raise e) /\
  (err = None -> create_fields clock fields fm = Ok fm').
Proof.
  induction fields as [|f rest IH]; intros fm fm' err H; cbn [build_fields] in H.
  - injection H as <- <-. repeat split; auto; discriminate.
  - cbn [create_fields].
    destruct (create_field (clock (field_id f)) f fm) as [fm1|e1] eqn:H1.
    + destruct (IH _ _ _ H) as (Hv & Hw & He & Hok).
      split; [|split; [|split]].
      * intros k Hk. destruct (Hv k Hk) as [Hk1|Hk1].
        -- destruct (create_field_variables _ _ _ _ _ H1 Hk1) as [->|Hk0].
           ++ right. now left.
           ++ now left.
        -- right. now right.
      * intros k Hk. destruct (Hw k Hk) as [Hk1|Hk1].
        -- destruct (create_field_widgets _ _ _ _ _ H1 Hk1) as [->|Hk0].
           ++ right. now left.
           ++ now left.
        -- right. now right.
      * exact He.
      * exact Hok.
    + injection H as <- <-. repeat split; auto.
      * injection H as <-. now apply (create_field_Raise _ _ _ _ H1).
      * now injection H as <-.
      * discriminate.
Qed.

Lemma build_fields_Ok clock fields : forall fm fm',
  create_fields clock fields fm = Ok fm' ->
  build_fields clock fields fm = (fm', None).
Proof.
  induction fields as [|f rest IH]; intros fm fm' H;
    cbn [build_fields create_fields] in *.
  - now injection H as <-.
  - destruct (create_field (clock (field_id f)) f fm) as [fm1|e1];
      [|discriminate].
    now apply IH.
Qed.

Lemma make_buttons_complete (buttons : list button_spec) :
  forallb complete_button buttons = true ->
  make_buttons command buttons = (template_buttons command buttons, None).
Proof.
  induction buttons as [|b rest IH]; [reflexivity|].
  cbn [forallb make_buttons template_buttons flat_map]. unfold complete_button at 1.
  destruct (button_text b) as [text|]; [|discriminate].
  destruct (button_action b) as [action|]; [|discriminate].
  intros Hrest. cbn [andb] in Hrest. rewrite (IH Hrest).
  now destruct (command action).
Qed.

Lemma make_buttons_incomplete (buttons : list button_spec) :
  forallb complete_button buttons = false ->
  exists made key, make_buttons command buttons = (made, Some (key_error key)).
Proof.
  induction buttons as [|b rest IH]; [discriminate|].
  cbn [forallb make_buttons]. unfold complete_button at 1.
  destruct (button_text b) as [text|]; [|eauto].
  destruct (button_action b) as [action|]; [|eauto].
  intros Hrest. cbn [andb] in Hrest.
  destruct (IH Hrest) as (made & key & ->). eauto.
Qed.


End Loading.

Lemma save_outcomes_witness :
  save_to_word (Ok "report.docx") Samples.failing_save
               Samples.notes_template Samples.notes_form =
  Ok (Some (showerror "Error"
              ("Error saving Word document:" ++ newline ++
               "Error generating Word document: " ++
               "[Errno 13] Permission denied: report.docx"))).
Proof.
  destruct (collect_data Samples.notes_template Samples.notes_form)
    as [data|e] eqn:Hd; [|vm_compute in Hd; discriminate Hd].
  destruct (save_outcomes (Ok "report.docx") Samples.failing_save
              (generate_pdf_document Samples.failing_build)
              Samples.notes_template Samples.notes_form)
    as (_ & _ & _ & _ & H).
  destruct (H data "report.docx" Hd eq_refl) as (_ & Hw & _); [discriminate|].
  exact (Hw _ eq_refl eq_refl).
Defined.

Lemma save_shows_generator_error_witness :
  save_to_pdf (Ok "report.pdf")
              (generate_pdf_document Samples.failing_build)
              Samples.notes_template Samples.notes_form =
  Ok (Some (showerror "Error"
              ("Error saving PDF document:" ++ newline ++
               "Error generating PDF document: " ++
               "[Errno 13] Permission denied: report.pdf"))).
Proof.
  destruct (collect_data Samples.notes_template Samples.notes_form)
    as [data|e] eqn:Hd; [|vm_compute in Hd; discriminate Hd].
  assert (Hne : "report.pdf" <> "") by discriminate.
  exact (proj2 (save_shows_generator_error (Ok "report.pdf")
                  "template.docx" (fun _ => false) unit (fun _ => Ok tt)
                  (fun d _ => Ok d) (fun _ => Ok tt) (fun _ _ => Ok tt)
                  Samples.failing_build
                  Samples.notes_template Samples.notes_form data "report.pdf"
                  (mk_exn (ExceptionSubclass "PermissionError")
                          "[Errno 13] Permission denied: report.pdf")
                  Hd eq_refl Hne eq_refl)
               eq_refl).
Defined.


End Dialogs.
